(** * Scope_Bumble_bee: the oscilloscope host's protocol and planners

    A shallow embedding of the parts of [SerialHandler.cpp] and
    [MainWindow.cpp] that decide the acquisition state machine, the DDS
    planner, the calibration equation, the trigger check, the Bode magnitude
    and the digital frequency planner.

    Conventions.
    - A C++ [int] is a [Z] in the signed 32-bit range; where the source can
      leave that range the wrap-around [wrap32] is written out.  [a / b] on
      [int] is [Z.quot] (truncation), [>>] is [Z.shiftr], [&] is [Z.land].
    - A [char] stored in a [QByteArray] is its unsigned value in [0, 255].
    - A [double] is a binary64 [float]; the operations are the IEEE ones the
      compiler emits, in the order the source writes them.
    - Reading a [QVector] outside its bounds, dividing an [int] by zero,
      converting a [double] that is no [int] and a loop that never ends have
      no result in C++: the model returns the [Fault] that names the cause. *)

From Stdlib Require Import ZArith List Bool Lia.
From Stdlib Require Import Uint63 PrimFloat FloatOps FloatAxioms.
From stdpp Require Import base list.
Import ListNotations.

#[local] Set Warnings "-inexact-float".
Local Open Scope Z_scope.

(** ** Results of code that can go wrong *)

Inductive fault : Set :=
| OutOfBounds      (* a container read or written outside its bounds *)
| DivideByZero     (* integer division by zero *)
| NotAnInt         (* a double converted to int that does not fit *)
| NoFuel.          (* the loop did not end within the iterations allowed *)

Inductive outcome (A : Type) : Type :=
| Done (a : A)
| Fault (e : fault).
Arguments Done {A} a.
Arguments Fault {A} e.

Definition bind {A B} (m : outcome A) (k : A -> outcome B) : outcome B :=
  match m with
  | Done a => k a
  | Fault e => Fault e
  end.

Notation "'let*' x ':=' m 'in' k" := (bind m (fun x => k))
  (at level 10, x pattern, m at level 200, k at level 200).

(** [v[i]] and [v[i] = x] on a [QVector] or [std::vector] with an [int]
    index. *)
Definition at_index {A} (l : list A) (i : Z) : outcome A :=
  if i <? 0 then Fault OutOfBounds
  else match l !! Z.to_nat i with
       | Some a => Done a
       | None => Fault OutOfBounds
       end.

Definition store {A} (l : list A) (i : Z) (a : A) : outcome (list A) :=
  if (0 <=? i) && (i <? Z.of_nat (length l)) then Done (<[Z.to_nat i := a]> l)
  else Fault OutOfBounds.

(** [p] at each of the [n] integers from [lo] up: how a property of every
    value of a bounded input is checked by evaluation. *)
Fixpoint every (n : nat) (lo : Z) (p : Z -> bool) : bool :=
  match n with
  | O => true
  | S n' => p lo && every n' (lo + 1) p
  end.

(** [v.resize(n, fill)] when [v] is shorter than [n]. *)
Definition resize_at_least {A} (n : nat) (fill : A) (l : list A) : list A :=
  if (length l <? n)%nat then l ++ replicate (n - length l) fill else l.


(** ** Machine integers *)

Module CInt.

Definition INT_MAX : Z := 2147483647.
Definition INT_MIN : Z := -2147483648.

Definition in_int (z : Z) : Prop := INT_MIN <= z <= INT_MAX.
Definition in_intb (z : Z) : bool := (INT_MIN <=? z) && (z <=? INT_MAX).

(** Two's complement reduction of a mathematical result to [int]. *)
Definition wrap32 (z : Z) : Z := (z + 2147483648) mod 4294967296 - 2147483648.

(** [static_cast<char>(x)], kept as the unsigned byte. *)
Definition to_char (x : Z) : Z := x mod 256.

(** [a / b] on [int]. *)
Definition div (a b : Z) : outcome Z :=
  if b =? 0 then Fault DivideByZero else Done (wrap32 (Z.quot a b)).

End CInt.

(** ** Doubles and their conversions *)

Module Dbl.
Import CInt.

(** [int] to [double]: exact, every [int] is below 2^53. *)
Definition of_int (z : Z) : float :=
  if z <? 0 then PrimFloat.opp (PrimFloat.of_uint63 (Uint63.of_Z (- z)))
  else PrimFloat.of_uint63 (Uint63.of_Z z).

(** A finite non-zero double is [+/- m * 2^e]; the three integer
    roundings of its magnitude. *)
Definition magnitude_floor (m : positive) (e : Z) : Z :=
  if e >=? 0 then Z.pos m * 2 ^ e else Z.pos m / 2 ^ (- e).
Definition magnitude_ceil (m : positive) (e : Z) : Z :=
  if e >=? 0 then Z.pos m * 2 ^ e else - ((- Z.pos m) / 2 ^ (- e)).
Definition magnitude_round (m : positive) (e : Z) : Z :=
  if e >=? 0 then Z.pos m * 2 ^ e
  else (2 * Z.pos m + 2 ^ (- e)) / 2 ^ (- e + 1).

Definition integral (pos neg : positive -> Z -> Z) (x : float) : outcome Z :=
  match Prim2SF x with
  | SpecFloat.S754_zero _ => Done 0
  | SpecFloat.S754_finite s m e =>
      let z := if s then - neg m e else pos m e in
      if in_intb z then Done z else Fault NotAnInt
  | _ => Fault NotAnInt
  end.

(** [static_cast<int>(x)]: truncation toward zero. *)
Definition to_int : float -> outcome Z := integral magnitude_floor magnitude_floor.
(** [static_cast<int>(std::floor(x))]. *)
Definition floor_to_int : float -> outcome Z := integral magnitude_floor magnitude_ceil.
(** [static_cast<int>(round(x))]: halves away from zero. *)
Definition round_to_int : float -> outcome Z := integral magnitude_round magnitude_round.

End Dbl.

(** ** Digital frequency generator ([MainWindow::setDigitalFrequency]) *)

Module DigitalFreq.
Import CInt.

Record plan := mkPlan {
  dig_divider : Z;
  dig_index : Z;
  dig_count : Z;
  setDigCountCmd : list Z;
  setDigIndexCmd : list Z
}.

(** The nested [if (dig_count > 65535)] ladder. *)
Definition ladder (dig_count : Z) : Z * Z * Z :=
  if dig_count >? 65535 then
    let c1 := Z.quot dig_count 2 in
    if c1 >? 65535 then
      let c2 := Z.quot c1 2 in
      if c2 >? 65535 then
        let c3 := Z.quot c2 2 in
        if c3 >? 65535 then
          let c4 := Z.quot c3 8 in
          if c4 >? 65535 then
            let c5 := Z.quot c4 4 in
            if c5 >? 65535 then
              let c6 := Z.quot c5 4 in (1024, 6, c6)
            else (256, 5, c5)
          else (64, 4, c4)
        else (8, 3, c3)
      else (4, 2, c2)
    else (2, 1, c1)
  else (1, 0, dig_count).

Definition setDigitalFrequency (dig_freq : Z) : outcome plan :=
  let* count0 := div (32 * 1000000) dig_freq in
  let '(dvd, idx, cnt) := ladder count0 in
  Done {| dig_divider := dvd;
          dig_index := idx;
          dig_count := cnt;
          setDigCountCmd := [99; to_char (Z.quot cnt 256); to_char (Z.rem cnt 256)];
          setDigIndexCmd := [100; to_char idx; 0] |}.

End DigitalFreq.

(** ** DDS planner ([MainWindow::nextPowerOf2], [get_phase_step],
       [GetCount_GetIndex], [setFrequency]) *)

Module DDS.
Import CInt.

(** [while (n != 0) { n = n >> 1; count++; }]: the count on exit. *)
Fixpoint count_bits (fuel : nat) (n count : Z) : outcome Z :=
  if n =? 0 then Done count
  else match fuel with
       | O => Fault NoFuel
       | S fuel' => count_bits fuel' (Z.shiftr n 1) (count + 1)
       end.

(** An [int] has 32 bits: 32 shifts empty every non-negative value, and
    no number of shifts empties a negative one. *)
Definition nextPowerOf2 (n : Z) : outcome Z :=
  if n =? 0 then Done 1
  else let* count := count_bits 32 n 0 in
       Done (wrap32 (Z.shiftl 1 count)).

Definition get_phase_step (frequency fclock : Z) : outcome Z :=
  let phase_step_temp :=
    ((Dbl.of_int frequency * 65536) / Dbl.of_int fclock)%float in
  let* phase_step_int := Dbl.floor_to_int phase_step_temp in
  let* step := nextPowerOf2 phase_step_int in
  Done (if step <? 1 then 1 else step).

(** The locals and the table of [GetCount_GetIndex].  [writes] and
    [reads] are a trace kept for the proofs: every store into
    [DDS_Table] as (index, byte), and every index at which
    [DDS_Waveform] was read, oldest first. *)
Record fill := mkFill {
  table : list Z;
  phase_accumulator : Z;
  dds_index : Z;
  dds_count : Z;
  unique_indices : Z;
  last_index : Z;
  seen : list bool;
  writes : list (Z * Z);
  reads : list Z
}.

(** [DDS_Waveform.back()]. *)
Definition back (wave : list Z) : outcome Z :=
  at_index wave (Z.of_nat (length wave) - 1).

Definition loop_condition (st : fill) : bool :=
  (dds_count st <? 512) && (unique_indices st <? 256)
  && (dds_count st <? Z.of_nat (length (table st))).

(** One turn of the [while] loop. *)
Definition fill_step (wave : list Z) (phase_step : Z) (st : fill) : outcome fill :=
  let waveform_size := Z.of_nat (length wave) in
  let acc := wrap32 (phase_accumulator st + phase_step) in
  let idx0 := Z.shiftr acc 8 in
  let idx := if idx0 >=? 256 then 255 else idx0 in
  let* (v, rd) :=
    (if (waveform_size >? 0) && (idx <? waveform_size)
     then let* v := at_index wave idx in Done (v, [idx])
     else if waveform_size >? 0
     then let* v := back wave in Done (v, [waveform_size - 1])
     else Done (0, [])) in
  let* tbl := store (table st) (dds_count st) v in
  let* was_seen := at_index (seen st) idx in
  let* (sn, uq) :=
    (if negb was_seen
     then let* sn := store (seen st) idx true in Done (sn, unique_indices st + 1)
     else Done (seen st, unique_indices st)) in
  Done {| table := tbl;
          phase_accumulator := acc;
          dds_index := idx;
          dds_count := dds_count st + 1;
          unique_indices := uq;
          last_index := idx;
          seen := sn;
          writes := writes st ++ [(dds_count st, v)];
          reads := reads st ++ rd |}.

Fixpoint fill_loop (fuel : nat) (wave : list Z) (phase_step : Z) (st : fill)
  : outcome fill :=
  if loop_condition st then
    match fuel with
    | O => Fault NoFuel
    | S fuel' =>
        let* st' := fill_step wave phase_step st in
        fill_loop fuel' wave phase_step st'
    end
  else Done st.

(** [for (int i = dds_count; i < 512 && i < table_size; ++i)]. *)
Fixpoint pad_loop (fuel : nat) (wave : list Z) (i : Z) (st : fill)
  : outcome fill :=
  if (i <? 512) && (i <? Z.of_nat (length (table st))) then
    match fuel with
    | O => Fault NoFuel
    | S fuel' =>
        let* (v, rd) :=
          (if Z.of_nat (length wave) >? 0
           then let* v := at_index wave (last_index st) in Done (v, [last_index st])
           else Done (0, [])) in
        let* tbl := store (table st) i v in
        pad_loop fuel' wave (i + 1)
          {| table := tbl;
             phase_accumulator := phase_accumulator st;
             dds_index := dds_index st;
             dds_count := dds_count st;
             unique_indices := unique_indices st;
             last_index := last_index st;
             seen := seen st;
             writes := writes st ++ [(i, v)];
             reads := reads st ++ rd |}
    end
  else Done st.

(** [GetCount_GetIndex(phase_accumulator, phase_step, dds_index, dds_count)]
    on the members [DDS_Waveform] and [DDS_Table].  The last two
    parameters are overwritten before they are read.  Both loops count up
    to 512, so 512 turns are all they can take.  In the result
    [dds_count] is what the source stores in [intermediate_dds_count] and
    [dds_index] what it stores in [debug_dds_index]. *)
Definition GetCount_GetIndex (DDS_Waveform DDS_Table : list Z)
    (phase_accumulator phase_step : Z) : outcome fill :=
  let table_size := Z.of_nat (length DDS_Table) in
  let waveform_size := Z.of_nat (length DDS_Waveform) in
  let* (tbl, wr, rd) :=
    (if table_size >? 0 then
       if waveform_size >? 0 then
         let* v := at_index DDS_Waveform 0 in
         let* tbl := store DDS_Table 0 v in Done (tbl, [(0, v)], [0])
       else
         let* tbl := store DDS_Table 0 0 in Done (tbl, [(0, 0)], [])
     else Done (DDS_Table, [], [])) in
  let* sn := store (replicate 256 false) 0 true in
  let* st := fill_loop 512 DDS_Waveform phase_step
               {| table := tbl;
                  phase_accumulator := phase_accumulator;
                  dds_index := 0;
                  dds_count := 1;
                  unique_indices := 1;
                  last_index := 0;
                  seen := sn;
                  writes := wr;
                  reads := rd |} in
  pad_loop 512 DDS_Waveform (dds_count st) st.

(** What [setFrequency] leaves in the members the transmit path reads. *)
Record plan := mkPlan {
  useCycleStretch : bool;
  Ph_step_Powof2 : Z;
  DDS_Table : list Z;
  timer_period : Z;
  no_of_samples : Z;
  dds_array_length : Z;
  SetPeriodCmd : list Z;
  SamplesCmd : list Z
}.

(** [for (int i = 0; i < N; ++i)] of the cycle-stretch branch, [n] turns
    left. *)
Fixpoint stretch_loop (n : nat) (wave : list Z) (i : Z) (tbl : list Z)
  : outcome (list Z) :=
  match n with
  | O => Done tbl
  | S n' =>
      let waveform_size := Z.of_nat (length wave) in
      let* table_index :=
        Dbl.round_to_int
          (Dbl.of_int (wrap32 (i * (waveform_size - 1))) / Dbl.of_int (512 - 1))%float in
      let* v := at_index wave table_index in
      let* tbl' := store tbl i v in
      stretch_loop n' wave (i + 1) tbl'
  end.

(** [cmd[1] = static_cast<char>(v / 256); cmd[2] = static_cast<char>(v % 256);]
    on one of the command members: byte 0 is left as it was. *)
Definition set_payload (cmd : list Z) (v : Z) : outcome (list Z) :=
  let* cmd := store cmd 1 (to_char (Z.quot v 256)) in
  store cmd 2 (to_char (Z.rem v 256)).

(** [setFrequency()], with the spin box value already truncated to the
    [int] [Frequency].  It reads and writes four members: the master
    waveform, the table and the two three-byte commands, of which it
    writes bytes 1 and 2 only; their byte 0 is written by [runDDS] alone. *)
Definition setFrequency (Frequency : Z)
    (DDS_Waveform0 DDS_Table0 SetPeriodCmd0 SamplesCmd0 : list Z)
  : outcome plan :=
  let DDS_Waveform := resize_at_least 256 0 DDS_Waveform0 in
  let DDS_Table := replicate (length (resize_at_least 512 0 DDS_Table0)) 0 in
  let divider := 32 in
  let timer_clock := 32 * 1000000 in
  let* fclock := div timer_clock divider in
  if Frequency <? 1000 then
    let N := 512 in
    let* tbl := stretch_loop 512 DDS_Waveform 0 DDS_Table in
    let* timer_period0 := div timer_clock (wrap32 (Frequency * N)) in
    let timer_period := if timer_period0 >? 65535 then 65535 else timer_period0 in
    let no_of_samples := if N >? 512 then 512 else N in
    let* SetPeriodCmd := set_payload SetPeriodCmd0 timer_period in
    let* SamplesCmd := set_payload SamplesCmd0 no_of_samples in
    Done {| useCycleStretch := true;
            Ph_step_Powof2 := 0;
            DDS_Table := tbl;
            timer_period := timer_period;
            no_of_samples := no_of_samples;
            dds_array_length := N - 1;
            SetPeriodCmd := SetPeriodCmd;
            SamplesCmd := SamplesCmd |}
  else
    let* Ph := get_phase_step Frequency fclock in
    let* filled := GetCount_GetIndex DDS_Waveform DDS_Table 0 Ph in
    let fout := ((Dbl.of_int fclock * 1.0) / 65536)%float in
    let fout := (Dbl.of_int Ph * fout)%float in
    let* no_of_samples0 := Dbl.to_int (Dbl.of_int fclock / fout)%float in
    let* divider_corrected0 :=
      Dbl.round_to_int
        (Dbl.of_int divider * (fout * 1.0 / Dbl.of_int Frequency))%float in
    let divider_corrected :=
      if divider_corrected0 >? 65535 then 65535 else divider_corrected0 in
    let* clock_corrected := div timer_clock divider_corrected in
    let* phase_step_final :=
      Dbl.to_int ((fout * 65536) / Dbl.of_int fclock)%float in
    let timer_period0 := divider_corrected in
    let dds_array_length := dds_count filled - 1 in
    let* last := at_index (table filled) dds_array_length in
    let* tbl :=
      (if (last =? 0) && (dds_array_length >? 0)
       then let* prev := at_index (table filled) (dds_array_length - 1) in
            store (table filled) dds_array_length prev
       else Done (table filled)) in
    let timer_period := if timer_period0 >? 65535 then 65535 else timer_period0 in
    let no_of_samples := if no_of_samples0 >? 512 then 512 else no_of_samples0 in
    let* SetPeriodCmd := set_payload SetPeriodCmd0 timer_period in
    let* SamplesCmd := set_payload SamplesCmd0 no_of_samples in
    Done {| useCycleStretch := false;
            Ph_step_Powof2 := Ph;
            DDS_Table := tbl;
            timer_period := timer_period;
            no_of_samples := no_of_samples;
            dds_array_length := dds_array_length;
            SetPeriodCmd := SetPeriodCmd;
            SamplesCmd := SamplesCmd |}.

(** [sinTable] of [initializeWaveformTables]. *)
Definition sinTable : list Z :=
  [
   122; 124; 127; 130; 133; 136; 139; 142; 144; 147; 150; 153; 155; 158; 161; 164;
   166; 169; 172; 174; 177; 179; 182; 184; 187; 189; 191; 193; 196; 198; 200; 202;
   204; 206; 208; 210; 212; 214; 215; 217; 219; 220; 222; 223; 225; 226; 227; 228;
   230; 231; 232; 233; 233; 234; 235; 236; 236; 237; 237; 238; 238; 238; 238; 238;
   239; 238; 238; 238; 238; 238; 237; 237; 236; 236; 235; 234; 233; 233; 232; 231;
   230; 228; 227; 226; 225; 223; 222; 220; 219; 217; 215; 214; 212; 210; 208; 206;
   204; 202; 200; 198; 196; 193; 191; 189; 187; 184; 182; 179; 177; 174; 172; 169;
   166; 164; 161; 158; 155; 153; 150; 147; 144; 142; 139; 136; 133; 130; 127; 124;
   122; 120; 117; 114; 111; 108; 105; 102; 100; 97; 94; 91; 89; 86; 83; 80;
   78; 75; 72; 70; 67; 65; 62; 60; 57; 55; 53; 51; 48; 46; 44; 42;
   40; 38; 36; 34; 32; 30; 29; 27; 25; 24; 22; 21; 19; 18; 17; 16;
   14; 13; 12; 11; 11; 10; 9; 8; 8; 7; 7; 6; 6; 6; 6; 6;
   5; 6; 6; 6; 6; 6; 7; 7; 8; 8; 9; 10; 11; 11; 12; 13;
   14; 16; 17; 18; 19; 21; 22; 24; 25; 27; 29; 30; 32; 34; 36; 38;
   40; 42; 44; 46; 48; 51; 53; 55; 57; 60; 62; 65; 67; 70; 72; 75;
   78; 80; 83; 86; 89; 91; 94; 97; 100; 102; 105; 108; 111; 114; 117; 120
  ].

(** The output frequency the device realises: the 32 MHz clock divided by
    the timer period gives the sample rate, one period of the table takes
    [no_of_samples] samples.  [within_2_percent f p] is
    [|32e6 / (timer_period * no_of_samples) - f| / f <= 2/100]
    with the divisions cleared. *)
Definition within_2_percent (f : Z) (p : plan) : Prop :=
  100 * Z.abs (32000000 - f * (timer_period p * no_of_samples p))
  <= 2 * (f * (timer_period p * no_of_samples p)).

(** The spec's [ceil2], from its words:
    [ceil2(x) = 2^ceil(log2(max(x,1)))]. *)
Definition ceil2 (x : Z) : Z := 2 ^ Z.log2_up (Z.max x 1).

(** The members as the constructor leaves them: [DDS_Table(512, 0)],
    [SetPeriodCmd(3, 0)] and [SamplesCmd(3, 0)]. *)
Definition initial_table : list Z := replicate 512 0.
Definition initial_cmd : list Z := replicate 3 0.

(** *** What the table fill maintains *)

(** A store stays inside the first 512 entries of the table and copies a
    byte of the master waveform; a read of the master uses an index of at
    most 255. *)
Definition write_ok (wave table0 : list Z) (w : Z * Z) : Prop :=
  0 <= fst w <= 511 /\ fst w < Z.of_nat (length table0) /\ In (snd w) wave.

Definition read_ok (j : Z) : Prop := 0 <= j <= 255.

(** The table holds master bytes below [n]. *)
Record filled (wave table0 : list Z) (n : Z) (st : fill) : Prop := mkFilled {
  filled_length : length (table st) = length table0;
  filled_last : 0 <= last_index st <= 255;
  filled_index : 0 <= dds_index st <= 255;
  filled_writes : Forall (write_ok wave table0) (writes st);
  filled_reads : Forall read_ok (reads st);
  filled_prefix :
    forall i, 0 <= i < n -> i < Z.of_nat (length table0) ->
              exists v, table st !! Z.to_nat i = Some v /\ In v wave
}.

(** The invariant of the [while] loop: after [dds_count - 1] turns the
    accumulator has advanced by as many steps, without overflow. *)
Record inv (wave table0 : list Z) (pa0 step : Z) (st : fill) : Prop := mkInv {
  inv_filled : filled wave table0 (dds_count st) st;
  inv_count : 1 <= dds_count st <= 512;
  inv_acc : phase_accumulator st = pa0 + (dds_count st - 1) * step;
  inv_seen : length (seen st) = 256%nat
}.

(** *** What the table fill computes *)

(** With the accumulator started at zero, sample [k] of the table is the
    master at [k * step / 256], held at its last entry 255. *)
Definition sample_index (step k : Z) : Z := Z.min 255 (k * step / 256).

(** The invariant of the [while] loop that names the entries: the first
    [dds_count] entries are the samples, the others are untouched, and the
    count of distinct indices never passes the last index seen. *)
Record tracks (wave table0 : list Z) (step : Z) (st : fill) : Prop := mkTracks {
  tracks_inv : inv wave table0 0 step st;
  tracks_last : last_index st = sample_index step (dds_count st - 1);
  tracks_seen : seen st !! Z.to_nat (last_index st) = Some true;
  tracks_unique : unique_indices st <= last_index st + 1;
  tracks_table :
    forall k, 0 <= k < dds_count st -> k < Z.of_nat (length table0) ->
              table st !! Z.to_nat k = wave !! Z.to_nat (sample_index step k);
  tracks_rest :
    forall k, dds_count st <= k -> table st !! Z.to_nat k = table0 !! Z.to_nat k
}.

End DDS.

(** ** Acquisition state machine ([SerialHandler.cpp]) *)

Module SerialHandler.
Import CInt.

Inductive AcquisitionState : Set :=
| Idle | WaitingForDone | WaitingForCh1 | WaitingForCh2 | Complete.

Inductive signal : Set :=
| oscilloscopeRawDataReady (ch1 ch2 : list Z) (dataLength : Z) (dualChannel : bool)
| errorOccurred (timeout_in : AcquisitionState).

(** The state machine variables of the class. *)
Record acquisition := mkAcquisition {
  acqState : AcquisitionState;
  acqMode : Z;
  acqDataLength : Z;
  acqDualChannel : bool;
  ch1Raw : list Z;
  ch2Raw : list Z;
  bytesNeeded : Z
}.

(** The protocol parameters, written by [setProtocolParams] only. *)
Record protocol := mkProtocol {
  ch1Offset : Z;
  ch2Offset : Z;
  trigLevel : Z;
  trigSource : Z;
  trigPolarity : Z;
  sampleRateIdx : Z
}.

(** What the handler acts on: the two single-shot timers ([Some ms] while
    armed), the bytes the port has buffered, every frame written with the
    time of the write (oldest first), the signals emitted, and a clock in
    milliseconds that sleeps and timer waits advance.  The port is taken to
    be open. *)
Record world := mkWorld {
  timeoutTimer : option Z;
  setupTimer : option Z;
  incoming : list Z;
  written : list (Z * list Z);
  emitted : list signal;
  now : Z
}.

Record handler := mkHandler {
  acq : acquisition;
  proto : protocol;
  setupStep : Z;
  acquisitionInProgress : bool;
  env : world
}.

Definition STATE_TIMEOUT_MS : Z := 5000.

(** *** The collaborators' operations *)

Definition write (frame : list Z) (w : world) : world :=
  match frame with
  | [] => w
  | _ => mkWorld (timeoutTimer w) (setupTimer w) (incoming w)
           (written w ++ [(now w, frame)]) (emitted w) (now w)
  end.

Definition readAll (w : world) : world :=
  mkWorld (timeoutTimer w) (setupTimer w) [] (written w) (emitted w) (now w).

(** [serial->read(n)]: the bytes read and the world without them. *)
Definition read (n : Z) (w : world) : list Z * world :=
  (take (Z.to_nat n) (incoming w),
   mkWorld (timeoutTimer w) (setupTimer w) (drop (Z.to_nat n) (incoming w))
     (written w) (emitted w) (now w)).

Definition bytesAvailable (w : world) : Z := Z.of_nat (length (incoming w)).

Definition msleep (ms : Z) (w : world) : world :=
  mkWorld (timeoutTimer w) (setupTimer w) (incoming w) (written w) (emitted w)
    (now w + ms).

Definition timeoutTimer_start (ms : Z) (w : world) : world :=
  mkWorld (Some ms) (setupTimer w) (incoming w) (written w) (emitted w) (now w).

Definition timeoutTimer_stop (w : world) : world :=
  mkWorld None (setupTimer w) (incoming w) (written w) (emitted w) (now w).

Definition setupTimer_start (ms : Z) (w : world) : world :=
  mkWorld (timeoutTimer w) (Some ms) (incoming w) (written w) (emitted w) (now w).

(** [emit]: the signal is recorded.  (In the source the connected slots run
    before [emit] returns; what they do is not part of the handler.) *)
Definition emit (s : signal) (w : world) : world :=
  mkWorld (timeoutTimer w) (setupTimer w) (incoming w) (written w)
    (emitted w ++ [s]) (now w).

(** *** The member functions *)

Definition resetAcquisitionState (h : handler) : handler :=
  mkHandler
    (mkAcquisition Idle 1 200 true [] [] 0)
    (proto h) (setupStep h) false (timeoutTimer_stop (env h)).

(** The frame each setup step writes; steps 0 and 1 (the two offsets) have
    their [serial->write] commented out in the source. *)
Definition setup_frame (h : handler) (step : Z) : list Z :=
  let p := proto h in
  match step with
  | 0 => []
  | 1 => []
  | 2 => [84; to_char (trigSource p); 0]
  | 3 => [80; to_char (trigPolarity p); 0]
  | 4 => [76; to_char (Z.land (Z.shiftr (trigLevel p) 8) 255);
              to_char (Z.land (trigLevel p) 255)]
  | 5 => [70; to_char (acqMode (acq h)); 0]
  | 6 => [83; to_char (sampleRateIdx p); 0]
  | _ => []
  end.

Definition handleSetupStep (h : handler) : handler :=
  let step := setupStep h in
  if (0 <=? step) && (step <=? 6) then
    mkHandler (acq h) (proto h) (step + 1) (acquisitionInProgress h)
      (setupTimer_start 50 (write (setup_frame h step) (env h)))
  else if step =? 7 then
    let a := acq h in
    mkHandler
      (mkAcquisition WaitingForDone (acqMode a) (acqDataLength a)
         (acqDualChannel a) (ch1Raw a) (ch2Raw a) 1)
      (proto h) step (acquisitionInProgress h)
      (timeoutTimer_start STATE_TIMEOUT_MS (write [67; 0; 0] (env h)))
  else h.

Definition sendSetupSequence (h : handler) : handler :=
  handleSetupStep
    (mkHandler (acq h) (proto h) 0 (acquisitionInProgress h) (env h)).

Definition startOscilloscopeAcquisition (mode dataLength : Z) (dualChannel : bool)
    (h : handler) : handler :=
  if acquisitionInProgress h then h
  else
    let h1 := mkHandler (acq h) (proto h) (setupStep h) true (env h) in
    let h2 := resetAcquisitionState h1 in
    let a := acq h2 in
    let h3 :=
      mkHandler
        (mkAcquisition (acqState a) mode dataLength dualChannel
           (ch1Raw a) (ch2Raw a) (bytesNeeded a))
        (proto h2) (setupStep h2) (acquisitionInProgress h2) (env h2) in
    sendSetupSequence h3.

(** The data request after the acknowledgment: the frame, the byte count
    expected and the state entered.  With neither the dual flag nor mode 2
    or 3 the source writes an empty frame and changes nothing. *)
Definition data_request (a : acquisition) : list Z * Z * AcquisitionState :=
  if acqDualChannel a then ([68; 1; 0], 200, WaitingForCh1)
  else if acqMode a =? 2 then ([68; 3; 0], 400, WaitingForCh1)
  else if acqMode a =? 3 then ([68; 4; 0], 400, WaitingForCh2)
  else ([], bytesNeeded a, acqState a).

(** [handleReadyRead].  Every path through the body of its
    [while (bytesAvailable() > 0)] returns, so the body runs at most once. *)
Definition handleReadyRead (h : handler) : handler :=
  let a := acq h in
  let w := env h in
  if bytesAvailable w >? 0 then
    match acqState a with
    | Idle =>
        mkHandler a (proto h) (setupStep h) (acquisitionInProgress h) (readAll w)
    | WaitingForDone =>
        if bytesAvailable w <? bytesNeeded a then h
        else if (bytesNeeded a <=? 0) || (bytesAvailable w <? bytesNeeded a) then h
        else
          let '(ack, w1) := read (bytesNeeded a) w in
          let w2 := msleep 100 (readAll w1) in
          let '(dcmd, needed, next) :=
            data_request (mkAcquisition (acqState a) (acqMode a) (acqDataLength a)
                            (acqDualChannel a) [] [] (bytesNeeded a)) in
          mkHandler
            (mkAcquisition next (acqMode a) (acqDataLength a) (acqDualChannel a)
               [] [] needed)
            (proto h) (setupStep h) (acquisitionInProgress h)
            (timeoutTimer_start STATE_TIMEOUT_MS (write dcmd w2))
    | WaitingForCh1 =>
        if bytesAvailable w <? bytesNeeded a then
          mkHandler a (proto h) (setupStep h) (acquisitionInProgress h) (msleep 10 w)
        else if (bytesNeeded a <=? 0) || (bytesAvailable w <? bytesNeeded a) then h
        else
          let '(data, w1) := read (bytesNeeded a) w in
          if acqDualChannel a then
            mkHandler
              (mkAcquisition WaitingForCh2 (acqMode a) (acqDataLength a)
                 (acqDualChannel a) data (ch2Raw a) 200)
              (proto h) (setupStep h) (acquisitionInProgress h)
              (timeoutTimer_start STATE_TIMEOUT_MS (write [68; 2; 0] w1))
          else if acqMode a =? 2 then
            resetAcquisitionState
              (mkHandler
                 (mkAcquisition Complete (acqMode a) (acqDataLength a)
                    (acqDualChannel a) data (ch2Raw a) (bytesNeeded a))
                 (proto h) (setupStep h) (acquisitionInProgress h)
                 (emit (oscilloscopeRawDataReady data [] (acqDataLength a) false)
                    (timeoutTimer_stop w1)))
          else
            mkHandler
              (mkAcquisition (acqState a) (acqMode a) (acqDataLength a)
                 (acqDualChannel a) data (ch2Raw a) (bytesNeeded a))
              (proto h) (setupStep h) (acquisitionInProgress h) w1
    | WaitingForCh2 =>
        if bytesAvailable w <? bytesNeeded a then h
        else if (bytesNeeded a <=? 0) || (bytesAvailable w <? bytesNeeded a) then h
        else
          let '(data, w1) := read (bytesNeeded a) w in
          let w2 := timeoutTimer_stop w1 in
          let w3 :=
            if acqDualChannel a then
              emit (oscilloscopeRawDataReady (ch1Raw a) data (acqDataLength a) true) w2
            else if acqMode a =? 3 then
              emit (oscilloscopeRawDataReady [] data (acqDataLength a) false) w2
            else w2 in
          resetAcquisitionState
            (mkHandler
               (mkAcquisition Complete (acqMode a) (acqDataLength a)
                  (acqDualChannel a) (ch1Raw a) data (bytesNeeded a))
               (proto h) (setupStep h) (acquisitionInProgress h) w3)
    | Complete =>
        mkHandler a (proto h) (setupStep h) (acquisitionInProgress h) (readAll w)
    end
  else h.

(** *** Events from outside *)

(** The setup timer expires: its slot is [handleSetupStep]. *)
Definition setupTimer_timeout (h : handler) : handler :=
  match setupTimer (env h) with
  | Some ms =>
      let w := env h in
      handleSetupStep
        (mkHandler (acq h) (proto h) (setupStep h) (acquisitionInProgress h)
           (mkWorld (timeoutTimer w) None (incoming w) (written w) (emitted w)
              (now w + ms)))
  | None => h
  end.

(** The state timeout expires: the lambda connected in the constructor. *)
Definition timeoutTimer_timeout (h : handler) : handler :=
  match timeoutTimer (env h) with
  | Some ms =>
      let w := env h in
      let w1 := mkWorld None (setupTimer w) (incoming w) (written w) (emitted w)
                  (now w + ms) in
      resetAcquisitionState
        (mkHandler (acq h) (proto h) (setupStep h) (acquisitionInProgress h)
           (emit (errorOccurred (acqState (acq h))) (readAll w1)))
  | None => h
  end.

(** Bytes arrive on the port and [readyRead] is delivered. *)
Definition receive (bytes : list Z) (h : handler) : handler :=
  let w := env h in
  handleReadyRead
    (mkHandler (acq h) (proto h) (setupStep h) (acquisitionInProgress h)
       (mkWorld (timeoutTimer w) (setupTimer w) (incoming w ++ bytes)
          (written w) (emitted w) (now w))).

(** The handler as its constructor and in-class initialisers leave it,
    with the protocol parameters [p] set. *)
Definition fresh (p : protocol) : handler :=
  mkHandler (mkAcquisition Idle 1 200 true [] [] 0) p 0 false
    (mkWorld None None [] [] [] 0).

(** *** The caller ([MainWindow::onRunClicked]) *)

Inductive acquisition_mode : Set := BothChannels | CH1Only | CH2Only.

(** [MainWindow::acquisitionMode]: 0 = Both, 1 = CH1, 2 = CH2. *)
Definition acquisitionMode (m : acquisition_mode) : Z :=
  match m with BothChannels => 0 | CH1Only => 1 | CH2Only => 2 end.

Definition onRunClicked (m : acquisition_mode) (h : handler) : handler :=
  let acquisitionMode := acquisitionMode m in
  let dataLength := if acquisitionMode =? 0 then 200 else 400 in
  let mode := if acquisitionMode =? 0 then 1 else acquisitionMode + 1 in
  let dualChannel := acquisitionMode =? 0 in
  startOscilloscopeAcquisition mode dataLength dualChannel h.

(** [n] expiries of the setup timer in a row. *)
Fixpoint setup_ticks (n : nat) (h : handler) : handler :=
  match n with
  | O => h
  | S n' => setup_ticks n' (setupTimer_timeout h)
  end.

(** The frames written, without their times. *)
Definition frames (h : handler) : list (list Z) := map snd (written (env h)).

(** Everything that can happen to a handler, and a history of it. *)
Inductive event : Type :=
| Start (mode dataLength : Z) (dualChannel : bool)
| SetProtocolParams (p : protocol)
| SetupTimerExpires
| TimeoutTimerExpires
| ReadyRead (bytes : list Z).

Definition setProtocolParams (p : protocol) (h : handler) : handler :=
  mkHandler (acq h) p (setupStep h) (acquisitionInProgress h) (env h).

Definition step (e : event) (h : handler) : handler :=
  match e with
  | Start mode dataLength dualChannel =>
      startOscilloscopeAcquisition mode dataLength dualChannel h
  | SetProtocolParams p => setProtocolParams p h
  | SetupTimerExpires => setupTimer_timeout h
  | TimeoutTimerExpires => timeoutTimer_timeout h
  | ReadyRead bytes => receive bytes h
  end.

Definition run (history : list event) (h : handler) : handler :=
  fold_left (fun h e => step e h) history h.

(** *** Scenarios *)

(** A concrete set of protocol parameters: trigger on CH1, rising edge,
    mid-scale level, sample rate index 3. *)
Definition p0 : protocol := mkProtocol 100 (-50) 2048 1 0 3.

(** The handler when the setup sequence has run to its end. *)
Definition armed (p : protocol) (m : acquisition_mode) : handler :=
  setup_ticks 7 (onRunClicked m (fresh p)).

(** What the source sends and expects after the acknowledgment. *)
Definition read_command (m : acquisition_mode) : list Z :=
  match m with
  | BothChannels => [68; 1; 0]
  | CH1Only => [68; 3; 0]
  | CH2Only => [68; 4; 0]
  end.

Definition expected_bytes (m : acquisition_mode) : Z :=
  match m with BothChannels => 200 | CH1Only => 400 | CH2Only => 400 end.

Definition awaited (m : acquisition_mode) : AcquisitionState :=
  match m with
  | BothChannels => WaitingForCh1
  | CH1Only => WaitingForCh1
  | CH2Only => WaitingForCh2
  end.

(** The frames of an accepted start, with the times of their writes. *)
Definition setup_frames (p : protocol) (mode t : Z) : list (Z * list Z) :=
  [ (t + 100, [84; to_char (trigSource p); 0]);
    (t + 150, [80; to_char (trigPolarity p); 0]);
    (t + 200, [76; to_char (Z.land (Z.shiftr (trigLevel p) 8) 255);
                   to_char (Z.land (trigLevel p) 255)]);
    (t + 250, [70; to_char mode; 0]);
    (t + 300, [83; to_char (sampleRateIdx p); 0]) ].

(** *** Further members and what a history maintains *)

(** [setTrigger]: the level is stored and sent at once as an 'L' frame. *)
Definition setTrigger (level : Z) (h : handler) : handler :=
  let p := proto h in
  mkHandler (acq h)
    (mkProtocol (ch1Offset p) (ch2Offset p) level (trigSource p)
       (trigPolarity p) (sampleRateIdx p))
    (setupStep h) (acquisitionInProgress h)
    (write [76; to_char (Z.land (Z.shiftr level 8) 255);
                to_char (Z.land level 255)] (env h)).

(** [sendCommand]: the frame is written; [waitForBytesWritten] changes
    nothing the handler looks at. *)
Definition sendCommand (cmd : list Z) (h : handler) : handler :=
  mkHandler (acq h) (proto h) (setupStep h) (acquisitionInProgress h)
    (write cmd (env h)).

(** *** The slot inside [emit] *)

(** [handleReadyRead] with a slot connected to [oscilloscopeRawDataReady].
    Handler and window live in one thread, so the connection is direct: the
    slot runs inside [emit], on the handler as it is at that point, and the
    [resetAcquisitionState()] that follows the [emit] runs after it.  The
    paths that emit nothing are those of [handleReadyRead]. *)
Definition handleReadyRead_connected (slot : signal -> handler -> handler)
    (h : handler) : handler :=
  let a := acq h in
  let w := env h in
  if (bytesAvailable w >? 0)
     && negb (bytesAvailable w <? bytesNeeded a)
     && negb ((bytesNeeded a <=? 0) || (bytesAvailable w <? bytesNeeded a))
  then
    let '(data, w1) := read (bytesNeeded a) w in
    let completed ch1 ch2 :=
      mkAcquisition Complete (acqMode a) (acqDataLength a) (acqDualChannel a)
        ch1 ch2 (bytesNeeded a) in
    match acqState a with
    | WaitingForCh1 =>
        if negb (acqDualChannel a) && (acqMode a =? 2) then
          let s := oscilloscopeRawDataReady data [] (acqDataLength a) false in
          resetAcquisitionState
            (slot s
               (mkHandler (completed data (ch2Raw a)) (proto h) (setupStep h)
                  (acquisitionInProgress h) (emit s (timeoutTimer_stop w1))))
        else handleReadyRead h
    | WaitingForCh2 =>
        if acqDualChannel a then
          let s := oscilloscopeRawDataReady (ch1Raw a) data (acqDataLength a) true in
          resetAcquisitionState
            (slot s
               (mkHandler (completed (ch1Raw a) data) (proto h) (setupStep h)
                  (acquisitionInProgress h) (emit s (timeoutTimer_stop w1))))
        else if acqMode a =? 3 then
          let s := oscilloscopeRawDataReady [] data (acqDataLength a) false in
          resetAcquisitionState
            (slot s
               (mkHandler (completed (ch1Raw a) data) (proto h) (setupStep h)
                  (acquisitionInProgress h) (emit s (timeoutTimer_stop w1))))
        else handleReadyRead h
    | _ => handleReadyRead h
    end
  else handleReadyRead h.

Definition receive_connected (slot : signal -> handler -> handler)
    (bytes : list Z) (h : handler) : handler :=
  let w := env h in
  handleReadyRead_connected slot
    (mkHandler (acq h) (proto h) (setupStep h) (acquisitionInProgress h)
       (mkWorld (timeoutTimer w) (setupTimer w) (incoming w ++ bytes)
          (written w) (emitted w) (now w))).

(** What [MainWindow::onOscilloscopeRawDataReady] does to the handler when
    the window is running and the trigger line is inside the signal: a
    start when the trigger condition holds, then always a reset and a
    start, with the window's mode and data length. *)
Definition rearm (m : acquisition_mode) (dataLength : Z) (triggered : bool)
    (h : handler) : handler :=
  let acquisitionMode := acquisitionMode m in
  let serialMode := if acquisitionMode =? 0 then 1 else acquisitionMode + 1 in
  let serialDualChannel := acquisitionMode =? 0 in
  let h1 :=
    if triggered
    then startOscilloscopeAcquisition serialMode dataLength serialDualChannel h
    else h in
  startOscilloscopeAcquisition serialMode dataLength serialDualChannel
    (resetAcquisitionState h1).

(** What can happen to a handler: the events above, and the three other
    member functions the window calls on it. *)
Inductive call : Type :=
| Event (e : event)
| ResetAcquisitionState
| SendCommand (cmd : list Z)
| SetTrigger (level : Z).

Definition call_step (c : call) (h : handler) : handler :=
  match c with
  | Event e => step e h
  | ResetAcquisitionState => resetAcquisitionState h
  | SendCommand cmd => sendCommand cmd h
  | SetTrigger level => setTrigger level h
  end.

Definition calls (cs : list call) (h : handler) : handler :=
  fold_left (fun h c => call_step c h) cs h.

(** A capture signal carries 200 bytes per channel in dual mode and 400
    bytes in exactly one channel otherwise. *)
Definition signal_ok (s : signal) : Prop :=
  match s with
  | oscilloscopeRawDataReady ch1 ch2 _ dualChannel =>
      if dualChannel then length ch1 = 200%nat /\ length ch2 = 200%nat
      else (length ch1 = 400%nat /\ ch2 = []) \/ (ch1 = [] /\ length ch2 = 400%nat)
  | errorOccurred _ => True
  end.

(** What the state variables promise in each waiting state. *)
Definition acq_ok (a : acquisition) : Prop :=
  match acqState a with
  | Idle | Complete => True
  | WaitingForDone => bytesNeeded a = 1
  | WaitingForCh1 =>
      (acqDualChannel a = true /\ bytesNeeded a = 200) \/
      (acqDualChannel a = false /\ acqMode a = 2 /\ bytesNeeded a = 400)
  | WaitingForCh2 =>
      (acqDualChannel a = true /\ bytesNeeded a = 200
       /\ length (ch1Raw a) = 200%nat) \/
      (acqDualChannel a = false /\ acqMode a = 3 /\ bytesNeeded a = 400)
  end.

Definition handler_ok (h : handler) : Prop :=
  acq_ok (acq h) /\ Forall signal_ok (emitted (env h)).

Definition waiting (a : acquisition) : bool :=
  match acqState a with
  | WaitingForDone | WaitingForCh1 | WaitingForCh2 => true
  | Idle | Complete => false
  end.

(** The state timeout is armed, with its 5 s, exactly while the handler
    waits for bytes. *)
Definition guarded (h : handler) : Prop :=
  timeoutTimer (env h)
  = if waiting (acq h) then Some STATE_TIMEOUT_MS else None.

(** A frame of the protocol: an opcode of the handler (T, P, L, F, S, C,
    D) and two parameter bytes. *)
Definition frame_ok (frame : list Z) : Prop :=
  exists op b1 b2, frame = [op; b1; b2] /\
    In op [84; 80; 76; 70; 83; 67; 68] /\ 0 <= b1 <= 255 /\ 0 <= b2 <= 255.

End SerialHandler.

(** ** ADC to voltage ([MainWindow::onOscilloscopeRawDataReady]) *)

Module Calibration.
Local Open Scope float_scope.

Definition scaleFactor : float := 5.0 / 4.8.
Definition OC1 : float := 0.0.
Definition fixedOffset : float := 4.00.

(** [(ch1Offset / 100.0) / 2.0], the slider value as volts, halved. *)
Definition uiOffset (offset : Z) : float := (Dbl.of_int offset / 100.0) / 2.0.

(** One sample of CH1; [adc] is [static_cast<unsigned char>(ch1[i])]. *)
Definition ch1_voltage (ch1Gain : float) (ch1Offset : Z) (adc : Z) : float :=
  let adcValue := Dbl.of_int adc in
  let voltage :=
    (((((adcValue * 10.0) / 128.0) - 10.0 + OC1) * scaleFactor) / ch1Gain)
    + OC1 + fixedOffset + uiOffset ch1Offset in
  voltage - 3.78.

(** One sample of CH2: the source writes no offset-correction term. *)
Definition ch2_voltage (ch2Gain : float) (ch2Offset : Z) (adc : Z) : float :=
  let adcValue := Dbl.of_int adc in
  let voltage :=
    (((((adcValue * 10.0) / 128.0) - 10.0) * scaleFactor) / ch2Gain)
    + fixedOffset + uiOffset ch2Offset in
  voltage - 3.78.

(** The items of the two gain combo boxes. *)
Definition gains : list float := [1.0; 2.0; 4.0; 8.0; 16.0; 32.0].

(** The range of the two offset sliders, [setRange(-1694, 1695)]. *)
Definition offset_min : Z := -1694.
Definition offset_max : Z := 1695.

(** The spec's equation, from its words:
    [v = ((adc*10/128 - 10 + OC) * 5/4.8 / gain) + OC + fixed_baseline
         + ui_offset/200 - 3.78], with [fixed_baseline = 4.0] and the
    calibration factor [5/4.8]. *)
Definition spec_voltage (OC gain : float) (ui_offset : Z) (adc : Z) : float :=
  ((((Dbl.of_int adc * 10 / 128 - 10 + OC) * (5 / 4.8)) / gain)
   + OC + 4.0 + Dbl.of_int ui_offset / 200) - 3.78.

(** The integers [lo, lo + n). *)
Definition zrange (lo : Z) (n : nat) : list Z :=
  map (fun k => (lo + Z.of_nat k)%Z) (seq 0 n).

End Calibration.

(** ** Trigger check ([MainWindow::checkTriggerCondition] and its caller) *)

Module Trigger.
Local Open Scope float_scope.

(** The trigger source radio button that is checked. *)
Inductive source : Set := Auto | CH1 | CH2 | External.
Inductive polarity : Set := RisingEdge | FallingEdge.

(** The trigger settings of the window. *)
Record settings := mkSettings {
  trigRadio : source;
  trigPolarity : polarity;
  trigLevel : Z;
  ch1Gain : float;
  ch2Gain : float
}.

(** [*std::min_element(first, last)] and [*std::max_element(first, last)]
    on a non-empty range: the running best is replaced on a strict
    comparison only. *)
Fixpoint min_from (best : float) (rest : list float) : float :=
  match rest with
  | [] => best
  | x :: rest' => min_from (if x <? best then x else best) rest'
  end.

Fixpoint max_from (best : float) (rest : list float) : float :=
  match rest with
  | [] => best
  | x :: rest' => max_from (if best <? x then x else best) rest'
  end.

(** The channel [checkTriggerCondition] looks at. *)
Definition triggerData (s : settings) (ch1Data ch2Data : list float) : list float :=
  match trigRadio s with
  | CH1 => ch1Data
  | CH2 => ch2Data
  | _ => ch1Data
  end.

Definition checkTriggerCondition (s : settings) (ch1Data ch2Data : list float)
  : bool :=
  match triggerData s ch1Data ch2Data with
  | [] => false
  | x :: rest =>
      let minVoltage := min_from x rest in
      let maxVoltage := max_from x rest in
      let signalRange := maxVoltage - minVoltage in
      0.1 <? signalRange
  end.

(** [std::round] on a double: halves away from zero. *)
Definition round (x : float) : float :=
  match Prim2SF x with
  | SpecFloat.S754_finite s m e =>
      if (e >=? 0)%Z then x
      else let r := PrimFloat.of_uint63 (Uint63.of_Z (Dbl.magnitude_round m e)) in
           if s then - r else r
  | _ => x
  end.

(** The trigger line in volts, rounded to 0.01 V. *)
Definition trigLine (s : settings) : float :=
  let gain :=
    match trigRadio s with
    | CH1 => ch1Gain s
    | CH2 => ch2Gain s
    | _ => 1.0
    end in
  let trigLine := (Dbl.of_int (trigLevel s) * 10.0 / 2048.0 - 10.0) / gain in
  round (trigLine * 100.0) / 100.0.

Inductive verdict : Set :=
| Released            (* the buffers and the plot are updated *)
| Held                (* not triggered: the frame is dropped *)
| TriggerOutOfRange.  (* warning, switch to auto trigger, return *)

(** The "universal trigger logic" of [onOscilloscopeRawDataReady]: the
    range check on the trigger line, then [checkTriggerCondition]. *)
Definition evaluate (s : settings) (ch1Volts ch2Volts : list float) : verdict :=
  let signalData :=
    match trigRadio s, ch1Volts, ch2Volts with
    | CH1, x :: rest, _ => Some (x, rest)
    | CH2, _, x :: rest => Some (x, rest)
    | _, _, _ => None
    end in
  let outside :=
    match signalData with
    | Some (x, rest) =>
        let waveformMin := min_from x rest in
        let waveformMax := max_from x rest in
        (waveformMax <? trigLine s) || (trigLine s <? waveformMin)
    | None => false
    end in
  if outside then TriggerOutOfRange
  else if checkTriggerCondition s ch1Volts ch2Volts then Released
  else Held.

(** The spec's edge condition, from its words: some adjacent pair
    [(v[i-1], v[i])] with [v[i-1] < L <= v[i]] (rising) or
    [v[i-1] > L >= v[i]] (falling). *)
Fixpoint has_edge (p : polarity) (L : float) (v : list float) : bool :=
  match v with
  | a :: ((b :: _) as rest) =>
      (match p with
       | RisingEdge => (a <? L) && (L <=? b)
       | FallingEdge => (L <? a) && (b <=? L)
       end) || has_edge p L rest
  | _ => false
  end.

(** Mid-scale level on CH1, rising edge, gain 1: the trigger line is 0 V. *)
Definition ch1_rising : settings := mkSettings CH1 RisingEdge 2048 1 1.

End Trigger.

(** ** Bode magnitude ([MainWindow::plotBodePlot]) *)

Module Bode.
Local Open Scope float_scope.

Section WithLog10.

(** [log10] of [<cmath>] is not part of the kernel's floats: the analysis
    is a function of it. *)
Variable log10 : float -> float.

(** The lambda [findLocalExtrema]: the interior samples strictly above
    (below) both neighbours, in order. *)
Fixpoint local_extrema (data : list float) : list float * list float :=
  match data with
  | a :: ((b :: c :: _) as rest) =>
      let '(maxs, mins) := local_extrema rest in
      (if (a <? b) && (c <? b) then b :: maxs else maxs,
       if (b <? a) && (b <? c) then b :: mins else mins)
  | _ => ([], [])
  end.

(** [xs.isEmpty() ? 0.0 : std::accumulate(xs, 0.0) / xs.size()]. *)
Definition average (xs : list float) : float :=
  match xs with
  | [] => 0.0
  | _ => fold_left PrimFloat.add xs 0.0 / Dbl.of_int (Z.of_nat (length xs))
  end.

Definition amplitude (wave : list float) : float :=
  let '(maxs, mins) := local_extrema wave in
  (average maxs - average mins) / 2.0.

(** What one sweep point contributes: the value appended to
    [sweepMagnitudes], and whether the point is appended to
    [invalidFreqs].  The phase, computed between the two in the source, does
    not enter either. *)
Record point := mkPoint {
  magnitude : float;
  invalid : bool
}.

Definition analyse (inWaveFull outWaveFull : list float) : point :=
  let N := Nat.min (length inWaveFull) (length outWaveFull) in
  if (N <=? 20)%nat then mkPoint 0.0 true
  else
    let inWave := drop 20 inWaveFull in
    let outWave := drop 20 outWaveFull in
    let inAmp := amplitude inWave in
    let outAmp := amplitude outWave in
    let gain := if 1e-9 <? inAmp then 20.0 * log10 (outAmp / inAmp) else 0.0 in
    mkPoint gain ((inAmp <=? 1e-9) || (outAmp <=? 1e-9)).

(** The loop of [plotBodePlot] over the sweep: [sweepMagnitudes] and
    [invalidFreqs].  Nothing is plotted when a list is empty or the lengths
    differ. *)
Definition plotBodePlot (sweepFrequencies : list float)
    (sweepInputWaves sweepOutputWaves : list (list float))
  : option (list float * list float) :=
  match sweepFrequencies, sweepInputWaves, sweepOutputWaves with
  | [], _, _ | _, [], _ | _, _, [] => None
  | _, _, _ =>
      if negb ((length sweepFrequencies =? length sweepInputWaves)%nat
               && (length sweepFrequencies =? length sweepOutputWaves)%nat)
      then None
      else
        let points := zip_with analyse sweepInputWaves sweepOutputWaves in
        Some (map magnitude points,
              map fst (filter (fun fp => invalid (snd fp) = true)
                         (zip sweepFrequencies points)))
  end.

End WithLog10.

(** Twenty settling samples, then one period of a unit sine sampled at its
    quarter points. *)
Definition unit_sine : list float := replicate 20 0 ++ [0; 1; 0; -1; 0].

(** A channel that holds one level for the whole capture, as CH2 does when
    the circuit under test gives no output. *)
Definition flat : list float := replicate 25 0.5.


(** The same two captures as raw ADC bytes: CH1 swings 13 codes around
    mid-scale, CH2 stays at mid-scale; both at gain 1, offset 0. *)
Definition sine_codes : list Z := replicate 20 128%Z ++ [128; 141; 128; 115; 128]%Z.
Definition flat_codes : list Z := replicate 25 128%Z.

Definition sine_volts : list float := map (Calibration.ch1_voltage 1 0) sine_codes.
Definition flat_volts : list float := map (Calibration.ch2_voltage 1 0) flat_codes.

(** The lambda [movingAverage]: a copy of [data] whose interior entries
    are the mean of the entry and its two neighbours in [data]; [prev] is
    the entry before [rest]. *)
Fixpoint smooth_from (prev : float) (rest : list float) : list float :=
  match rest with
  | b :: ((c :: _) as tl) => (prev + b + c) / 3.0 :: smooth_from b tl
  | _ => rest
  end.

Definition movingAverage (data : list float) : list float :=
  match data with
  | [] => []
  | a :: rest => a :: smooth_from a rest
  end.

(** [for (int filterPass = 0; filterPass < 3; ++filterPass)]. *)
Definition smoothed (data : list float) : list float :=
  movingAverage (movingAverage (movingAverage data)).

(** The lambda [findFirstZeroCrossing]; [i] is the index of the head of
    [rest] and [prev] the entry before it. *)
Fixpoint first_crossing_from (i : Z) (prev : float) (rest : list float) : Z :=
  match rest with
  | [] => (-1)%Z
  | x :: rest' =>
      if (prev <? 0) && (0 <=? x) then i
      else first_crossing_from (i + 1)%Z x rest'
  end.

Definition findFirstZeroCrossing (data : list float) : Z :=
  match data with
  | [] => (-1)%Z
  | x :: rest => first_crossing_from 1%Z x rest
  end.

(** [data[i-1] < 0 && data[i] >= 0] at an index inside the vector. *)
Definition crossing (data : list float) (i : Z) : bool :=
  match data !! Z.to_nat (i - 1), data !! Z.to_nat i with
  | Some a, Some b => (a <? 0) && (0 <=? b)
  | _, _ => false
  end.

End Bode.

(** ** Averaging at 2 Mbps ([MainWindow::onOscilloscopeRawDataReady],
       [MainWindow::averageData]) *)

Module Averaging.

(** One turn of [for (int i = 1; i < dataLength; i += 2)]. *)
Definition average_turn (temp : list float) (dataLength i : Z) (out : list float)
  : outcome (list float) :=
  let size := Z.of_nat (length temp) in
  let* v :=
    (if Z.quot i 2 + 1 <? size
     then let* a := at_index temp (Z.quot i 2) in
          let* b := at_index temp (Z.quot i 2 + 1) in
          Done ((a + b) / 2.0)%float
     else at_index temp (Z.quot i 2)) in
  let* out1 := store out i v in
  if (i + 1 <? dataLength) && (Z.quot i 2 + 1 <? size)
  then let* b := at_index temp (Z.quot i 2 + 1) in store out1 (i + 1) b
  else Done out1.

Fixpoint average_loop (fuel : nat) (temp : list float) (dataLength i : Z)
    (out : list float) : outcome (list float) :=
  if i <? dataLength then
    match fuel with
    | O => Fault NoFuel
    | S fuel' =>
        let* out' := average_turn temp dataLength i out in
        average_loop fuel' temp dataLength (i + 2) out'
    end
  else Done out.

(** What the block does to one channel's volts: nothing when the channel
    is empty; otherwise the vector is resized to [dataLength], keeps its
    first sample and is rewritten from a copy of itself.  The loop adds 2 to
    [i] each turn, so [dataLength] turns are more than it can take. *)
Definition average_channel (dataLength : Z) (volts : list float)
  : outcome (list float) :=
  match volts with
  | [] => Done volts
  | _ =>
      if dataLength <? 0 then Fault OutOfBounds
      else
        let temp := volts in
        let out := resize (Z.to_nat dataLength) 0%float volts in
        let* first := at_index temp 0 in
        let* out := store out 0 first in
        average_loop (Z.to_nat dataLength) temp dataLength 1 out
  end.

(** Sample [k] of a record interpolated to twice its density: an even
    [k] is sample [k / 2] of the record, an odd [k] the mean of samples
    [k / 2] and [k / 2 + 1], or sample [k / 2] when it is the last. *)
Definition interpolated (volts : list float) (k : Z) : option float :=
  if k mod 2 =? 0 then volts !! Z.to_nat (k / 2)
  else match volts !! Z.to_nat (k / 2), volts !! Z.to_nat (k / 2 + 1) with
       | Some a, Some b => Some ((a + b) / 2.0)%float
       | Some a, None => Some a
       | None, _ => None
       end.

End Averaging.

(** ** The sweep's sample rate ([findSampleRateIndex]) *)

Module Sweep.
Local Open Scope float_scope.

Definition sampleRates : list float :=
  [2000000; 1000000; 500000; 200000; 100000; 50000; 20000; 10000; 5000; 2000;
   1000; 500; 200; 100].

(** [for (int i = 13; i >= 0; --i)] with [n = i + 1]: the turn at index
    [i], then the turns below it; [return 0] after the loop. *)
Fixpoint search_down (n : nat) (freq : float) : Z :=
  match n with
  | O => 0%Z
  | S i =>
      if 9 * freq <? nth i sampleRates 0 then Z.of_nat i
      else search_down i freq
  end.

Definition findSampleRateIndex (freq : float) : Z := search_down 14 freq.

End Sweep.

(** ** Starting the generator ([MainWindow::runDDS]) *)

Module Generator.
Import CInt DDS SerialHandler.

(** [QThread::msleep] between two commands. *)
Definition sleep (ms : Z) (h : handler) : handler :=
  mkHandler (acq h) (proto h) (setupStep h) (acquisitionInProgress h)
    (msleep ms (env h)).

(** [runDDS()], with the master the combo box selects in [DDS_Waveform]
    and the spin box value in [Frequency]; the serial handler exists.
    [SetPeriodCmd0] and [SamplesCmd0] are the two command members as the
    call finds them.  The result is the plan and the handler after the
    four commands. *)
Definition runDDS (Frequency : Z)
    (DDS_Waveform DDS_Table SetPeriodCmd0 SamplesCmd0 : list Z) (h : handler)
  : outcome (plan * handler) :=
  let* p := setFrequency Frequency DDS_Waveform DDS_Table SetPeriodCmd0 SamplesCmd0 in
  let SetPeriodCmd := <[0%nat := 112]> (resize_at_least 3 0 (SetPeriodCmd p)) in
  let SamplesCmd := <[0%nat := 78]> (resize_at_least 3 0 (SamplesCmd p)) in
  let h := sleep 20 (sendCommand SetPeriodCmd h) in
  let h := sleep 20 (sendCommand SamplesCmd h) in
  let safe_samples :=
    Z.min (no_of_samples p) (Z.of_nat (length (DDS.DDS_Table p))) in
  if (safe_samples <=? 0) || (safe_samples >? 512) then Done (p, h)
  else
    let DDS_OutCmd :=
      [114; 0; 0]
      ++ map to_char (take (Z.to_nat safe_samples) (DDS.DDS_Table p)) in
    let h := sleep 20 (sendCommand DDS_OutCmd h) in
    let RunDDSCmd := [102; 0; 0] in
    Done (p, sendCommand RunDDSCmd h).

End Generator.

(** ** Sending the trigger settings ([MainWindow::setTriggerMode]) *)

Module TriggerMode.
Import CInt SerialHandler.

(** [2048 + static_cast<int>(((trigLevelValue - 2048) / gain) / (4.0 / 3.0))],
    clamped to 12 bits. *)
Definition trigForUp (trigLevelValue : Z) (gain : float) : outcome Z :=
  let* q :=
    Dbl.to_int ((Dbl.of_int (trigLevelValue - 2048) / gain) / (4.0 / 3.0))%float in
  let t := wrap32 (2048 + q) in
  let t := if t <? 0 then 0 else t in
  Done (if t >? 4095 then 4095 else t).

(** The 'L' frame of the window: the 12-bit value left-justified in two
    bytes. *)
Definition setTrigValue (trigForUp : Z) : list Z :=
  let msb8 := Z.quot trigForUp 16 in
  let lsb4 := (trigForUp - msb8 * 16) * 16 in
  [76; to_char msb8; to_char lsb4].

(** [setTriggerMode()]: three commands 20 ms apart, then the check of the
    trigger line against the buffered waveform, which switches the source
    to Auto when the line is outside it (the warning dialog shown then is
    taken to return at once).  The result is the settings after the call
    and the handler. *)
Definition setTriggerMode (s : Trigger.settings) (ch1Buffer ch2Buffer : list float)
    (h : handler) : outcome (Trigger.settings * handler) :=
  let source :=
    match Trigger.trigRadio s with
    | Trigger.Auto => 0
    | Trigger.CH1 => 1
    | Trigger.CH2 => 2
    | Trigger.External => 3
    end in
  let h := Generator.sleep 20 (sendCommand [84; source; 0] h) in
  let polarity :=
    match Trigger.trigPolarity s with
    | Trigger.FallingEdge => 1
    | Trigger.RisingEdge => 0
    end in
  let h := Generator.sleep 20 (sendCommand [80; polarity; 0] h) in
  let gain :=
    match Trigger.trigRadio s with
    | Trigger.CH1 => Trigger.ch1Gain s
    | Trigger.CH2 => Trigger.ch2Gain s
    | _ => 1.0%float
    end in
  let* t := trigForUp (Trigger.trigLevel s) gain in
  let h := Generator.sleep 20 (sendCommand (setTrigValue t) h) in
  let signalData :=
    match Trigger.trigRadio s, ch1Buffer, ch2Buffer with
    | Trigger.CH1, x :: rest, _ => Some (x, rest)
    | Trigger.CH2, _, x :: rest => Some (x, rest)
    | _, _, _ => None
    end in
  let outside :=
    match signalData with
    | Some (x, rest) =>
        (Trigger.max_from x rest <? Trigger.trigLine s)%float
        || (Trigger.trigLine s <? Trigger.min_from x rest)%float
    | None => false
    end in
  Done (if outside
        then Trigger.mkSettings Trigger.Auto (Trigger.trigPolarity s)
               (Trigger.trigLevel s) (Trigger.ch1Gain s) (Trigger.ch2Gain s)
        else s,
        h).

(** The local [gain] of [setTriggerMode]: [ch1Gain] when the CH1 radio
    button is checked, [ch2Gain] when the CH2 one is, 1.0 otherwise. *)
Definition trigger_gain (s : Trigger.settings) : float :=
  match Trigger.trigRadio s with
  | Trigger.CH1 => Trigger.ch1Gain s
  | Trigger.CH2 => Trigger.ch2Gain s
  | _ => 1.0%float
  end.

(** [if (x < 0) x = 0; if (x > 4095) x = 4095;] *)
Definition clamp12 (x : Z) : Z :=
  if x <? 0 then 0 else if x >? 4095 then 4095 else x.

(** The gains of the combo boxes with their integer values. *)
Definition whole_gains : list (float * Z) :=
  [(1.0%float, 1); (2.0%float, 2); (4.0%float, 4); (8.0%float, 8);
   (16.0%float, 16); (32.0%float, 32)].

(** The 'L' frame the handler's setup sequence writes for a level. *)
Definition handler_level_frame (level : Z) : list Z :=
  setup_frame (setTrigger level (fresh p0)) 4.

End TriggerMode.

(** ** The window's calls on the handler ([MainWindow::onRunClicked],
       [MainWindow::onSampleRateChanged]) *)

Module Window.
Import CInt SerialHandler.

(** The members of the window these two slots read and write;
    [sampleRateIndex] is [sampleRateCombo->currentIndex()]. *)
Record window := mkWindow {
  settings : Trigger.settings;
  ch1Offset : Z;
  ch2Offset : Z;
  trigSource : Z;
  trigPolarity : Z;
  sampleRateIndex : Z;
  acquisitionMode : acquisition_mode;
  isRunning : bool;
  isConnected : bool;
  ch1Buffer : list float;
  ch2Buffer : list float;
  multiplier : float
}.

Definition with_settings (s : Trigger.settings) (running : bool) (w : window)
  : window :=
  mkWindow s (ch1Offset w) (ch2Offset w) (trigSource w) (trigPolarity w)
    (sampleRateIndex w) (acquisitionMode w) running (isConnected w)
    (ch1Buffer w) (ch2Buffer w) (multiplier w).

(** [onRunClicked()]: the protocol parameters are handed over with the
    combo box index as it is, the trigger settings are sent, and 100 ms
    later the acquisition is started. *)
Definition onRunClicked (w : window) (h : handler) : outcome (window * handler) :=
  if negb (isConnected w) then Done (w, h)
  else
    let h :=
      setProtocolParams
        (mkProtocol (ch1Offset w) (ch2Offset w) (Trigger.trigLevel (settings w))
           (trigSource w) (trigPolarity w) (sampleRateIndex w)) h in
    let* (s, h) :=
      TriggerMode.setTriggerMode (settings w) (ch1Buffer w) (ch2Buffer w) h in
    let h := Generator.sleep 100 h in
    Done (with_settings s true w,
          SerialHandler.onRunClicked (acquisitionMode w) h).

(** The [switch (sampleRateSelection)] of [onSampleRateChanged]:
    microseconds per sample. *)
Definition selection_multiplier (sampleRateSelection : Z) : float :=
  match sampleRateSelection with
  | 1 => 0.5 | 2 => 1.0 | 3 => 2.0 | 4 => 5.0 | 5 => 10.0 | 6 => 20.0
  | 7 => 50.0 | 8 => 100.0 | 9 => 200.0 | 10 => 500.0 | 11 => 1000.0
  | 12 => 2000.0 | 13 => 5000.0 | 14 => 10000.0
  | _ => 5.0
  end%float.

(** [onSampleRateChanged(index)], called when the combo box has moved to
    [index]: the protocol parameters are handed over with [index + 1], and
    while running the rate is also sent at once. *)
Definition onSampleRateChanged (index : Z) (w : window) (h : handler)
  : window * handler :=
  let sampleRateSelection := wrap32 (index + 1) in
  let w :=
    mkWindow (settings w) (ch1Offset w) (ch2Offset w) (trigSource w)
      (trigPolarity w) index (acquisitionMode w) (isRunning w) (isConnected w)
      (ch1Buffer w) (ch2Buffer w) (selection_multiplier sampleRateSelection) in
  let h :=
    setProtocolParams
      (mkProtocol (ch1Offset w) (ch2Offset w) (Trigger.trigLevel (settings w))
         (trigSource w) (trigPolarity w) sampleRateSelection) h in
  (w,
   if isRunning w && isConnected w
   then sendCommand [83; to_char sampleRateSelection; 0] h
   else h).

End Window.

(** * Properties *)

(** ** Machine integers *)

Module CIntFacts.
Import CInt.

Lemma wrap32_id z : in_int z -> wrap32 z = z.
Proof.
  unfold in_int, INT_MIN, INT_MAX, wrap32. intros H.
  rewrite Z.mod_small by lia. lia.
Qed.

Lemma wrap32_range z : in_int (wrap32 z).
Proof.
  unfold in_int, INT_MIN, INT_MAX, wrap32.
  pose proof (Z.mod_pos_bound (z + 2147483648) 4294967296 ltac:(lia)). lia.
Qed.

Lemma to_char_range x : 0 <= to_char x <= 255.
Proof.
  unfold to_char. pose proof (Z.mod_pos_bound x 256 ltac:(lia)). lia.
Qed.

End CIntFacts.

(** ** Conversions between doubles and ints *)

Module DblFacts.
Local Open Scope float_scope.

Example of_int_samples :
  map Dbl.of_int [0; 1; 255; -1694; 32000000]%Z = [0; 1; 255; -1694; 32000000].
Proof. vm_compute. reflexivity. Qed.

Example to_int_truncates :
  map Dbl.to_int [62.5; -2.7; 0.99; -0.0; 512] = map Done [62; -2; 0; 0; 512]%Z.
Proof. vm_compute. reflexivity. Qed.

Example floor_to_int_samples :
  map Dbl.floor_to_int [65.536; -0.5; 3276.8; -2] = map Done [65; -1; 3276; -2]%Z.
Proof. vm_compute. reflexivity. Qed.

Example round_to_int_halves_away :
  map Dbl.round_to_int [62.5; -62.5; 62.4999; 0.5; 0.4; 127.5]
  = map Done [63; -63; 62; 1; 0; 128]%Z.
Proof. vm_compute. reflexivity. Qed.

Example no_int_for_these :
  map Dbl.to_int [infinity; nan; 1e10] = map Fault [NotAnInt; NotAnInt; NotAnInt].
Proof. vm_compute. reflexivity. Qed.

Example round_samples :
  map Trigger.round [2.5; -2.5; 0.3; 231.5; 1e300] = [3; -3; 0; 232; 1e300].
Proof. vm_compute. reflexivity. Qed.

End DblFacts.

(** ** The digital frequency plan fits the device's registers *)

Module DigitalFreqFacts.
Import CInt CIntFacts DigitalFreq.

Lemma ladder_range c :
  0 <= c <= 32000000 ->
  let '(dvd, idx, cnt) := ladder c in
  0 <= cnt <= 65535 /\ 0 <= idx <= 6 /\
  In dvd [1; 2; 4; 8; 64; 256; 1024].
Proof.
  intros Hc. unfold ladder. cbv zeta.
  repeat match goal with
         | |- context [?a >? ?b] => destruct (Z.gtb_spec a b)
         end;
    cbn [In]; (split; [|split; [lia|auto 10]]).
  all: Z.to_euclidean_division_equations; lia.
Qed.

Lemma initial_count_range f :
  1 <= f <= INT_MAX ->
  div (32 * 1000000) f = Done (Z.quot 32000000 f) /\
  0 <= Z.quot 32000000 f <= 32000000.
Proof.
  intros Hf. unfold div.
  destruct (Z.eqb_spec f 0) as [->|_]; [lia|].
  assert (Hq : 0 <= Z.quot 32000000 f <= 32000000).
  { rewrite Z.quot_div_nonneg by lia. split.
    - apply Z.div_pos; lia.
    - apply Z.div_le_upper_bound; nia. }
  split; [|exact Hq].
  change (32 * 1000000) with 32000000.
  rewrite wrap32_id; [reflexivity|].
  unfold in_int, INT_MIN, INT_MAX. lia.
Qed.

(** The slowest request walks the whole ladder: 32 000 000 / 1024. *)
Example setDigitalFrequency_1Hz :
  setDigitalFrequency 1
  = Done (mkPlan 1024 6 31250 [99; 122; 18] [100; 6; 0]).
Proof. reflexivity. Qed.

Example setDigitalFrequency_10kHz :
  setDigitalFrequency 10000
  = Done (mkPlan 1 0 3200 [99; 12; 128] [100; 0; 0]).
Proof. reflexivity. Qed.

(** A negative request passes the ladder untouched and leaves the count
    outside the command's 16 bits: the bound below needs [1 <= f]. *)
Example setDigitalFrequency_negative :
  setDigitalFrequency (-1)
  = Done (mkPlan 1 0 (-32000000) [99; 184; 0] [100; 0; 0]).
Proof. reflexivity. Qed.

(** C10. For every requested digital frequency [f >= 1] the planner
    returns a plan whose count lies in [0, 65535] (so its two command
    bytes are exactly the high and low byte of the count) and whose
    divider index lies in [0, 6]; at [f = 0] the unguarded division has no
    result. *)
Theorem setDigitalFrequency_fits (f : Z) :
  1 <= f <= INT_MAX ->
  (exists p, setDigitalFrequency f = Done p /\
     0 <= dig_count p <= 65535 /\
     0 <= dig_index p <= 6 /\
     In (dig_divider p) [1; 2; 4; 8; 64; 256; 1024] /\
     setDigCountCmd p = [99; dig_count p / 256; dig_count p mod 256] /\
     0 <= dig_count p / 256 <= 255 /\
     setDigIndexCmd p = [100; dig_index p; 0])
  /\ setDigitalFrequency 0 = Fault DivideByZero.
Proof.
  intros Hf. split; [|reflexivity].
  destruct (initial_count_range f Hf) as [Hdiv Hq].
  unfold setDigitalFrequency. rewrite Hdiv. cbn [bind].
  pose proof (ladder_range _ Hq) as Hl.
  destruct (ladder (Z.quot 32000000 f)) as [[dvd idx] cnt].
  destruct Hl as (Hc & Hi & Hd).
  eexists. split; [reflexivity|]. cbn.
  assert (Hhi : 0 <= cnt / 256 <= 255).
  { split; [apply Z.div_pos; lia|].
    enough (cnt / 256 < 256) by lia.
    apply Z.div_lt_upper_bound; lia. }
  repeat split; try lia; try exact Hd; unfold to_char.
  - rewrite Z.quot_div_nonneg, Z.rem_mod_nonneg by lia.
    rewrite (Z.mod_small (cnt / 256)) by lia.
    rewrite (Z.mod_small (cnt mod 256))
      by (pose proof (Z.mod_pos_bound cnt 256 ltac:(lia)); lia).
    reflexivity.
  - rewrite (Z.mod_small idx) by lia. reflexivity.
Qed.

Lemma setDigitalFrequency_fits_witness :
  (exists p, setDigitalFrequency 440 = Done p /\
     0 <= dig_count p <= 65535 /\
     0 <= dig_index p <= 6 /\
     In (dig_divider p) [1; 2; 4; 8; 64; 256; 1024] /\
     setDigCountCmd p = [99; dig_count p / 256; dig_count p mod 256] /\
     0 <= dig_count p / 256 <= 255 /\
     setDigIndexCmd p = [100; dig_index p; 0])
  /\ setDigitalFrequency 0 = Fault DivideByZero.
Proof.
  apply (setDigitalFrequency_fits 440). unfold INT_MAX. lia.
Defined.

End DigitalFreqFacts.

(** ** The phase step rounding *)

Module PhaseStepFacts.
Import CInt CIntFacts DDS.

Lemma count_bits_zero fuel c : count_bits fuel 0 c = Done c.
Proof. destruct fuel; reflexivity. Qed.

(** On a positive [n] the loop runs once per bit of [n]. *)
Lemma count_bits_positive fuel :
  forall n c, 0 < n -> Z.log2 n + 1 <= Z.of_nat fuel ->
              count_bits fuel n c = Done (c + Z.log2 n + 1).
Proof.
  induction fuel as [|fuel IH]; intros n c Hn Hfuel.
  - pose proof (Z.log2_nonneg n). lia.
  - cbn [count_bits].
    destruct (Z.eqb_spec n 0) as [->|_]; [lia|].
    destruct (Z.eq_dec n 1) as [->|Hn1].
    + change (Z.shiftr 1 1) with 0. rewrite count_bits_zero.
      change (Z.log2 1) with 0. f_equal. lia.
    + assert (Hlog : 1 <= Z.log2 n).
      { change 1 with (Z.log2 2) at 1. apply Z.log2_le_mono. lia. }
      assert (Hhalf : 0 < Z.shiftr n 1).
      { rewrite Z.shiftr_div_pow2 by lia. change (2 ^ 1) with 2.
        apply Z.div_str_pos. lia. }
      rewrite IH; [|exact Hhalf|].
      * rewrite Z.log2_shiftr by lia. f_equal. lia.
      * rewrite Z.log2_shiftr by lia. lia.
Qed.

(** On a negative [n] the arithmetic shift never reaches zero: the loop
    of the source does not end. *)
Lemma count_bits_negative fuel :
  forall n c, n < 0 -> count_bits fuel n c = Fault NoFuel.
Proof.
  induction fuel as [|fuel IH]; intros n c Hn; cbn [count_bits];
    destruct (Z.eqb_spec n 0); try lia; try reflexivity.
  apply IH. apply Z.shiftr_neg. exact Hn.
Qed.

Lemma nextPowerOf2_positive x :
  1 <= x <= INT_MAX ->
  nextPowerOf2 x = Done (wrap32 (2 ^ (Z.log2 x + 1))) /\ 0 <= Z.log2 x <= 30.
Proof.
  unfold INT_MAX. intros Hx.
  assert (Hlog : 0 <= Z.log2 x <= 30).
  { split; [apply Z.log2_nonneg|].
    enough (Z.log2 x < 31) by lia.
    apply Z.log2_lt_pow2; [lia|]. change (2 ^ 31) with 2147483648. lia. }
  split; [|exact Hlog].
  unfold nextPowerOf2.
  destruct (Z.eqb_spec x 0); [lia|].
  rewrite count_bits_positive by (cbn; lia).
  cbn [bind]. rewrite Z.shiftl_1_l. reflexivity.
Qed.

Example nextPowerOf2_samples :
  map nextPowerOf2 [0; 1; 2; 3; 4; 5; 65; 3276]
  = map Done [1; 2; 4; 4; 8; 8; 128; 4096].
Proof. reflexivity. Qed.

Example nextPowerOf2_top_bit : nextPowerOf2 (2 ^ 30) = Done INT_MIN.
Proof. reflexivity. Qed.

Example nextPowerOf2_negative : nextPowerOf2 (-1) = Fault NoFuel.
Proof. reflexivity. Qed.

(** C3, as the spec words it, fails at every power of two: the source
    counts the bits of [x], so it steps past a value that is already a
    power of two. *)
Lemma nextPowerOf2_not_ceil2 :
  nextPowerOf2 4 = Done 8 /\ ceil2 4 = 4 /\ nextPowerOf2 4 <> Done (ceil2 4).
Proof. repeat split. intros H. vm_compute in H. discriminate H. Qed.

(** C3, amended. For every [int] [x >= 1] the function returns a value
    that is never zero; for [x < 2^30] (where [1 << count] fits an [int])
    that value is [2^(floor(log2 x) + 1)], the smallest power of two
    strictly greater than [x], at most [2 x]; it is the spec's [ceil2 x]
    exactly when [x] is not itself a power of two. *)
Theorem nextPowerOf2_strictly_above (x : Z) :
  1 <= x <= INT_MAX ->
  exists r, nextPowerOf2 x = Done r /\ r <> 0 /\
    (x < 2 ^ 30 ->
     r = 2 ^ (Z.log2 x + 1) /\ x < r <= 2 * x /\
     (forall k, 0 <= k -> x < 2 ^ k -> r <= 2 ^ k) /\
     (r = ceil2 x <-> ~ exists b, 0 <= b /\ x = 2 ^ b)).
Proof.
  intros Hx. destruct (nextPowerOf2_positive x Hx) as [Heq Hlog].
  unfold INT_MAX in Hx.
  exists (wrap32 (2 ^ (Z.log2 x + 1))). split; [exact Heq|].
  destruct (Z.log2_spec x ltac:(lia)) as [Hlo Hhi].
  replace (Z.succ (Z.log2 x)) with (Z.log2 x + 1) in Hhi by lia.
  split.
  - destruct (Z.eq_dec (Z.log2 x) 30) as [->|Hne]; [discriminate|].
    rewrite wrap32_id; [lia|].
    assert (2 ^ (Z.log2 x + 1) <= 2 ^ 30)
      by (apply Z.pow_le_mono_r; lia).
    change (2 ^ 30) with 1073741824 in *.
    unfold in_int, INT_MIN, INT_MAX. lia.
  - intros Hsmall.
    assert (Hl29 : Z.log2 x < 30) by (apply Z.log2_lt_pow2; lia).
    assert (Hfit : 2 ^ (Z.log2 x + 1) <= 2 ^ 30)
      by (apply Z.pow_le_mono_r; lia).
    rewrite wrap32_id
      by (change (2 ^ 30) with 1073741824 in *;
          unfold in_int, INT_MIN, INT_MAX; lia).
    split; [reflexivity|]. split; [|split].
    + split; [exact Hhi|]. rewrite Z.pow_add_r by lia. lia.
    + intros k Hk Hxk. apply Z.pow_le_mono_r; [lia|].
      enough (Z.log2 x < k) by lia. apply Z.log2_lt_pow2; lia.
    + unfold ceil2. rewrite Z.max_l by lia.
      pose proof (Z.le_log2_log2_up x) as Hle.
      pose proof (Z.le_log2_up_succ_log2 x) as Hge.
      pose proof (Z.log2_log2_up_exact x ltac:(lia)) as Hex.
      split.
      * intros Hr (b & Hb & ->).
        apply Z.pow_inj_r in Hr; [|lia|lia|apply Z.log2_up_nonneg].
        assert (Z.log2 (2 ^ b) = Z.log2_up (2 ^ b))
          by (apply Hex; exists b; reflexivity).
        lia.
      * intros Hnp. f_equal.
        destruct (Z.eq_dec (Z.log2 x) (Z.log2_up x)) as [Heq'|Hne]; [|lia].
        exfalso. apply Hnp. apply Hex in Heq'. destruct Heq' as [b ->].
        exists b. split; [|reflexivity].
        destruct (Z.le_gt_cases 0 b); [assumption|].
        rewrite Z.pow_neg_r in Hx by lia. lia.
Qed.

Lemma nextPowerOf2_strictly_above_witness :
  exists r, nextPowerOf2 3276 = Done r /\ r <> 0 /\
    (3276 < 2 ^ 30 ->
     r = 2 ^ (Z.log2 3276 + 1) /\ 3276 < r <= 2 * 3276 /\
     (forall k, 0 <= k -> 3276 < 2 ^ k -> r <= 2 ^ k) /\
     (r = ceil2 3276 <-> ~ exists b, 0 <= b /\ 3276 = 2 ^ b)).
Proof.
  apply (nextPowerOf2_strictly_above 3276). unfold INT_MAX. lia.
Defined.

End PhaseStepFacts.

(** ** The DDS plan at 1 kHz *)

Module PlanFacts.
Import CInt DDS.

Example get_phase_step_1kHz : get_phase_step 1000 1000000 = Done 128.
Proof. vm_compute. reflexivity. Qed.

Example get_phase_step_50kHz : get_phase_step 50000 1000000 = Done 4096.
Proof. vm_compute. reflexivity. Qed.

(** The corrected divider at 1 kHz is [round(32 * 1953.125 / 1000)], and
    [32 * 1.953125] is exactly [62.5]: the half rounds away from zero. *)
Example divider_corrected_1kHz :
  (32 * (128 * (1000000 * 1.0 / 65536) * 1.0 / 1000) = 62.5)%float
  /\ Dbl.round_to_int 62.5%float = Done 63.
Proof. split; vm_compute; reflexivity. Qed.

(** The spec's value 62 is what the cycle-stretch branch produces one
    hertz lower, by the truncating division [32000000 / (999 * 512)]. *)
Example setFrequency_999Hz :
  exists p, setFrequency 999 sinTable initial_table initial_cmd initial_cmd = Done p /\
            useCycleStretch p = true /\
            timer_period p = 62 /\ no_of_samples p = 512.
Proof. eexists. split; [vm_compute; reflexivity|]. repeat split. Qed.

(** C2, as the spec words it, fails: 1000 Hz is not below the branch's
    [Frequency < 1000], and the standard branch rounds the divider to 63. *)
Lemma setFrequency_1kHz_not_62 :
  exists p, setFrequency 1000 sinTable initial_table initial_cmd initial_cmd = Done p /\
            useCycleStretch p = false /\
            timer_period p <> 62.
Proof.
  eexists. split; [vm_compute; reflexivity|].
  split; [reflexivity|]. cbn. discriminate.
Qed.

(** C2, amended. At 1000 Hz with the sine master the planner takes the
    standard branch with phase step 128 and produces
    [no_of_samples = 512] and [timer_period = 63]; the realised frequency
    [32e6 / (63 * 512)] is within 2 percent of 1 kHz.  Of the two command
    members it writes bytes 1 and 2, (0, 63) and (2, 0), and leaves byte 0
    as it found it: on a new window the members hold [00 00 3f] and
    [00 02 00] afterwards. *)
Theorem setFrequency_1kHz (p0 p1 p2 n0 n1 n2 : Z) :
  exists p,
    setFrequency 1000 sinTable initial_table [p0; p1; p2] [n0; n1; n2] = Done p /\
    useCycleStretch p = false /\
    Ph_step_Powof2 p = 128 /\
    no_of_samples p = 512 /\
    timer_period p = 63 /\
    SetPeriodCmd p = [p0; 0; 63] /\
    SamplesCmd p = [n0; 2; 0] /\
    length (DDS_Table p) = 512%nat /\
    within_2_percent 1000 p /\
    exists q,
      setFrequency 1000 sinTable initial_table initial_cmd initial_cmd = Done q /\
      SetPeriodCmd q = [0; 0; 63] /\ SamplesCmd q = [0; 2; 0].
Proof.
  eexists. split; [vm_compute; reflexivity|].
  do 7 (split; [reflexivity|]).
  split; [unfold within_2_percent; cbn; lia|].
  eexists. split; [vm_compute; reflexivity|]. split; reflexivity.
Qed.

End PlanFacts.

(** ** The standard-path table fill *)

Module FillFacts.
Import CInt CIntFacts DDS.

Lemma at_index_Done {A} (l : list A) (i : Z) :
  0 <= i < Z.of_nat (length l) ->
  exists a, at_index l i = Done a /\ l !! Z.to_nat i = Some a.
Proof.
  intros Hi. unfold at_index.
  destruct (Z.ltb_spec i 0); [lia|].
  destruct (lookup_lt_is_Some_2 l (Z.to_nat i)) as [a Ha]; [lia|].
  exists a. rewrite Ha. split; reflexivity.
Qed.

Lemma store_Done {A} (l : list A) (i : Z) (a : A) :
  0 <= i < Z.of_nat (length l) -> store l i a = Done (<[Z.to_nat i := a]> l).
Proof.
  intros Hi. unfold store.
  destruct (Z.leb_spec 0 i), (Z.ltb_spec i (Z.of_nat (length l))); try lia.
  reflexivity.
Qed.

Section Fill.

Variables (wave table0 : list Z) (pa0 step : Z).
Hypothesis Hwave : 256 <= Z.of_nat (length wave).
Hypothesis Hstep : 1 <= step.
Hypothesis Hpa : 0 <= pa0.
Hypothesis Hfit : pa0 + 511 * step <= INT_MAX.

Local Abbreviation filled := (DDS.filled wave table0).
Local Abbreviation inv := (DDS.inv wave table0 pa0 step).

Lemma filled_beyond n st :
  filled n st -> 512 <= n \/ Z.of_nat (length table0) <= n -> filled 512 st.
Proof.
  intros [Hlen Hlast Hidx Hwr Hrd Hpre] Hn.
  constructor; try assumption.
  intros i Hi Hit. apply Hpre; lia.
Qed.

Lemma fill_step_inv st :
  inv st -> loop_condition st = true ->
  exists st', fill_step wave step st = Done st' /\ inv st'
              /\ dds_count st' = dds_count st + 1.
Proof.
  intros [[Hlen Hlast Hidx Hwr Hrd Hpre] Hcnt Hacc Hseen] Hcond.
  unfold loop_condition in Hcond.
  apply andb_true_iff in Hcond as [Hcond Hc3].
  apply andb_true_iff in Hcond as [Hc1 Hc2].
  apply Z.ltb_lt in Hc1, Hc2, Hc3.
  unfold fill_step. cbv zeta.
  assert (Hnext : wrap32 (phase_accumulator st + step) = pa0 + dds_count st * step).
  { rewrite Hacc. rewrite wrap32_id; [lia|].
    unfold in_int, INT_MIN, INT_MAX in *. nia. }
  rewrite Hnext.
  set (idx0 := Z.shiftr (pa0 + dds_count st * step) 8).
  assert (Hidx0 : 0 <= idx0) by (apply Z.shiftr_nonneg; nia).
  set (idx := if idx0 >=? 256 then 255 else idx0).
  assert (Hidx' : 0 <= idx <= 255).
  { unfold idx. destruct (Z.geb_spec idx0 256); lia. }
  assert (Hb : (Z.of_nat (length wave) >? 0) && (idx <? Z.of_nat (length wave)) = true).
  { apply andb_true_iff. split; [apply Z.gtb_lt|apply Z.ltb_lt]; lia. }
  rewrite Hb.
  destruct (at_index_Done wave idx) as (v & Hv & Hlk); [lia|].
  rewrite Hv. cbn [bind].
  rewrite store_Done by lia. cbn [bind].
  destruct (at_index_Done (seen st) idx) as (b & Hsn & _); [lia|].
  rewrite Hsn. cbn [bind].
  assert (Hin : In v wave).
  { apply list_elem_of_In. eapply list_elem_of_lookup_2. exact Hlk. }
  assert (Hfilled : forall tbl' sn' uq',
    tbl' = <[Z.to_nat (dds_count st) := v]> (table st) ->
    length sn' = 256%nat ->
    inv {| table := tbl'; phase_accumulator := pa0 + dds_count st * step;
           dds_index := idx; dds_count := dds_count st + 1;
           unique_indices := uq'; last_index := idx; seen := sn';
           writes := writes st ++ [(dds_count st, v)];
           reads := reads st ++ [idx] |}).
  { intros tbl' sn' uq' -> Hsn'. constructor; cbn; try lia; try assumption.
    constructor; cbn; try lia.
    - rewrite length_insert. exact Hlen.
    - apply Forall_app. split; [exact Hwr|].
      constructor; [|constructor]. unfold write_ok. cbn. repeat split; try lia.
      exact Hin.
    - apply Forall_app. split; [exact Hrd|].
      constructor; [|constructor]. exact Hidx'.
    - intros i Hi Hit.
      destruct (Z.eq_dec i (dds_count st)) as [->|Hne].
      + exists v. split; [|exact Hin].
        apply list_lookup_insert_eq. lia.
      + rewrite list_lookup_insert_ne by lia. apply Hpre; lia. }
  destruct b; cbn [negb bind].
  - eexists. split; [reflexivity|]. split; [|reflexivity].
    apply Hfilled; [reflexivity|exact Hseen].
  - rewrite store_Done by lia. cbn [bind].
    eexists. split; [reflexivity|]. split; [|reflexivity].
    apply Hfilled; [reflexivity|]. rewrite length_insert. exact Hseen.
Qed.

(** The [while] loop ends: each turn adds one to [dds_count], and the
    condition asks for [dds_count < 512]. *)
Lemma fill_loop_inv fuel :
  forall st, inv st -> 512 - dds_count st <= Z.of_nat fuel ->
  exists st', fill_loop fuel wave step st = Done st' /\ inv st'
              /\ loop_condition st' = false.
Proof.
  induction fuel as [|fuel IH]; intros st Hinv Hfuel; cbn [fill_loop];
    destruct (loop_condition st) eqn:Hcond;
    try (exists st; split; [reflexivity|split; assumption]).
  - exfalso. unfold loop_condition in Hcond.
    apply andb_true_iff in Hcond as [Hcond _].
    apply andb_true_iff in Hcond as [Hc1 _].
    apply Z.ltb_lt in Hc1. lia.
  - destruct (fill_step_inv st Hinv Hcond) as (st1 & Hstep1 & Hinv1 & Hcnt1).
    rewrite Hstep1. cbn [bind]. apply IH; [exact Hinv1|lia].
Qed.

Ltac pad_exit :=
  match goal with
  | Hfl : filled ?i ?st, Hcond : _ && _ = false |- _ =>
      exists st; split; [reflexivity|split; [|reflexivity]];
      apply (filled_beyond i); [exact Hfl|];
      rewrite (filled_length _ _ _ _ Hfl) in Hcond;
      apply andb_false_iff in Hcond as [Hc|Hc]; apply Z.ltb_ge in Hc; lia
  end.

Lemma pad_loop_filled fuel :
  forall i st, filled i st -> 0 <= i -> 512 - i <= Z.of_nat fuel ->
  exists st', pad_loop fuel wave i st = Done st' /\ filled 512 st'
              /\ dds_count st' = dds_count st.
Proof.
  induction fuel as [|fuel IH]; intros i st Hfl Hi Hfuel; cbn [pad_loop];
    destruct ((i <? 512) && (i <? Z.of_nat (length (table st)))) eqn:Hcond.
  - apply andb_true_iff in Hcond as [Hc1 _]. apply Z.ltb_lt in Hc1. lia.
  - pad_exit.
  - apply andb_true_iff in Hcond as [Hc1 Hc2]. apply Z.ltb_lt in Hc1, Hc2.
    destruct Hfl as [Hlen Hlast Hidx Hwr Hrd Hpre].
    assert (Hb : (Z.of_nat (length wave) >? 0) = true) by (apply Z.gtb_lt; lia).
    rewrite Hb.
    destruct (at_index_Done wave (last_index st)) as (v & Hv & Hlk); [lia|].
    rewrite Hv. cbn [bind]. rewrite store_Done by lia. cbn [bind].
    assert (Hin : In v wave).
    { apply list_elem_of_In. eapply list_elem_of_lookup_2. exact Hlk. }
    match goal with
    | |- exists st', pad_loop _ _ _ ?s = _ /\ _ =>
        destruct (IH (i + 1) s) as (st' & Hpad & Hfl' & Hcnt');
          [|lia|lia|exists st'; split; [exact Hpad|split; [exact Hfl'|exact Hcnt']]]
    end.
    constructor; cbn; try assumption.
    + rewrite length_insert. exact Hlen.
    + apply Forall_app. split; [exact Hwr|].
      constructor; [|constructor]. unfold write_ok. cbn. repeat split; try lia.
      exact Hin.
    + apply Forall_app. split; [exact Hrd|].
      constructor; [|constructor]. exact Hlast.
    + intros j Hj Hjt.
      destruct (Z.eq_dec j i) as [->|Hne].
      * exists v. split; [|exact Hin]. apply list_lookup_insert_eq. lia.
      * rewrite list_lookup_insert_ne by lia. apply Hpre; lia.
  - pad_exit.
Qed.

End Fill.

Example GetCount_GetIndex_1kHz :
  exists st, GetCount_GetIndex sinTable (replicate 512 0) 0 128 = Done st /\
             dds_count st = 511 /\ unique_indices st = 256 /\
             last_index st = 255 /\ phase_accumulator st = 65280.
Proof. eexists. split; [vm_compute; reflexivity|]. repeat split. Qed.

(** An accumulator that passes [INT_MAX] wraps to a negative value, and the
    shifted index is then negative too: the bound on the step is needed. *)
Example GetCount_GetIndex_overflow :
  GetCount_GetIndex sinTable (replicate 512 0) 0 (2 ^ 30) = Fault OutOfBounds.
Proof. vm_compute. reflexivity. Qed.

(** C9, as worded, fails for a master waveform shorter than 256 entries.
    The [while] loop guards its read ([dds_index < waveform_size], else
    [back()]), the padding loop reads [DDS_Waveform[last_index]] unguarded:
    with one entry in the master and a step of 256 the loop leaves
    [last_index = 255] after 256 samples and the padding reads outside the
    master. *)
Lemma GetCount_GetIndex_short_master :
  1 <= 256 /\ [7] <> @nil Z /\
  GetCount_GetIndex [7] (replicate 512 0) 0 256 = Fault OutOfBounds.
Proof.
  split; [lia|]. split; [discriminate|]. vm_compute. reflexivity.
Qed.

(** C9, amended. For a master waveform of at least 256 entries (what
    [setFrequency] guarantees before the call), a start accumulator
    [pa0 >= 0] and a phase step [>= 1] with [pa0 + 511 * step] inside the
    [int] range, the fill returns; it stores only at table indices in
    [0, 511] inside the table, reads the master only at indices in [0, 255],
    every byte it stores is an entry of the master, and afterwards each of
    the first 512 entries of the table is an entry of the master. *)
Theorem GetCount_GetIndex_safe (wave table0 : list Z) (pa0 step : Z) :
  (256 <= length wave)%nat -> 1 <= step -> 0 <= pa0 ->
  pa0 + 511 * step <= INT_MAX ->
  exists st, GetCount_GetIndex wave table0 pa0 step = Done st /\
    1 <= dds_count st <= 512 /\
    length (table st) = length table0 /\
    Forall (fun w => 0 <= fst w <= 511 /\ fst w < Z.of_nat (length table0)
                     /\ In (snd w) wave) (writes st) /\
    Forall (fun j => 0 <= j <= 255) (reads st) /\
    0 <= dds_index st <= 255 /\
    (forall i, 0 <= i < 512 -> i < Z.of_nat (length table0) ->
               exists v, table st !! Z.to_nat i = Some v /\ In v wave).
Proof.
  intros Hwave Hstep Hpa Hfit.
  assert (Hwave' : 256 <= Z.of_nat (length wave)) by lia.
  unfold GetCount_GetIndex. cbv zeta.
  assert (Hinit : exists tbl wr rd,
    (if Z.of_nat (length table0) >? 0
     then if Z.of_nat (length wave) >? 0
          then let* v := at_index wave 0 in
               let* tbl := store table0 0 v in Done (tbl, [(0, v)], [0])
          else let* tbl := store table0 0 0 in Done (tbl, [(0, 0)], [])
     else Done (table0, [], [])) = Done (tbl, wr, rd) /\
    forall sn, length sn = 256%nat ->
      inv wave table0 pa0 step
        {| table := tbl; phase_accumulator := pa0; dds_index := 0;
           dds_count := 1; unique_indices := 1; last_index := 0;
           seen := sn; writes := wr; reads := rd |}).
  { destruct (Z.gtb_spec (Z.of_nat (length table0)) 0) as [Hne|Hempty].
    - destruct (Z.gtb_spec (Z.of_nat (length wave)) 0); [|lia].
      destruct (at_index_Done wave 0) as (v & Hv & Hlk); [lia|].
      rewrite Hv. cbn [bind]. rewrite store_Done by lia. cbn [bind].
      assert (Hin : In v wave).
      { apply list_elem_of_In. eapply list_elem_of_lookup_2. exact Hlk. }
      do 3 eexists. split; [reflexivity|]. intros sn Hsn.
      constructor; cbn; try lia.
      constructor; cbn; try lia.
      + apply length_insert.
      + constructor; [|constructor]. unfold write_ok. cbn.
        repeat split; try lia. exact Hin.
      + constructor; [|constructor]. unfold read_ok. lia.
      + intros i Hi Hit. replace i with 0 by lia. exists v.
        split; [|exact Hin]. apply list_lookup_insert_eq. lia.
    - do 3 eexists. split; [reflexivity|]. intros sn Hsn.
      constructor; cbn; try lia.
      constructor; cbn; try lia; constructor. }
  destruct Hinit as (tbl & wr & rd & -> & Hinv0). cbn [bind].
  rewrite store_Done by (rewrite length_replicate; lia). cbn [bind].
  match goal with
  | |- context [fill_loop 512 wave step ?s] =>
      destruct (fill_loop_inv wave table0 pa0 step Hwave' Hstep Hpa Hfit
                  512%nat s) as (st1 & Hloop & Hinv1 & _)
  end.
  { apply Hinv0. rewrite length_insert. apply length_replicate. }
  { cbn. lia. }
  rewrite Hloop. cbn [bind].
  destruct Hinv1 as [Hfl1 Hcnt1 _ _].
  destruct (pad_loop_filled wave table0 Hwave' 512%nat (dds_count st1) st1)
    as (st2 & Hpad & Hfl2 & Hcnt2); [exact Hfl1|lia|lia|].
  exists st2. split; [exact Hpad|].
  destruct Hfl2 as [Hlen _ Hidx Hwr Hrd Hpre].
  rewrite Hcnt2. repeat split; try lia; assumption.
Qed.

Lemma GetCount_GetIndex_safe_witness :
  exists st, GetCount_GetIndex sinTable (replicate 512 0) 0 128 = Done st /\
    1 <= dds_count st <= 512 /\
    length (table st) = length (replicate 512 0) /\
    Forall (fun w => 0 <= fst w <= 511
                     /\ fst w < Z.of_nat (length (replicate 512 0))
                     /\ In (snd w) sinTable) (writes st) /\
    Forall (fun j => 0 <= j <= 255) (reads st) /\
    0 <= dds_index st <= 255 /\
    (forall i, 0 <= i < 512 -> i < Z.of_nat (length (replicate 512 0)) ->
               exists v, table st !! Z.to_nat i = Some v /\ In v sinTable).
Proof.
  apply (GetCount_GetIndex_safe sinTable (replicate 512 0) 0 128).
  - vm_compute. lia.
  - lia.
  - lia.
  - unfold INT_MAX. lia.
Defined.

End FillFacts.

(** ** The acquisition state machine *)

Module SerialFacts.
Import CInt SerialHandler.

Lemma armed_state p m :
  acqState (acq (armed p m)) = WaitingForDone /\
  bytesNeeded (acq (armed p m)) = 1 /\
  acqMode (acq (armed p m)) = acquisitionMode m + 1 /\
  acqDualChannel (acq (armed p m)) = (acquisitionMode m =? 0) /\
  incoming (env (armed p m)) = [] /\
  now (env (armed p m)) = 350.
Proof. destruct m; repeat split. Qed.

(** The setup sequence on the wire: nothing at 0 ms and 50 ms (the offset
    steps), then five frames 50 ms apart and the capture command. *)
Lemma armed_written p m :
  written (env (armed p m)) =
  [ (100, [84; to_char (trigSource p); 0]);
    (150, [80; to_char (trigPolarity p); 0]);
    (200, [76; to_char (Z.land (Z.shiftr (trigLevel p) 8) 255);
               to_char (Z.land (trigLevel p) 255)]);
    (250, [70; to_char (acquisitionMode m + 1); 0]);
    (300, [83; to_char (sampleRateIdx p); 0]);
    (350, [67; 0; 0]) ].
Proof. destruct m; reflexivity. Qed.


Example armed_frames_p0 :
  frames (armed p0 BothChannels)
  = [[84; 1; 0]; [80; 0; 0]; [76; 8; 0]; [70; 1; 0]; [83; 3; 0]; [67; 0; 0]].
Proof. reflexivity. Qed.

(** *** The read commands *)

Lemma bytesAvailable_arrived inc (bytes : list Z) tt sst wr em t :
  bytesAvailable (mkWorld tt sst (inc ++ bytes) wr em t)
  = Z.of_nat (length inc) + Z.of_nat (length bytes).
Proof. unfold bytesAvailable. cbn. rewrite length_app. lia. Qed.

(** After the acknowledgment, in any handler that waits for it. *)
Lemma data_request_sent (h : handler) (ack : Z) (rest : list Z) :
  acqState (acq h) = WaitingForDone -> bytesNeeded (acq h) = 1 ->
  let h' := receive (ack :: rest) h in
  let '(dcmd, needed, next) := data_request (acq h) in
  written (env h') = written (env (h)) ++
     match dcmd with [] => [] | _ => [(now (env h) + 100, dcmd)] end /\
  bytesNeeded (acq h') = needed /\
  acqState (acq h') = next /\
  incoming (env h') = [] /\
  timeoutTimer (env h') = Some STATE_TIMEOUT_MS.
Proof.
  destruct h as [[s md dl du c1 c2 bn] p st fl [tt sst inc wr em t]].
  cbn [acq acqState bytesNeeded]. intros -> ->.
  unfold receive, handleReadyRead.
  cbn [acq env acqState bytesNeeded incoming timeoutTimer setupTimer written
       emitted now proto setupStep acquisitionInProgress].
  rewrite bytesAvailable_arrived. cbn [length].
  destruct (Z.gtb_spec (Z.of_nat (length inc) + Z.of_nat (S (length rest))) 0);
    [|lia].
  destruct (Z.ltb_spec (Z.of_nat (length inc) + Z.of_nat (S (length rest))) 1);
    [lia|].
  cbn [Z.leb Z.compare orb].
  unfold data_request. cbn [acqDualChannel acqMode bytesNeeded acqState].
  destruct du; [|destruct (md =? 2); [|destruct (md =? 3)]];
    cbn; rewrite ?app_nil_r; repeat split.
Qed.

(** After the 200 bytes of CH1 in dual mode. *)
Lemma ch2_request_sent (h : handler) (data : list Z) :
  acqState (acq h) = WaitingForCh1 -> acqDualChannel (acq h) = true ->
  bytesNeeded (acq h) = 200 -> incoming (env h) = [] ->
  length data = 200%nat ->
  let h' := receive data h in
  written (env h') = written (env h) ++ [(now (env h), [68; 2; 0])] /\
  ch1Raw (acq h') = data /\
  bytesNeeded (acq h') = 200 /\
  acqState (acq h') = WaitingForCh2 /\
  incoming (env h') = [] /\
  timeoutTimer (env h') = Some STATE_TIMEOUT_MS.
Proof.
  destruct h as [[s md dl du c1 c2 bn] p st fl [tt sst inc wr em t]].
  cbn [acq env acqState bytesNeeded acqDualChannel incoming].
  intros -> -> -> -> Hlen.
  unfold receive, handleReadyRead.
  cbn [acq env acqState bytesNeeded incoming timeoutTimer setupTimer written
       emitted now proto setupStep acquisitionInProgress acqDualChannel].
  rewrite bytesAvailable_arrived, Hlen. cbn [length Z.of_nat Z.add].
  change (Z.pos (Pos.of_succ_nat 199)) with 200.
  cbn [Z.gtb Z.ltb Z.leb Z.compare Pos.compare Pos.compare_cont orb].
  unfold read. cbn [incoming app].
  replace (Z.to_nat 200) with (length data) by (rewrite Hlen; reflexivity).
  rewrite firstn_all, skipn_all. cbn. repeat split.
Qed.

(** C1, as worded, fails on the two commands it assigns to [D,2,0] and
    [D,3,0]: the source sends [D,3,0] for CH1-only and [D,2,0] for the CH2
    half of a dual capture. *)
Lemma ch1_only_sends_D_3_0 :
  last (frames (receive [6] (armed p0 CH1Only))) = Some [68; 3; 0] /\
  last (frames (receive [6] (armed p0 CH1Only))) <> Some [68; 2; 0] /\
  last (frames (receive (replicate 200 128)
                  (receive [6] (armed p0 BothChannels)))) = Some [68; 2; 0].
Proof.
  assert (Hsent : last (frames (receive [6] (armed p0 CH1Only))) = Some [68; 3; 0])
    by reflexivity.
  split; [exact Hsent|]. split; [|reflexivity].
  rewrite Hsent. discriminate.
Qed.

(** C1, amended. After the capture acknowledgment the read command follows
    the mode: dual sends [D,1,0] and expects 200 bytes, CH1-only sends
    [D,3,0] and expects 400, CH2-only sends [D,4,0] and expects 400 (and
    waits in the CH2 state); in dual mode, once the 200 CH1 bytes are read,
    [D,2,0] is sent and 200 further bytes are expected for CH2. *)
Theorem read_command_by_mode (p : protocol) (m : acquisition_mode)
    (ack : Z) (data : list Z) :
  length data = 200%nat ->
  let h1 := receive [ack] (armed p m) in
  frames h1 = frames (armed p m) ++ [read_command m] /\
  bytesNeeded (acq h1) = expected_bytes m /\
  acqState (acq h1) = awaited m /\
  timeoutTimer (env h1) = Some 5000 /\
  (m = BothChannels ->
   let h2 := receive data h1 in
   frames h2 = frames h1 ++ [[68; 2; 0]] /\
   ch1Raw (acq h2) = data /\
   bytesNeeded (acq h2) = 200 /\
   acqState (acq h2) = WaitingForCh2 /\
   timeoutTimer (env h2) = Some 5000).
Proof.
  intros Hlen h1.
  destruct (armed_state p m) as (Hst & Hbn & Hmd & Hdu & Hinc & Hnow).
  pose proof (data_request_sent (armed p m) ack [] Hst Hbn) as Hreq.
  fold h1 in Hreq. cbv zeta in Hreq.
  assert (Hdr : data_request (acq (armed p m))
                = (read_command m, expected_bytes m, awaited m))
    by (destruct m; reflexivity).
  rewrite Hdr in Hreq. destruct Hreq as (Hw & Hb & Hs & Hi & Ht).
  assert (Hf : frames h1 = frames (armed p m) ++ [read_command m]).
  { unfold frames. rewrite Hw, map_app. f_equal. destruct m; reflexivity. }
  split; [exact Hf|]. split; [exact Hb|]. split; [exact Hs|].
  split; [exact Ht|].
  intros ->. subst h1.
  destruct (ch2_request_sent (receive [ack] (armed p BothChannels)) data
              Hs eq_refl Hb Hi Hlen) as (Hw2 & Hc1 & Hb2 & Hs2 & _ & Ht2).
  cbv zeta. split; [|split; [exact Hc1|split; [exact Hb2|split; [exact Hs2|exact Ht2]]]].
  unfold frames. rewrite Hw2, map_app. reflexivity.
Qed.

Lemma read_command_by_mode_witness :
  let h1 := receive [6] (armed p0 BothChannels) in
  frames h1 = frames (armed p0 BothChannels) ++ [read_command BothChannels] /\
  bytesNeeded (acq h1) = expected_bytes BothChannels /\
  acqState (acq h1) = awaited BothChannels /\
  timeoutTimer (env h1) = Some 5000 /\
  (BothChannels = BothChannels ->
   let h2 := receive (replicate 200 128) h1 in
   frames h2 = frames h1 ++ [[68; 2; 0]] /\
   ch1Raw (acq h2) = replicate 200 128 /\
   bytesNeeded (acq h2) = 200 /\
   acqState (acq h2) = WaitingForCh2 /\
   timeoutTimer (env h2) = Some 5000).
Proof.
  apply (read_command_by_mode p0 BothChannels 6 (replicate 200 128)).
  reflexivity.
Defined.

(** *** The setup sequence *)

Lemma started (h : handler) (mode dataLength : Z) (dualChannel : bool) :
  acquisitionInProgress h = false ->
  startOscilloscopeAcquisition mode dataLength dualChannel h
  = mkHandler (mkAcquisition Idle mode dataLength dualChannel [] [] 0)
      (proto h) 1 false
      (mkWorld None (Some 50) (incoming (env h)) (written (env h))
         (emitted (env h)) (now (env h))).
Proof.
  destruct h as [a p st fl [tt sst inc wr em t]]. cbn. intros ->. reflexivity.
Qed.

(** C7. The code at a start with the offsets 100 and -50 handed over: the
    handler holds the two offsets to the end, yet no frame with the opcode
    [O] (79) or [o] (111) is on the wire.  The setup sequence written is
    five frames (trigger-source, trigger-polarity, trigger-level, mode,
    sample-rate) and the capture command is the sixth frame, where seven
    setup frames and the capture command make eight.  Steps 0 and 1 of
    [handleSetupStep] still exist and still log the offsets; their
    [serial->write] is commented out under "TEMPORARILY DISABLED TO
    TEST". *)
Lemma setup_sequence_without_offsets :
  frames (armed p0 BothChannels)
  = [[84; 1; 0]; [80; 0; 0]; [76; 8; 0]; [70; 1; 0]; [83; 3; 0]; [67; 0; 0]]
  /\ length (frames (armed p0 BothChannels)) <> 8%nat
  /\ Forall (fun f => head f <> Some 79 /\ head f <> Some 111)
            (frames (armed p0 BothChannels))
  /\ ch1Offset (proto (armed p0 BothChannels)) = 100
  /\ ch2Offset (proto (armed p0 BothChannels)) = -50
  /\ acqState (acq (armed p0 BothChannels)) = WaitingForDone
  /\ timeoutTimer (env (armed p0 BothChannels)) = Some 5000.
Proof.
  rewrite armed_frames_p0. split; [reflexivity|].
  split; [cbn; discriminate|].
  split; [repeat constructor; cbn; discriminate|].
  repeat split.
Qed.

Lemma setup_tick a p k fl tt ms inc wr em t :
  (0 <=? k) && (k <=? 6) = true ->
  setupTimer_timeout (mkHandler a p k fl (mkWorld tt (Some ms) inc wr em t))
  = mkHandler a p (k + 1) fl
      (setupTimer_start 50
         (write (setup_frame (mkHandler a p k fl (mkWorld tt None inc wr em (t + ms))) k)
            (mkWorld tt None inc wr em (t + ms)))).
Proof.
  intros Hk. unfold setupTimer_timeout, handleSetupStep.
  cbn [env setupTimer setupStep acq proto acquisitionInProgress timeoutTimer
       incoming written emitted now].
  rewrite Hk. reflexivity.
Qed.

Lemma capture_tick a p fl tt ms inc wr em t :
  setupTimer_timeout (mkHandler a p 7 fl (mkWorld tt (Some ms) inc wr em t))
  = mkHandler
      (mkAcquisition WaitingForDone (acqMode a) (acqDataLength a)
         (acqDualChannel a) (ch1Raw a) (ch2Raw a) 1)
      p 7 fl
      (timeoutTimer_start STATE_TIMEOUT_MS
         (write [67; 0; 0] (mkWorld tt None inc wr em (t + ms)))).
Proof. reflexivity. Qed.

Ltac tick :=
  rewrite setup_tick by reflexivity;
  match goal with
  | |- context [mkHandler _ _ (?k + 1) _ _] =>
      let v := eval vm_compute in (k + 1) in change (k + 1) with v
  end;
  lazy beta iota zeta delta
    [setup_frame write setupTimer_start timeoutTimer setupTimer incoming
     written emitted now proto acq acqMode trigSource trigPolarity trigLevel
     sampleRateIdx].

Ltac fold_times t :=
  rewrite <- ?Z.add_assoc;
  repeat match goal with
         | |- context [t + (?b + ?c)] =>
             let v := eval vm_compute in (b + c) in change (b + c) with v
         end.

(** The handler a start call leaves, six and seven expiries of the setup
    timer later. *)
Lemma six_ticks p mode dataLength dualChannel inc wr em t :
  setup_ticks 6
    (mkHandler (mkAcquisition Idle mode dataLength dualChannel [] [] 0) p 1 false
       (mkWorld None (Some 50) inc wr em t))
  = mkHandler (mkAcquisition Idle mode dataLength dualChannel [] [] 0) p 7 false
      (mkWorld None (Some 50) inc (wr ++ setup_frames p mode t) em (t + 300)).
Proof.
  cbn [setup_ticks]. do 6 tick.
  rewrite <- !app_assoc. cbn [app]. fold_times t. reflexivity.
Qed.

Lemma seven_ticks p mode dataLength dualChannel inc wr em t :
  setup_ticks 7
    (mkHandler (mkAcquisition Idle mode dataLength dualChannel [] [] 0) p 1 false
       (mkWorld None (Some 50) inc wr em t))
  = mkHandler (mkAcquisition WaitingForDone mode dataLength dualChannel [] [] 1)
      p 7 false
      (mkWorld (Some 5000) None inc
         (wr ++ setup_frames p mode t ++ [(t + 350, [67; 0; 0])]) em (t + 350)).
Proof.
  cbn [setup_ticks]. do 6 tick. rewrite capture_tick.
  lazy beta iota zeta delta [timeoutTimer_start write written now timeoutTimer
    setupTimer incoming emitted].
  rewrite <- !app_assoc. cbn [app]. fold_times t. reflexivity.
Qed.

(** The parts of the setup sequence that are in place.  Every start call
    that is accepted (the in-progress flag is down) runs seven setup steps
    50 ms apart; with the writes of the two offset steps disabled, the five
    that remain write trigger-source, trigger-polarity, trigger-level, mode
    and sample-rate, in this order, 100 to 300 ms after the call.  Until the
    last step the state is [Idle] and no timeout is armed; the step after
    the seventh, at 350 ms, writes the capture command, waits for one byte
    and arms the 5000 ms timeout. *)
Theorem setup_sequence (h : handler) (mode dataLength : Z) (dualChannel : bool) :
  acquisitionInProgress h = false ->
  let h0 := startOscilloscopeAcquisition mode dataLength dualChannel h in
  let t := now (env h) in
  written (env h0) = written (env h) /\
  setupTimer (env h0) = Some 50 /\
  (let h6 := setup_ticks 6 h0 in
   written (env h6) = written (env h) ++ setup_frames (proto h) mode t /\
   acqState (acq h6) = Idle /\
   timeoutTimer (env h6) = None /\
   setupTimer (env h6) = Some 50) /\
  (let h7 := setup_ticks 7 h0 in
   written (env h7)
   = written (env h) ++ setup_frames (proto h) mode t ++ [(t + 350, [67; 0; 0])] /\
   acqState (acq h7) = WaitingForDone /\
   bytesNeeded (acq h7) = 1 /\
   timeoutTimer (env h7) = Some 5000 /\
   setupTimer (env h7) = None /\
   acqMode (acq h7) = mode /\
   acqDataLength (acq h7) = dataLength /\
   acqDualChannel (acq h7) = dualChannel).
Proof.
  intros Hflag h0 t. subst h0 t.
  rewrite (started h mode dataLength dualChannel Hflag).
  split; [reflexivity|]. split; [reflexivity|]. split; cbv zeta.
  - rewrite six_ticks. repeat split.
  - rewrite seven_ticks. repeat split.
Qed.

Lemma setup_sequence_witness :
  let h0 := startOscilloscopeAcquisition 1 200 true (fresh p0) in
  let t := now (env (fresh p0)) in
  written (env h0) = written (env (fresh p0)) /\
  setupTimer (env h0) = Some 50 /\
  (let h6 := setup_ticks 6 h0 in
   written (env h6) = written (env (fresh p0)) ++ setup_frames (proto (fresh p0)) 1 t /\
   acqState (acq h6) = Idle /\
   timeoutTimer (env h6) = None /\
   setupTimer (env h6) = Some 50) /\
  (let h7 := setup_ticks 7 h0 in
   written (env h7)
   = written (env (fresh p0)) ++ setup_frames (proto (fresh p0)) 1 t
     ++ [(t + 350, [67; 0; 0])] /\
   acqState (acq h7) = WaitingForDone /\
   bytesNeeded (acq h7) = 1 /\
   timeoutTimer (env h7) = Some 5000 /\
   setupTimer (env h7) = None /\
   acqMode (acq h7) = 1 /\
   acqDataLength (acq h7) = 200 /\
   acqDualChannel (acq h7) = true).
Proof.
  apply (setup_sequence (fresh p0) 1 200 true). reflexivity.
Defined.

(** *** The in-progress flag *)

(** [startOscilloscopeAcquisition] raises the flag and then calls
    [resetAcquisitionState], which lowers it again: the flag is down after
    every call and every event. *)
Lemma flag_down_after_step (e : event) (h : handler) :
  acquisitionInProgress h = false -> acquisitionInProgress (step e h) = false.
Proof.
  intros Hflag.
  destruct h as [[s md dl du c1 c2 bn] p st fl [tt sst inc wr em t]].
  cbn in Hflag. subst fl.
  destruct e as [mode len dual|p'| | |bytes]; cbn.
  - reflexivity.
  - reflexivity.
  - unfold setupTimer_timeout. cbn. destruct sst; [|reflexivity].
    unfold handleSetupStep. cbn.
    destruct ((0 <=? st) && (st <=? 6)); [reflexivity|].
    destruct (st =? 7); reflexivity.
  - unfold timeoutTimer_timeout. cbn. destruct tt; reflexivity.
  - unfold receive, handleReadyRead.
    cbn [acq env acqState bytesNeeded incoming timeoutTimer setupTimer written
         emitted now proto setupStep acquisitionInProgress acqDualChannel
         acqMode acqDataLength ch1Raw ch2Raw].
    repeat match goal with
           | |- context [if ?b then _ else _] => destruct b
           | |- context [match ?x with Idle => _ | _ => _ end] => destruct x
           | |- context [let '(_, _) := ?x in _] => destruct x
           end; reflexivity.
Qed.

Lemma flag_down (history : list event) (p : protocol) :
  acquisitionInProgress (run history (fresh p)) = false.
Proof.
  unfold run. generalize (eq_refl : acquisitionInProgress (fresh p) = false).
  generalize (fresh p). induction history as [|e history IH]; intros h Hflag.
  - exact Hflag.
  - cbn [fold_left]. apply IH. apply flag_down_after_step. exact Hflag.
Qed.

(** C8, on the source: a second start is never rejected.  After any
    history of events, in flight or not, the call resets the state machine
    to [Idle], cancels the state timeout, forgets the bytes read so far and
    begins a new setup sequence; its frames follow on the wire. *)
Theorem second_start_restarts (history : list event) (p : protocol)
    (mode dataLength : Z) (dualChannel : bool) :
  let h := run history (fresh p) in
  let h' := startOscilloscopeAcquisition mode dataLength dualChannel h in
  acqState (acq h') = Idle /\
  bytesNeeded (acq h') = 0 /\
  ch1Raw (acq h') = [] /\
  timeoutTimer (env h') = None /\
  setupStep h' = 1 /\
  setupTimer (env h') = Some 50 /\
  written (env (setup_ticks 7 h'))
  = written (env h) ++ setup_frames (proto h) mode (now (env h))
    ++ [(now (env h) + 350, [67; 0; 0])].
Proof.
  intros h h'. subst h'.
  pose proof (flag_down history p) as Hflag. fold h in Hflag.
  rewrite (started h mode dataLength dualChannel Hflag).
  rewrite seven_ticks. repeat split.
Qed.

(** The failing input of C8: a dual capture is armed and waits for its
    acknowledgment when the second start arrives. *)
Example second_start_in_flight :
  let h := armed p0 BothChannels in
  let h' := onRunClicked BothChannels h in
  acqState (acq h) = WaitingForDone /\
  timeoutTimer (env h) = Some 5000 /\
  acquisitionInProgress h = false /\
  acqState (acq h') = Idle /\
  timeoutTimer (env h') = None /\
  h' <> h /\
  length (frames (setup_ticks 7 h')) = 12%nat.
Proof.
  repeat split. intros Heq.
  apply (f_equal (fun x => acqState (acq x))) in Heq.
  vm_compute in Heq. discriminate Heq.
Qed.

End SerialFacts.

(** ** The calibration equation *)

Module CalibrationFacts.
Import Calibration.
Local Open Scope float_scope.

Lemma in_zrange (lo : Z) (n : nat) (z : Z) :
  (lo <= z < lo + Z.of_nat n)%Z -> In z (zrange lo n).
Proof.
  intros Hz. unfold zrange. apply in_map_iff.
  exists (Z.to_nat (z - lo)). split; [lia|]. apply in_seq. lia.
Qed.

Lemma forallb_zrange (f : Z -> bool) (lo : Z) (n : nat) (z : Z) :
  forallb f (zrange lo n) = true -> (lo <= z < lo + Z.of_nat n)%Z -> f z = true.
Proof.
  intros Hall Hz. rewrite forallb_forall in Hall. apply Hall.
  apply in_zrange. exact Hz.
Qed.

(** Halving the slider's volts is the same double as dividing the slider
    value by 200, at every position of the slider. *)
Lemma offsets_agree :
  forallb (fun off => Leibniz.eqb (uiOffset off) (Dbl.of_int off / 200))
    (zrange offset_min 3390) = true.
Proof. vm_compute. reflexivity. Qed.

(** Adding the offset correction [OC1 = 0.0] twice changes no bit of the
    scaled sample, for every ADC code and gain. *)
Lemma corrections_vanish :
  forallb (fun adc =>
    forallb (fun g =>
      Leibniz.eqb
        ((Dbl.of_int adc * 10.0 / 128.0 - 10.0 + OC1) * scaleFactor / g + OC1)
        ((Dbl.of_int adc * 10.0 / 128.0 - 10.0) * scaleFactor / g))
      gains)
    (zrange 0 256) = true.
Proof. vm_compute. reflexivity. Qed.

Lemma uiOffset_200 (off : Z) :
  (offset_min <= off <= offset_max)%Z -> uiOffset off = Dbl.of_int off / 200.
Proof.
  intros Hoff. apply Leibniz.eqb_spec.
  apply (forallb_zrange _ offset_min 3390 off offsets_agree).
  change (Z.of_nat 3390) with 3390%Z.
  unfold offset_min, offset_max in *. lia.
Qed.

Lemma correction_vanishes (adc : Z) (g : float) :
  (0 <= adc <= 255)%Z -> In g gains ->
  (Dbl.of_int adc * 10.0 / 128.0 - 10.0 + OC1) * scaleFactor / g + OC1
  = (Dbl.of_int adc * 10.0 / 128.0 - 10.0) * scaleFactor / g.
Proof.
  intros Hadc Hg. apply Leibniz.eqb_spec.
  pose proof (forallb_zrange _ 0 256 adc corrections_vanish) as Hall.
  cbv beta in Hall. rewrite forallb_forall in Hall.
  apply Hall; [|exact Hg]. change (Z.of_nat 256) with 256%Z. lia.
Qed.

Example centred_code : ch1_voltage 1 0 128 = 0.2200000000000002.
Proof. vm_compute. reflexivity. Qed.

Example full_scale_code : ch2_voltage 2 100 255 = 5.8876432291666685.
Proof. vm_compute. reflexivity. Qed.

(** C4. For every ADC byte, every gain of the combo boxes and every
    position of the offset slider, the voltage the source computes for a CH1
    sample and for a CH2 sample is, bit for bit, the spec's equation with
    [OC = 0]. *)
Theorem calibration_equation (adc : Z) (g : float) (off : Z) :
  (0 <= adc <= 255)%Z -> In g gains -> (offset_min <= off <= offset_max)%Z ->
  ch1_voltage g off adc = spec_voltage 0 g off adc /\
  ch2_voltage g off adc = spec_voltage 0 g off adc.
Proof.
  intros Hadc Hg Hoff.
  pose proof (uiOffset_200 off Hoff) as Hui.
  pose proof (correction_vanishes adc g Hadc Hg) as Hoc.
  unfold ch1_voltage, ch2_voltage, spec_voltage. cbv zeta.
  rewrite Hui. split.
  - reflexivity.
  - unfold OC1, scaleFactor, fixedOffset in *. rewrite Hoc. reflexivity.
Qed.

Lemma calibration_equation_witness :
  ch1_voltage 4 (-250) 200 = spec_voltage 0 4 (-250) 200 /\
  ch2_voltage 4 (-250) 200 = spec_voltage 0 4 (-250) 200.
Proof.
  apply (calibration_equation 200 4 (-250)).
  - lia.
  - cbn. auto.
  - unfold offset_min, offset_max. lia.
Defined.

End CalibrationFacts.

(** ** The trigger check *)

Module TriggerFacts.
Import Trigger.
Local Open Scope float_scope.

Example trigLine_ch1_rising : trigLine ch1_rising = 0.
Proof. vm_compute. reflexivity. Qed.

Lemma min_from_member (rest : list float) :
  forall best, In (min_from best rest) (best :: rest).
Proof.
  induction rest as [|x rest IH]; intros best; cbn [min_from].
  - left. reflexivity.
  - destruct (IH (if x <? best then x else best)) as [Heq|Hin].
    + rewrite <- Heq. destruct (x <? best); cbn; auto.
    + right. right. exact Hin.
Qed.

Lemma max_from_member (rest : list float) :
  forall best, In (max_from best rest) (best :: rest).
Proof.
  induction rest as [|x rest IH]; intros best; cbn [max_from].
  - left. reflexivity.
  - destruct (IH (if best <? x then x else best)) as [Heq|Hin].
    + rewrite <- Heq. destruct (best <? x); cbn; auto.
    + right. right. exact Hin.
Qed.

(** C5, as worded, fails in both directions.  A frame that crosses the
    trigger line upwards by 62.5 mV has the rising pair and is held; a frame
    that only falls through the line has no rising pair and is released. *)
Lemma edge_is_not_what_releases :
  (has_edge RisingEdge (trigLine ch1_rising) [-0.03125; 0.03125] = true /\
   evaluate ch1_rising [-0.03125; 0.03125] [] = Held) /\
  (has_edge RisingEdge (trigLine ch1_rising) [1; -1] = false /\
   evaluate ch1_rising [1; -1] [] = Released).
Proof. repeat split; vm_compute; reflexivity. Qed.

(** C5, amended. With [frame] the channel the evaluator looks at (CH2 when
    CH2 is the source, CH1 otherwise) a captured frame is released exactly
    when [frame] is not empty, its maximum exceeds its minimum by more than
    0.1 V and, with CH1 or CH2 as the source, the trigger line lies inside
    [min, max]: neither above the maximum nor below the minimum.  The frame
    is answered with "trigger out of range" exactly when the source is CH1
    or CH2, [frame] is not empty and the line is above its maximum or below
    its minimum; the maximum and the minimum are samples of the frame.  No
    pair of adjacent samples is looked at: [checkTriggerCondition] is the
    same for all settings with the same source, whatever their level,
    polarity and gains, and the polarity does not reach the verdict. *)
Theorem trigger_is_peak_to_peak (s : settings) (ch1Volts ch2Volts : list float) :
  let frame := triggerData s ch1Volts ch2Volts in
  (evaluate s ch1Volts ch2Volts = Released <->
   exists x rest,
     frame = x :: rest /\
     (0.1 <? max_from x rest - min_from x rest) = true /\
     (trigRadio s = CH1 \/ trigRadio s = CH2 ->
      (max_from x rest <? trigLine s) = false /\
      (trigLine s <? min_from x rest) = false)) /\
  (evaluate s ch1Volts ch2Volts = TriggerOutOfRange <->
   exists x rest,
     (trigRadio s = CH1 \/ trigRadio s = CH2) /\
     frame = x :: rest /\
     ((max_from x rest <? trigLine s) = true \/
      (trigLine s <? min_from x rest) = true)) /\
  (forall x rest, frame = x :: rest ->
     In (max_from x rest) frame /\ In (min_from x rest) frame) /\
  (forall s', trigRadio s' = trigRadio s ->
     checkTriggerCondition s' ch1Volts ch2Volts
     = checkTriggerCondition s ch1Volts ch2Volts) /\
  (forall pol,
     evaluate (mkSettings (trigRadio s) pol (trigLevel s) (ch1Gain s) (ch2Gain s))
       ch1Volts ch2Volts
     = evaluate s ch1Volts ch2Volts).
Proof.
  intros frame. split; [|split; [|split; [|split]]].
  - subst frame. unfold evaluate, checkTriggerCondition, triggerData.
    destruct (trigRadio s) eqn:Hsrc, ch1Volts as [|x1 r1], ch2Volts as [|x2 r2];
      cbn [orb];
      try (split; [discriminate|intros (x & rest & Hnil & _); discriminate]).
    all: try (split;
      [intros Hrel; eexists; eexists; split; [reflexivity|];
       split; [destruct (0.1 <? _); [reflexivity|discriminate]|];
       intros [Hno|Hno]; discriminate
      |intros (x & rest & Heq & Hrange & _); injection Heq as <- <-;
       rewrite Hrange; reflexivity]).
    all: split;
      [intros Hrel; eexists; eexists; split; [reflexivity|];
       destruct (max_from _ _ <? trigLine s); [discriminate|];
       destruct (trigLine s <? min_from _ _); [discriminate|]; cbn [orb] in Hrel;
       split; [destruct (0.1 <? _); [reflexivity|discriminate]|];
       intros _; split; reflexivity
      |intros (x & rest & Heq & Hrange & Hin); injection Heq as <- <-;
       destruct Hin as [-> ->]; [auto|]; cbn [orb]; rewrite Hrange; reflexivity].
  - subst frame. unfold evaluate, checkTriggerCondition, triggerData.
    destruct (trigRadio s) eqn:Hsrc, ch1Volts as [|x1 r1], ch2Volts as [|x2 r2];
      cbn [orb].
    all: try (split;
      [discriminate|intros (x & rest & _ & Heq & _); discriminate]).
    all: try (split;
      [destruct (0.1 <? _); discriminate
      |intros (x & rest & [Hno|Hno] & _); discriminate]).
    all: split;
      [intros Hout; eexists; eexists; split; [auto|]; split; [reflexivity|];
       destruct (max_from _ _ <? trigLine s); [left; reflexivity|];
       destruct (trigLine s <? min_from _ _); [right; reflexivity|];
       cbn [orb] in Hout; destruct (0.1 <? _); discriminate
      |intros (x & rest & _ & Heq & Hout); injection Heq as <- <-;
       destruct Hout as [-> | ->]; [reflexivity|];
       rewrite orb_true_r; reflexivity].
  - intros x rest Hframe. rewrite Hframe.
    split; [apply max_from_member|apply min_from_member].
  - intros s' Hsame. unfold checkTriggerCondition, triggerData.
    rewrite Hsame. reflexivity.
  - intros pol. reflexivity.
Qed.

End TriggerFacts.

(** ** The Bode magnitude of an invalid point *)

Module BodeFacts.
Import Bode.
Local Open Scope float_scope.

Section WithLog10.

Variable log10 : float -> float.

Example amplitude_unit_sine : amplitude (drop 20 unit_sine) = 1.
Proof. vm_compute. reflexivity. Qed.

Example amplitude_flat : amplitude (drop 20 flat) = 0.
Proof. vm_compute. reflexivity. Qed.

(** The flag and the two branches of the magnitude, read off the source. *)
Lemma analyse_long (inWaveFull outWaveFull : list float) :
  (20 < Nat.min (length inWaveFull) (length outWaveFull))%nat ->
  let inAmp := amplitude (drop 20 inWaveFull) in
  let outAmp := amplitude (drop 20 outWaveFull) in
  invalid (analyse log10 inWaveFull outWaveFull)
  = (inAmp <=? 1e-9) || (outAmp <=? 1e-9) /\
  ((1e-9 <? inAmp) = true ->
   magnitude (analyse log10 inWaveFull outWaveFull)
   = 20.0 * log10 (outAmp / inAmp)) /\
  ((1e-9 <? inAmp) = false ->
   magnitude (analyse log10 inWaveFull outWaveFull) = 0).
Proof.
  intros Hlong inAmp outAmp. unfold analyse.
  destruct (Nat.leb_spec (Nat.min (length inWaveFull) (length outWaveFull)) 20);
    [lia|].
  cbv zeta. fold inAmp outAmp. cbn [invalid magnitude].
  split; [reflexivity|]. split; intros ->; reflexivity.
Qed.

(** The sibling paths do record 0 dB: a capture of 20 samples or fewer, and
    a point whose input amplitude is too small. *)
Lemma analyse_short (inWaveFull outWaveFull : list float) :
  (Nat.min (length inWaveFull) (length outWaveFull) <= 20)%nat ->
  analyse log10 inWaveFull outWaveFull = mkPoint 0 true.
Proof.
  intros Hshort. unfold analyse.
  destruct (Nat.leb_spec (Nat.min (length inWaveFull) (length outWaveFull)) 20);
    [reflexivity|lia].
Qed.

Example analyse_no_input : analyse log10 flat unit_sine = mkPoint 0 true.
Proof. vm_compute. reflexivity. Qed.

Example analyse_same_wave :
  analyse log10 unit_sine unit_sine = mkPoint (20 * log10 1) false.
Proof. vm_compute. reflexivity. Qed.

Lemma analyse_unit_sine_flat :
  analyse log10 unit_sine flat = mkPoint (20 * log10 0) true.
Proof. vm_compute. reflexivity. Qed.

(** With the [log10] of [<cmath>], which is minus infinity at zero, the
    recorded magnitude is minus infinity. *)
Lemma analyse_no_output_infinite :
  log10 0 = neg_infinity ->
  magnitude (analyse log10 unit_sine flat) = neg_infinity.
Proof.
  intros Hlog. rewrite analyse_unit_sine_flat. cbn [magnitude].
  rewrite Hlog. vm_compute. reflexivity.
Qed.

(** The same from raw bytes through the calibration: CH2 at a constant ADC
    code has no local extremum, its amplitude is zero. *)
Example analyse_no_output_from_codes :
  analyse log10 sine_volts flat_volts = mkPoint (20 * log10 0) true.
Proof. vm_compute. reflexivity. Qed.

(** C6, on the source: a point whose output amplitude alone is too small
    is marked invalid, and what is recorded for it is not 0.0 dB but
    [20 * log10(outAmp / inAmp)], here [20 * log10(0)]. *)
Theorem analyse_no_output :
  analyse log10 unit_sine flat = mkPoint (20 * log10 0) true
  /\ plotBodePlot log10 [100; 200] [unit_sine; unit_sine] [flat; unit_sine]
     = Some ([20 * log10 0; 20 * log10 1], [100]).
Proof. split; vm_compute; reflexivity. Qed.

End WithLog10.

End BodeFacts.

(** ** Captures from start to signal *)

Module CaptureFacts.
Import CInt SerialHandler SerialFacts.

Lemma available_after inc (bytes : list Z) tt sst wr em t :
  bytesAvailable (mkWorld tt sst (inc ++ bytes) wr em t)
  = Z.of_nat (length (inc ++ bytes)).
Proof. reflexivity. Qed.

Lemma take_exact {A} (n : Z) (l : list A) :
  Z.of_nat (length l) = n -> take (Z.to_nat n) l = l /\ drop (Z.to_nat n) l = [].
Proof.
  intros <-. rewrite Nat2Z.id. split; [apply firstn_all|apply skipn_all].
Qed.

(** X1. A short read waits: while fewer bytes are buffered than the state
    expects, nothing is consumed, written or emitted and the state
    variables stay as they are. *)
Theorem short_read_waits (h : handler) (bytes : list Z) :
  waiting (acq h) = true ->
  Z.of_nat (length (incoming (env h) ++ bytes)) < bytesNeeded (acq h) ->
  let h' := receive bytes h in
  acq h' = acq h /\
  incoming (env h') = incoming (env h) ++ bytes /\
  written (env h') = written (env h) /\
  emitted (env h') = emitted (env h) /\
  timeoutTimer (env h') = timeoutTimer (env h) /\
  setupStep h' = setupStep h.
Proof.
  destruct h as [[s md dl du c1 c2 bn] p st fl [tt sst inc wr em t]].
  cbn [acq env acqState bytesNeeded incoming waiting].
  intros Hwait Hshort. unfold receive, handleReadyRead.
  cbn [acq env acqState bytesNeeded incoming timeoutTimer setupTimer written
       emitted now proto setupStep acquisitionInProgress].
  rewrite available_after.
  destruct (Z.gtb_spec (Z.of_nat (length (inc ++ bytes))) 0);
    [|destruct s; repeat split].
  destruct (Z.ltb_spec (Z.of_nat (length (inc ++ bytes))) bn); [|lia].
  destruct s; try discriminate Hwait; repeat split.
Qed.

Lemma short_read_waits_witness :
  let h := receive [6] (armed p0 BothChannels) in
  let h' := receive (replicate 150 128) h in
  acq h' = acq h /\
  incoming (env h') = incoming (env h) ++ replicate 150 128 /\
  written (env h') = written (env h) /\
  emitted (env h') = emitted (env h) /\
  timeoutTimer (env h') = timeoutTimer (env h) /\
  setupStep h' = setupStep h.
Proof.
  apply (short_read_waits (receive [6] (armed p0 BothChannels)) (replicate 150 128)).
  - reflexivity.
  - vm_compute. reflexivity.
Defined.

(** The handler when the setup sequence has run, written out. *)
Lemma armed_explicit (p : protocol) (m : acquisition_mode) :
  armed p m
  = mkHandler
      (mkAcquisition WaitingForDone (acquisitionMode m + 1)
         (if acquisitionMode m =? 0 then 200 else 400)
         (acquisitionMode m =? 0) [] [] 1)
      p 7 false
      (mkWorld (Some 5000) None []
         ([] ++ setup_frames p (acquisitionMode m + 1) 0 ++ [(0 + 350, [67; 0; 0])])
         [] (0 + 350)).
Proof.
  unfold armed, onRunClicked. cbv zeta.
  rewrite started by reflexivity.
  cbn [fresh proto env incoming written emitted now].
  destruct m; cbn [acquisitionMode Z.eqb Z.add Pos.add]; apply seven_ticks.
Qed.

(** The handler once the acknowledgment has been answered with the read
    command. *)
Lemma after_ack (p : protocol) (m : acquisition_mode) (ack : Z) :
  receive [ack] (armed p m)
  = mkHandler
      (mkAcquisition (awaited m) (acquisitionMode m + 1)
         (if acquisitionMode m =? 0 then 200 else 400)
         (acquisitionMode m =? 0) [] [] (expected_bytes m))
      p 7 false
      (mkWorld (Some 5000) None []
         (written (env (armed p m)) ++ [(450, read_command m)]) [] 450).
Proof.
  rewrite armed_explicit.
  cbn [env written]. destruct m; reflexivity.
Qed.

(** The last read of a capture, in any handler that waits for CH2. *)
Lemma ch2_completes (h : handler) (data : list Z) :
  acqState (acq h) = WaitingForCh2 -> incoming (env h) = [] ->
  0 < bytesNeeded (acq h) -> Z.of_nat (length data) = bytesNeeded (acq h) ->
  receive data h
  = mkHandler (mkAcquisition Idle 1 200 true [] [] 0) (proto h) (setupStep h) false
      (mkWorld None (setupTimer (env h)) [] (written (env h))
         (emitted (env h) ++
          (if acqDualChannel (acq h)
           then [oscilloscopeRawDataReady (ch1Raw (acq h)) data
                   (acqDataLength (acq h)) true]
           else if acqMode (acq h) =? 3
           then [oscilloscopeRawDataReady [] data (acqDataLength (acq h)) false]
           else []))
         (now (env h))).
Proof.
  destruct h as [[s md dl du c1 c2 bn] p st fl [tt sst inc wr em t]].
  cbn [acq env acqState bytesNeeded incoming acqDualChannel acqMode ch1Raw
       acqDataLength proto setupStep setupTimer written emitted now].
  intros -> -> Hpos Hlen.
  unfold receive, handleReadyRead.
  cbn [acq env acqState bytesNeeded incoming timeoutTimer setupTimer written
       emitted now proto setupStep acquisitionInProgress acqDualChannel
       acqMode ch1Raw ch2Raw acqDataLength app].
  unfold bytesAvailable. cbn [incoming]. rewrite Hlen.
  destruct (Z.gtb_spec bn 0); [|lia].
  rewrite Z.ltb_irrefl.
  destruct (Z.leb_spec bn 0); [lia|]. cbn [orb].
  unfold read. cbn [incoming timeoutTimer setupTimer written emitted now].
  destruct (take_exact bn data Hlen) as [-> ->].
  destruct du; [|destruct (md =? 3)]; cbn; rewrite ?app_nil_r; reflexivity.
Qed.

(** The only read of a CH1-only capture. *)
Lemma ch1_completes (h : handler) (data : list Z) :
  acqState (acq h) = WaitingForCh1 -> incoming (env h) = [] ->
  acqDualChannel (acq h) = false -> acqMode (acq h) = 2 ->
  0 < bytesNeeded (acq h) -> Z.of_nat (length data) = bytesNeeded (acq h) ->
  receive data h
  = mkHandler (mkAcquisition Idle 1 200 true [] [] 0) (proto h) (setupStep h) false
      (mkWorld None (setupTimer (env h)) [] (written (env h))
         (emitted (env h) ++
          [oscilloscopeRawDataReady data [] (acqDataLength (acq h)) false])
         (now (env h))).
Proof.
  destruct h as [[s md dl du c1 c2 bn] p st fl [tt sst inc wr em t]].
  cbn [acq env acqState bytesNeeded incoming acqDualChannel acqMode ch1Raw
       acqDataLength proto setupStep setupTimer written emitted now].
  intros -> -> -> -> Hpos Hlen.
  unfold receive, handleReadyRead.
  cbn [acq env acqState bytesNeeded incoming timeoutTimer setupTimer written
       emitted now proto setupStep acquisitionInProgress acqDualChannel
       acqMode ch1Raw ch2Raw acqDataLength app].
  unfold bytesAvailable. cbn [incoming]. rewrite Hlen.
  destruct (Z.gtb_spec bn 0); [|lia].
  rewrite Z.ltb_irrefl.
  destruct (Z.leb_spec bn 0); [lia|]. cbn [orb].
  unfold read. cbn [incoming timeoutTimer setupTimer written emitted now].
  destruct (take_exact bn data Hlen) as [-> ->]. reflexivity.
Qed.

(** The 200 bytes of CH1 in a dual capture. *)
Lemma ch1_of_dual (h : handler) (data : list Z) :
  acqState (acq h) = WaitingForCh1 -> incoming (env h) = [] ->
  acqDualChannel (acq h) = true ->
  0 < bytesNeeded (acq h) -> Z.of_nat (length data) = bytesNeeded (acq h) ->
  receive data h
  = mkHandler
      (mkAcquisition WaitingForCh2 (acqMode (acq h)) (acqDataLength (acq h))
         true data (ch2Raw (acq h)) 200)
      (proto h) (setupStep h) (acquisitionInProgress h)
      (mkWorld (Some 5000) (setupTimer (env h)) []
         (written (env h) ++ [(now (env h), [68; 2; 0])])
         (emitted (env h)) (now (env h))).
Proof.
  destruct h as [[s md dl du c1 c2 bn] p st fl [tt sst inc wr em t]].
  cbn [acq env acqState bytesNeeded incoming acqDualChannel acqMode ch1Raw
       ch2Raw acqDataLength proto setupStep setupTimer written emitted now
       acquisitionInProgress].
  intros -> -> -> Hpos Hlen.
  unfold receive, handleReadyRead.
  cbn [acq env acqState bytesNeeded incoming timeoutTimer setupTimer written
       emitted now proto setupStep acquisitionInProgress acqDualChannel
       acqMode ch1Raw ch2Raw acqDataLength app].
  unfold bytesAvailable. cbn [incoming]. rewrite Hlen.
  destruct (Z.gtb_spec bn 0); [|lia].
  rewrite Z.ltb_irrefl.
  destruct (Z.leb_spec bn 0); [lia|]. cbn [orb].
  unfold read. cbn [incoming timeoutTimer setupTimer written emitted now].
  destruct (take_exact bn data Hlen) as [-> ->]. reflexivity.
Qed.

Ltac side :=
  cbn [acq env acqState bytesNeeded incoming acqDualChannel acqMode awaited
       expected_bytes acquisitionMode Z.eqb Z.add Pos.add].

(** X2. A dual capture from start to signal: after the setup sequence, one
    acknowledgment byte, 200 bytes and 200 more bytes, exactly one capture
    signal has been emitted, it carries the first 200 bytes as CH1 and the
    next 200 as CH2, the two read commands [D,1,0] and [D,2,0] are the only
    frames sent after the capture command, and the handler is idle again
    with no timeout pending and nothing buffered. *)
Theorem dual_capture_delivers (p : protocol) (ack : Z) (c1 c2 : list Z) :
  length c1 = 200%nat -> length c2 = 200%nat ->
  let h := receive c2 (receive c1 (receive [ack] (armed p BothChannels))) in
  emitted (env h) = [oscilloscopeRawDataReady c1 c2 200 true] /\
  frames h = frames (armed p BothChannels) ++ [[68; 1; 0]; [68; 2; 0]] /\
  acqState (acq h) = Idle /\
  timeoutTimer (env h) = None /\
  incoming (env h) = [] /\
  acquisitionInProgress h = false.
Proof.
  intros H1 H2 h. subst h. rewrite after_ack.
  rewrite (ch1_of_dual _ c1) by (side; rewrite ?H1; first [reflexivity | lia]).
  rewrite (ch2_completes _ c2) by (side; rewrite ?H2; first [reflexivity | lia]).
  cbn [acq env acqState emitted timeoutTimer incoming acquisitionInProgress
       acqDualChannel ch1Raw acqDataLength acquisitionMode Z.eqb app].
  unfold frames. cbn [env written]. rewrite !map_app. cbn [map snd].
  rewrite <- app_assoc. repeat split.
Qed.

Lemma dual_capture_delivers_witness :
  let h := receive (replicate 200 7)
             (receive (replicate 200 128) (receive [6] (armed p0 BothChannels))) in
  emitted (env h)
  = [oscilloscopeRawDataReady (replicate 200 128) (replicate 200 7) 200 true] /\
  frames h = frames (armed p0 BothChannels) ++ [[68; 1; 0]; [68; 2; 0]] /\
  acqState (acq h) = Idle /\
  timeoutTimer (env h) = None /\
  incoming (env h) = [] /\
  acquisitionInProgress h = false.
Proof.
  apply (dual_capture_delivers p0 6 (replicate 200 128) (replicate 200 7));
    reflexivity.
Defined.

(** X3. A single-channel capture from start to signal: after the
    acknowledgment and 400 bytes, exactly one signal has been emitted; in
    CH1-only mode the bytes are its CH1 and CH2 is empty, in CH2-only mode
    CH1 is empty and the bytes are its CH2; one read command was sent and
    the handler is idle again. *)
Theorem single_capture_delivers (p : protocol) (m : acquisition_mode)
    (ack : Z) (data : list Z) :
  m <> BothChannels -> length data = 400%nat ->
  let h := receive data (receive [ack] (armed p m)) in
  emitted (env h)
  = [match m with
     | CH2Only => oscilloscopeRawDataReady [] data 400 false
     | _ => oscilloscopeRawDataReady data [] 400 false
     end] /\
  frames h = frames (armed p m) ++ [read_command m] /\
  acqState (acq h) = Idle /\
  timeoutTimer (env h) = None /\
  incoming (env h) = [].
Proof.
  intros Hm Hlen h. subst h. rewrite after_ack.
  destruct m; [contradiction| |].
  - rewrite (ch1_completes _ data)
      by (side; rewrite ?Hlen; first [reflexivity | lia]).
    unfold frames. cbn [env written emitted acq acqState timeoutTimer incoming
                        acqDataLength acquisitionMode Z.eqb app].
    rewrite map_app. repeat split.
  - rewrite (ch2_completes _ data)
      by (side; rewrite ?Hlen; first [reflexivity | lia]).
    unfold frames. cbn [env written emitted acq acqState timeoutTimer incoming
                        acqDataLength acqDualChannel acqMode acquisitionMode
                        Z.eqb Z.add Pos.add Pos.succ Pos.eqb app].
    rewrite map_app. repeat split.
Qed.

Lemma single_capture_delivers_witness :
  let h := receive (replicate 400 9) (receive [6] (armed p0 CH2Only)) in
  emitted (env h)
  = [oscilloscopeRawDataReady [] (replicate 400 9) 400 false] /\
  frames h = frames (armed p0 CH2Only) ++ [read_command CH2Only] /\
  acqState (acq h) = Idle /\
  timeoutTimer (env h) = None /\
  incoming (env h) = [].
Proof.
  apply (single_capture_delivers p0 CH2Only 6 (replicate 400 9)).
  - discriminate.
  - reflexivity.
Defined.

(** X4. A state timeout recovers the handler: whatever it was waiting
    for, the expiry drops the buffered bytes, reports the state it timed
    out in, returns to [Idle] with the defaults, and the next start is
    accepted and runs the whole setup sequence up to the capture command. *)
Theorem timeout_recovers (h : handler) (ms mode dataLength : Z) (dualChannel : bool) :
  timeoutTimer (env h) = Some ms ->
  let h1 := timeoutTimer_timeout h in
  acq h1 = mkAcquisition Idle 1 200 true [] [] 0 /\
  incoming (env h1) = [] /\
  timeoutTimer (env h1) = None /\
  emitted (env h1) = emitted (env h) ++ [errorOccurred (acqState (acq h))] /\
  written (env h1) = written (env h) /\
  (let h2 := setup_ticks 7 (startOscilloscopeAcquisition mode dataLength dualChannel h1) in
   acqState (acq h2) = WaitingForDone /\
   timeoutTimer (env h2) = Some 5000 /\
   written (env h2)
   = written (env h) ++ setup_frames (proto h) mode (now (env h) + ms)
     ++ [(now (env h) + ms + 350, [67; 0; 0])]).
Proof.
  destruct h as [a p st fl [tt sst inc wr em t]].
  cbn [env timeoutTimer]. intros ->. cbv zeta.
  unfold timeoutTimer_timeout.
  cbn [env acq proto setupStep acquisitionInProgress timeoutTimer setupTimer
       incoming written emitted now readAll emit resetAcquisitionState
       timeoutTimer_stop].
  repeat (split; [reflexivity|]).
  rewrite started by reflexivity.
  cbn [env proto incoming written emitted now].
  rewrite seven_ticks. repeat split.
Qed.

Lemma timeout_recovers_witness :
  let h := armed p0 BothChannels in
  let h1 := timeoutTimer_timeout h in
  acq h1 = mkAcquisition Idle 1 200 true [] [] 0 /\
  incoming (env h1) = [] /\
  timeoutTimer (env h1) = None /\
  emitted (env h1) = emitted (env h) ++ [errorOccurred (acqState (acq h))] /\
  written (env h1) = written (env h) /\
  (let h2 := setup_ticks 7 (startOscilloscopeAcquisition 2 400 false h1) in
   acqState (acq h2) = WaitingForDone /\
   timeoutTimer (env h2) = Some 5000 /\
   written (env h2)
   = written (env h) ++ setup_frames (proto h) 2 (now (env h) + 5000)
     ++ [(now (env h) + 5000 + 350, [67; 0; 0])]).
Proof.
  apply (timeout_recovers (armed p0 BothChannels) 5000 2 400 false). reflexivity.
Defined.

(** X5. Bytes that arrive while no capture waits for them (state [Idle],
    which includes the whole setup sequence) are thrown away: the buffer is
    emptied, nothing is written or emitted and no state variable changes,
    so they cannot be taken for the acknowledgment or the data of a later
    capture. *)
Theorem idle_discards (h : handler) (bytes : list Z) :
  acqState (acq h) = Idle ->
  let h' := receive bytes h in
  acq h' = acq h /\
  incoming (env h') = [] /\
  written (env h') = written (env h) /\
  emitted (env h') = emitted (env h) /\
  setupStep h' = setupStep h /\
  setupTimer (env h') = setupTimer (env h).
Proof.
  destruct h as [[s md dl du c1 c2 bn] p st fl [tt sst inc wr em t]].
  cbn [acq acqState]. intros ->. cbv zeta.
  unfold receive, handleReadyRead.
  cbn [acq env acqState incoming timeoutTimer setupTimer written emitted now
       proto setupStep acquisitionInProgress].
  rewrite available_after.
  destruct (Z.gtb_spec (Z.of_nat (length (inc ++ bytes))) 0) as [Hpos|Hnone].
  - repeat split.
  - destruct inc, bytes; cbn in Hnone; try lia. repeat split.
Qed.

Lemma idle_discards_witness :
  let h := setup_ticks 3 (onRunClicked CH1Only (fresh p0)) in
  let h' := receive [1; 2; 3] h in
  acq h' = acq h /\
  incoming (env h') = [] /\
  written (env h') = written (env h) /\
  emitted (env h') = emitted (env h) /\
  setupStep h' = setupStep h /\
  setupTimer (env h') = setupTimer (env h).
Proof.
  apply (idle_discards (setup_ticks 3 (onRunClicked CH1Only (fresh p0))) [1; 2; 3]).
  reflexivity.
Defined.

(** *** What every history keeps *)

Lemma emitted_write (frame : list Z) (w : world) :
  emitted (write frame w) = emitted w.
Proof. destruct frame; reflexivity. Qed.

Lemma take_length_exact {A} (n : Z) (l : list A) :
  0 <= n <= Z.of_nat (length l) -> length (take (Z.to_nat n) l) = Z.to_nat n.
Proof. intros Hn. rewrite length_take. lia. Qed.

Lemma handleSetupStep_ok (h : handler) :
  handler_ok h -> handler_ok (handleSetupStep h).
Proof.
  destruct h as [a p st fl w]. unfold handler_ok, handleSetupStep.
  cbn [acq env setupStep proto acquisitionInProgress]. intros [Hacq Hem].
  destruct ((0 <=? st) && (st <=? 6)).
  - cbn [acq env]. split; [exact Hacq|].
    unfold setupTimer_start. cbn [emitted]. rewrite emitted_write. exact Hem.
  - destruct (st =? 7); [|split; assumption].
    cbn [acq env]. split; [reflexivity|]. destruct w; exact Hem.
Qed.

Lemma start_ok (mode dataLength : Z) (dualChannel : bool) (h : handler) :
  handler_ok h ->
  handler_ok (startOscilloscopeAcquisition mode dataLength dualChannel h).
Proof.
  intros Hok. destruct (acquisitionInProgress h) eqn:Hflag.
  - unfold startOscilloscopeAcquisition. rewrite Hflag. exact Hok.
  - rewrite started by exact Hflag. destruct Hok as [_ Hem].
    split; [exact I|exact Hem].
Qed.

Lemma receive_ok (bytes : list Z) (h : handler) :
  handler_ok h -> handler_ok (receive bytes h).
Proof.
  destruct h as [[s md dl du c1 c2 bn] p st fl [tt sst inc wr em t]].
  unfold handler_ok, acq_ok. cbn [acq env acqState bytesNeeded acqDualChannel
    acqMode ch1Raw emitted]. intros [Hacq Hem].
  unfold receive, handleReadyRead.
  cbn [acq env acqState bytesNeeded incoming timeoutTimer setupTimer written
       emitted now proto setupStep acquisitionInProgress acqDualChannel
       acqMode ch1Raw ch2Raw acqDataLength].
  rewrite available_after. set (buffered := inc ++ bytes).
  destruct (Z.gtb_spec (Z.of_nat (length buffered)) 0) as [Hpos|_];
    [|split; assumption].
  destruct s.
  - split; [exact I|exact Hem].
  - subst bn.
    destruct (Z.ltb_spec (Z.of_nat (length buffered)) 1); [lia|].
    cbn [Z.leb Z.compare orb]. unfold data_request, read.
    cbn [acqDualChannel acqMode bytesNeeded acqState].
    destruct du; [|destruct (Z.eqb_spec md 2); [|destruct (Z.eqb_spec md 3)]];
      cbn; (split; [|exact Hem]); auto.
  - assert (Hbn : bn = 200 \/ bn = 400) by (destruct Hacq as [[_ ?]|(_ & _ & ?)]; auto).
    destruct (Z.ltb_spec (Z.of_nat (length buffered)) bn) as [|Hfull].
    + split; [exact Hacq|exact Hem].
    + destruct (Z.leb_spec bn 0); [lia|]. cbn [orb]. unfold read.
      cbn [incoming timeoutTimer setupTimer written emitted now].
      destruct Hacq as [[-> ->]|(-> & -> & ->)].
      * cbn. split; [|exact Hem]. left. repeat split.
        rewrite (take_length_exact 200) by lia. reflexivity.
      * cbn. split; [exact I|]. apply Forall_app. split; [exact Hem|].
        constructor; [|constructor]. cbn. left. split; [|reflexivity].
        rewrite (take_length_exact 400) by lia. reflexivity.
  - assert (Hbn : bn = 200 \/ bn = 400) by (destruct Hacq as [(_ & ? & _)|(_ & _ & ?)]; auto).
    destruct (Z.ltb_spec (Z.of_nat (length buffered)) bn) as [|Hfull].
    + split; [exact Hacq|exact Hem].
    + destruct (Z.leb_spec bn 0); [lia|]. cbn [orb]. unfold read.
      cbn [incoming timeoutTimer setupTimer written emitted now].
      destruct Hacq as [(-> & -> & Hc1)|(-> & -> & ->)].
      * cbn. split; [exact I|]. apply Forall_app. split; [exact Hem|].
        constructor; [|constructor]. cbn. split; [exact Hc1|].
        rewrite (take_length_exact 200) by lia. reflexivity.
      * cbn. split; [exact I|]. apply Forall_app. split; [exact Hem|].
        constructor; [|constructor]. cbn. right. split; [reflexivity|].
        rewrite (take_length_exact 400) by lia. reflexivity.
  - split; [exact I|exact Hem].
Qed.

Lemma step_ok (e : event) (h : handler) : handler_ok h -> handler_ok (step e h).
Proof.
  intros Hok. destruct e as [mode len dual|p'| | |bytes]; cbn [step].
  - apply start_ok. exact Hok.
  - exact Hok.
  - unfold setupTimer_timeout. destruct (setupTimer (env h)); [|exact Hok].
    apply handleSetupStep_ok. destruct h as [a p st fl [tt sst inc wr em t]].
    exact Hok.
  - unfold timeoutTimer_timeout. destruct (timeoutTimer (env h)); [|exact Hok].
    destruct h as [a p st fl [tt sst inc wr em t]]. destruct Hok as [_ Hem].
    split; [exact I|]. cbn. apply Forall_app. split; [exact Hem|].
    constructor; [exact I|constructor].
  - apply receive_ok. exact Hok.
Qed.

Lemma call_ok (c : call) (h : handler) : handler_ok h -> handler_ok (call_step c h).
Proof.
  intros Hok. destruct c as [e| |cmd|level]; cbn [call_step].
  - apply step_ok. exact Hok.
  - destruct Hok as [_ Hem]. split; [exact I|].
    destruct h as [a p st fl [tt sst inc wr em t]]. exact Hem.
  - destruct Hok as [Hacq Hem]. split; [exact Hacq|].
    unfold sendCommand. cbn [env]. rewrite emitted_write. exact Hem.
  - destruct Hok as [Hacq Hem]. split; [exact Hacq|].
    unfold setTrigger. cbn [env]. rewrite emitted_write. exact Hem.
Qed.

(** X6. Whatever happens to a handler - starts with any arguments, timer
    expiries, bytes in any chunks, resets, commands and trigger levels sent
    by the window - every capture signal it ever emits carries exactly 200
    bytes in each channel when it is flagged dual, and otherwise exactly 400
    bytes in one channel and none in the other; and in each waiting state
    the byte count expected is the one of the mode (1 for the
    acknowledgment, 200 per channel in dual mode, 400 in single). *)
Theorem every_frame_is_whole (history : list call) (p : protocol) :
  Forall signal_ok (emitted (env (calls history (fresh p)))) /\
  acq_ok (acq (calls history (fresh p))).
Proof.
  enough (Hok : handler_ok (calls history (fresh p)))
    by (destruct Hok; split; assumption).
  unfold calls.
  assert (Hfresh : handler_ok (fresh p)) by (split; [exact I|constructor]).
  revert Hfresh. generalize (fresh p).
  induction history as [|c history IH]; intros h Hok; cbn [fold_left].
  - exact Hok.
  - apply IH. apply call_ok. exact Hok.
Qed.

(** X7. The trigger level travels intact: for a level that fits 16 bits
    (the UI's levels are 0 to 4095) [setTrigger] writes one 'L' frame whose
    two payload bytes are the high and the low byte of the level, so that
    [256 * high + low] is the level again, and the setup sequence of the
    next capture sends the same two bytes. *)
Theorem trigger_level_travels (level : Z) (h : handler) :
  0 <= level <= 65535 ->
  let h' := setTrigger level h in
  written (env h')
  = written (env h) ++ [(now (env h), [76; level / 256; level mod 256])] /\
  setup_frame h' 4 = [76; level / 256; level mod 256] /\
  0 <= level / 256 <= 255 /\ 0 <= level mod 256 <= 255 /\
  256 * (level / 256) + level mod 256 = level.
Proof.
  intros Hlevel h'.
  assert (Hhi : Z.land (Z.shiftr level 8) 255 = level / 256).
  { rewrite Z.shiftr_div_pow2 by lia. change (2 ^ 8) with 256.
    change 255 with (Z.ones 8). rewrite Z.land_ones by lia.
    change (2 ^ 8) with 256. apply Z.mod_small. split.
    - apply Z.div_pos; lia.
    - apply Z.div_lt_upper_bound; lia. }
  assert (Hlo : Z.land level 255 = level mod 256).
  { change 255 with (Z.ones 8). rewrite Z.land_ones by lia. reflexivity. }
  assert (Hr1 : 0 <= level / 256 <= 255).
  { split; [apply Z.div_pos; lia|].
    enough (level / 256 < 256) by lia. apply Z.div_lt_upper_bound; lia. }
  pose proof (Z.mod_pos_bound level 256 ltac:(lia)) as Hr2.
  subst h'. destruct h as [a p st fl [tt sst inc wr em t]].
  unfold setTrigger, setup_frame, write.
  cbn [env proto written now trigLevel timeoutTimer setupTimer incoming emitted].
  unfold to_char. rewrite Hhi, Hlo.
  rewrite (Z.mod_small (level / 256)) by lia.
  rewrite (Z.mod_small (level mod 256)) by lia.
  repeat split; try lia.
  pose proof (Z.div_mod level 256 ltac:(lia)). lia.
Qed.

Lemma trigger_level_travels_witness :
  let h' := setTrigger 2048 (fresh p0) in
  written (env h')
  = written (env (fresh p0)) ++ [(now (env (fresh p0)), [76; 2048 / 256; 2048 mod 256])] /\
  setup_frame h' 4 = [76; 2048 / 256; 2048 mod 256] /\
  0 <= 2048 / 256 <= 255 /\ 0 <= 2048 mod 256 <= 255 /\
  256 * (2048 / 256) + 2048 mod 256 = 2048.
Proof.
  apply (trigger_level_travels 2048 (fresh p0)). lia.
Defined.

End CaptureFacts.

(** ** What the DDS table holds *)

Module TableFacts.
Import CInt CIntFacts DDS FillFacts.

Lemma sample_index_mono (step j k : Z) :
  0 <= step -> j <= k -> sample_index step j <= sample_index step k.
Proof.
  intros Hs Hjk. unfold sample_index. apply Z.min_le_compat_l.
  apply Z.div_le_mono; [lia|nia].
Qed.

Lemma sample_index_range (step k : Z) :
  0 <= step -> 0 <= k -> 0 <= sample_index step k <= 255.
Proof.
  intros Hs Hk. unfold sample_index.
  assert (0 <= k * step / 256) by (apply Z.div_pos; nia). lia.
Qed.

Section Track.

Variables (wave table0 : list Z) (step : Z).
Hypothesis Hwave : 256 <= Z.of_nat (length wave).
Hypothesis Hstep : 1 <= step.
Hypothesis Hfit : 0 + 511 * step <= INT_MAX.

Local Abbreviation tracks := (DDS.tracks wave table0 step).

Lemma fill_step_tracks st :
  tracks st -> loop_condition st = true ->
  exists st', fill_step wave step st = Done st' /\ tracks st'.
Proof.
  intros [Hinv Hlast Hseen Huniq Htab Hrest] Hcond.
  destruct (fill_step_inv wave table0 0 step Hwave Hstep ltac:(lia) Hfit
              st Hinv Hcond) as (st' & Hst' & Hinv' & _).
  exists st'. split; [exact Hst'|].
  destruct Hinv as [[Hlen _ _ _ _ _] Hcnt Hacc Hsn].
  unfold loop_condition in Hcond.
  apply andb_true_iff in Hcond as [Hcond Hc3].
  apply andb_true_iff in Hcond as [Hc1 Hc2].
  apply Z.ltb_lt in Hc1, Hc2, Hc3.
  unfold fill_step in Hst'. cbv zeta in Hst'.
  assert (Hnext : wrap32 (phase_accumulator st + step) = dds_count st * step).
  { rewrite Hacc. rewrite wrap32_id; [lia|].
    unfold in_int, INT_MIN, INT_MAX in *. nia. }
  rewrite Hnext in Hst'.
  assert (Hshift : Z.shiftr (dds_count st * step) 8 = dds_count st * step / 256).
  { rewrite Z.shiftr_div_pow2 by lia. reflexivity. }
  rewrite Hshift in Hst'.
  assert (Hclip : (if dds_count st * step / 256 >=? 256 then 255
                   else dds_count st * step / 256)
                  = sample_index step (dds_count st)).
  { unfold sample_index. destruct (Z.geb_spec (dds_count st * step / 256) 256); lia. }
  rewrite Hclip in Hst'.
  pose proof (sample_index_range step (dds_count st) ltac:(lia) ltac:(lia)) as Hidx.
  pose proof (sample_index_mono step (dds_count st - 1) (dds_count st)
                ltac:(lia) ltac:(lia)) as Hmono.
  rewrite <- Hlast in Hmono.
  set (idx := sample_index step (dds_count st)) in *.
  assert (Hb : (Z.of_nat (length wave) >? 0) && (idx <? Z.of_nat (length wave)) = true).
  { apply andb_true_iff. split; [apply Z.gtb_lt|apply Z.ltb_lt]; lia. }
  rewrite Hb in Hst'.
  destruct (at_index_Done wave idx) as (v & Hv & Hlk); [lia|].
  rewrite Hv in Hst'. cbn [bind] in Hst'.
  rewrite store_Done in Hst' by lia. cbn [bind] in Hst'.
  destruct (at_index_Done (seen st) idx) as (b & Hsb & Hlb); [lia|].
  rewrite Hsb in Hst'. cbn [bind] in Hst'.
  assert (Htable : forall k, 0 <= k < dds_count st + 1 ->
            k < Z.of_nat (length table0) ->
            <[Z.to_nat (dds_count st) := v]> (table st) !! Z.to_nat k
            = wave !! Z.to_nat (sample_index step k)).
  { intros k Hk Hkt. destruct (Z.eq_dec k (dds_count st)) as [->|Hne].
    - rewrite list_lookup_insert_eq by lia. symmetry. exact Hlk.
    - rewrite list_lookup_insert_ne by lia. apply Htab; lia. }
  assert (Hothers : forall k, dds_count st + 1 <= k ->
            <[Z.to_nat (dds_count st) := v]> (table st) !! Z.to_nat k
            = table0 !! Z.to_nat k).
  { intros k Hk. rewrite list_lookup_insert_ne by lia. apply Hrest. lia. }
  destruct b; cbn [negb bind] in Hst'.
  - injection Hst' as Hst'. subst st'.
    constructor; cbn; try assumption.
    + f_equal. lia.
    + lia.
  - rewrite store_Done in Hst' by lia. cbn [bind] in Hst'.
    injection Hst' as Hst'. subst st'.
    constructor; cbn; try assumption.
    + f_equal. lia.
    + apply list_lookup_insert_eq. lia.
    + enough (idx <> last_index st) by lia.
      intros Heq. rewrite Heq in Hlb. congruence.
Qed.

Lemma fill_loop_tracks fuel :
  forall st, tracks st -> 512 - dds_count st <= Z.of_nat fuel ->
  exists st', fill_loop fuel wave step st = Done st' /\ tracks st'
              /\ loop_condition st' = false.
Proof.
  induction fuel as [|fuel IH]; intros st Htr Hfuel; cbn [fill_loop];
    destruct (loop_condition st) eqn:Hcond;
    try (exists st; split; [reflexivity|split; assumption]).
  - exfalso. unfold loop_condition in Hcond.
    apply andb_true_iff in Hcond as [Hcond _].
    apply andb_true_iff in Hcond as [Hc1 _].
    apply Z.ltb_lt in Hc1. lia.
  - destruct (fill_step_tracks st Htr Hcond) as (st1 & Hstep1 & Htr1).
    rewrite Hstep1. cbn [bind].
    assert (Hcnt1 : dds_count st1 = dds_count st + 1).
    { destruct (fill_step_inv wave table0 0 step Hwave Hstep ltac:(lia) Hfit
                  st (tracks_inv _ _ _ _ Htr) Hcond) as (st2 & Hst2 & _ & Hc).
      congruence. }
    apply IH; [exact Htr1|lia].
Qed.

(** The padding loop stores the master's entry at [last_index] from [i]
    up to the end of the first 512 entries, and nothing else. *)
Lemma pad_loop_exact fuel :
  forall i st v,
    wave !! Z.to_nat (last_index st) = Some v -> 0 <= last_index st ->
    0 <= i -> 512 - i <= Z.of_nat fuel ->
    exists st', pad_loop fuel wave i st = Done st' /\
      length (table st') = length (table st) /\
      dds_count st' = dds_count st /\
      forall k, 0 <= k ->
        table st' !! Z.to_nat k
        = if (i <=? k) && (k <? 512) && (k <? Z.of_nat (length (table st)))
          then Some v else table st !! Z.to_nat k.
Proof.
  induction fuel as [|fuel IH]; intros i st v Hv Hlast Hi Hfuel; cbn [pad_loop];
    destruct ((i <? 512) && (i <? Z.of_nat (length (table st)))) eqn:Hcond.
  - apply andb_true_iff in Hcond as [Hc1 _]. apply Z.ltb_lt in Hc1. lia.
  - exists st. repeat split. intros k Hk.
    destruct (Z.leb_spec i k), (Z.ltb_spec k 512),
      (Z.ltb_spec k (Z.of_nat (length (table st)))); cbn [andb]; try reflexivity.
    apply andb_false_iff in Hcond as [Hc|Hc]; apply Z.ltb_ge in Hc; lia.
  - apply andb_true_iff in Hcond as [Hc1 Hc2]. apply Z.ltb_lt in Hc1, Hc2.
    assert (Hb : (Z.of_nat (length wave) >? 0) = true) by (apply Z.gtb_lt; lia).
    rewrite Hb.
    assert (Hat : at_index wave (last_index st) = Done v).
    { unfold at_index. destruct (Z.ltb_spec (last_index st) 0); [lia|].
      rewrite Hv. reflexivity. }
    rewrite Hat. cbn [bind]. rewrite store_Done by lia. cbn [bind].
    match goal with
    | |- exists st', pad_loop _ _ _ ?s = _ /\ _ =>
        destruct (IH (i + 1) s v) as (st' & Hpad & Hlen' & Hcnt' & Hall);
          [exact Hv|exact Hlast|lia|lia|]
    end.
    cbn [table dds_count] in Hlen', Hcnt', Hall. rewrite length_insert in Hlen', Hall.
    exists st'. split; [exact Hpad|]. split; [exact Hlen'|]. split; [exact Hcnt'|].
    intros k Hk. rewrite (Hall k Hk).
    destruct (Z.eq_dec k i) as [->|Hne].
    + destruct (Z.leb_spec (i + 1) i); [lia|]. cbn [andb].
      destruct (Z.leb_spec i i); [|lia].
      destruct (Z.ltb_spec i 512); [|lia].
      destruct (Z.ltb_spec i (Z.of_nat (length (table st)))); [|lia].
      cbn [andb]. apply list_lookup_insert_eq. lia.
    + rewrite list_lookup_insert_ne by lia.
      destruct (Z.leb_spec (i + 1) k), (Z.leb_spec i k); try lia; reflexivity.
  - exists st. repeat split. intros k Hk.
    destruct (Z.leb_spec i k), (Z.ltb_spec k 512),
      (Z.ltb_spec k (Z.of_nat (length (table st)))); cbn [andb]; try reflexivity.
    apply andb_false_iff in Hcond as [Hc|Hc]; apply Z.ltb_ge in Hc; lia.
Qed.

Lemma GetCount_GetIndex_exact :
  exists st, GetCount_GetIndex wave table0 0 step = Done st /\
    1 <= dds_count st <= 512 /\
    length (table st) = length table0 /\
    (forall k, 0 <= k < 512 -> k < Z.of_nat (length table0) ->
               table st !! Z.to_nat k = wave !! Z.to_nat (sample_index step k)) /\
    (forall k, 512 <= k -> table st !! Z.to_nat k = table0 !! Z.to_nat k).
Proof.
  unfold GetCount_GetIndex. cbv zeta.
  assert (Hinit : exists tbl wr rd,
    (if Z.of_nat (length table0) >? 0
     then if Z.of_nat (length wave) >? 0
          then let* v := at_index wave 0 in
               let* tbl := store table0 0 v in Done (tbl, [(0, v)], [0])
          else let* tbl := store table0 0 0 in Done (tbl, [(0, 0)], [])
     else Done (table0, [], [])) = Done (tbl, wr, rd) /\
    tracks
      {| table := tbl; phase_accumulator := 0; dds_index := 0;
         dds_count := 1; unique_indices := 1; last_index := 0;
         seen := <[0%nat := true]> (replicate 256 false);
         writes := wr; reads := rd |}).
  { assert (Hs0 : sample_index step 0 = 0) by reflexivity.
    destruct (Z.gtb_spec (Z.of_nat (length table0)) 0) as [Hne|Hempty].
    - destruct (Z.gtb_spec (Z.of_nat (length wave)) 0); [|lia].
      destruct (at_index_Done wave 0) as (v & Hv & Hlk); [lia|].
      rewrite Hv. cbn [bind]. rewrite store_Done by lia. cbn [bind].
      assert (Hin : In v wave).
      { apply list_elem_of_In. eapply list_elem_of_lookup_2. exact Hlk. }
      do 3 eexists. split; [reflexivity|].
      constructor; cbn [table phase_accumulator dds_index dds_count
                        unique_indices last_index seen writes reads].
      + constructor; cbn [table phase_accumulator dds_index dds_count
                        unique_indices last_index seen writes reads]; try lia.
        * constructor; cbn [table phase_accumulator dds_index dds_count
                        unique_indices last_index seen writes reads]; try lia.
          -- apply length_insert.
          -- constructor; [|constructor]. unfold write_ok. cbn.
             repeat split; try lia. exact Hin.
          -- constructor; [|constructor]. unfold read_ok. lia.
          -- intros i Hi Hit. replace i with 0 by lia. exists v.
             split; [|exact Hin]. apply list_lookup_insert_eq. lia.
        * reflexivity.
      + reflexivity.
      + reflexivity.
      + lia.
      + intros k Hk Hkt. replace k with 0 by lia. rewrite Hs0.
        rewrite list_lookup_insert_eq by lia. symmetry. exact Hlk.
      + intros k Hk. rewrite list_lookup_insert_ne by lia. reflexivity.
    - do 3 eexists. split; [reflexivity|].
      constructor; cbn [table phase_accumulator dds_index dds_count
                        unique_indices last_index seen writes reads].
      + constructor; cbn [table phase_accumulator dds_index dds_count
                        unique_indices last_index seen writes reads]; try lia.
        * constructor; cbn [table phase_accumulator dds_index dds_count
                        unique_indices last_index seen writes reads]; try lia;
            constructor.
        * reflexivity.
      + reflexivity.
      + reflexivity.
      + lia.
      + intros k Hk Hkt. lia.
      + intros k Hk. reflexivity. }
  destruct Hinit as (tbl & wr & rd & -> & Htr0). cbn [bind].
  rewrite store_Done by (rewrite length_replicate; lia). cbn [bind].
  change (Z.to_nat 0) with 0%nat.
  match goal with
  | |- context [fill_loop 512 wave step ?s] =>
      destruct (fill_loop_tracks 512%nat s) as (st1 & Hloop & Htr1 & Hexit)
  end.
  { exact Htr0. }
  { cbn. lia. }
  rewrite Hloop. cbn [bind].
  destruct Htr1 as [[[Hlen1 _ _ _ _ _] Hcnt1 _ _] Hlast1 _ Huniq1 Htab1 Hrest1].
  pose proof (sample_index_range step (dds_count st1 - 1) ltac:(lia) ltac:(lia))
    as Hrange.
  rewrite <- Hlast1 in Hrange.
  destruct (at_index_Done wave (last_index st1)) as (v & _ & Hlk); [lia|].
  destruct (pad_loop_exact 512%nat (dds_count st1) st1 v Hlk)
    as (st2 & Hpad & Hlen2 & Hcnt2 & Hall); [lia|lia|lia|].
  exists st2. split; [exact Hpad|]. rewrite Hcnt2, Hlen2, Hlen1.
  split; [exact Hcnt1|]. split; [reflexivity|]. split.
  - intros k Hk Hkt. rewrite (Hall k) by lia. rewrite Hlen1.
    destruct (Z.leb_spec (dds_count st1) k) as [Hpadded|Hfilled].
    + destruct (Z.ltb_spec k 512); [|lia].
      destruct (Z.ltb_spec k (Z.of_nat (length table0))); [|lia].
      cbn [andb]. rewrite <- Hlk. f_equal. f_equal.
      unfold loop_condition in Hexit. rewrite Hlen1 in Hexit.
      assert (Hfull : 256 <= unique_indices st1).
      { apply andb_false_iff in Hexit as [Hexit|Hc]; [|apply Z.ltb_ge in Hc; lia].
        apply andb_false_iff in Hexit as [Hc|Hc]; apply Z.ltb_ge in Hc; lia. }
      pose proof (sample_index_mono step (dds_count st1 - 1) k
                    ltac:(lia) ltac:(lia)) as Hmono.
      pose proof (sample_index_range step k ltac:(lia) ltac:(lia)).
      lia.
    + cbn [andb]. apply Htab1; lia.
  - intros k Hk. rewrite (Hall k) by lia.
    destruct (Z.ltb_spec k 512); [lia|].
    rewrite andb_false_r. cbn [andb]. apply Hrest1. lia.
Qed.

End Track.

(** X8. With the accumulator started at zero, a master of at least 256
    entries and a phase step from 1 up to [INT_MAX / 511], the fill
    returns and leaves a table of the same length in which entry [k],
    for every [k] below 512 inside the table, is the master's entry at
    [min(255, k * step / 256)]: the loop's samples and the padding agree on
    this one formula; entries from 512 on are the ones the table had. *)
Theorem GetCount_GetIndex_resamples (wave table0 : list Z) (step : Z) :
  (256 <= length wave)%nat -> 1 <= step -> 511 * step <= INT_MAX ->
  exists st, GetCount_GetIndex wave table0 0 step = Done st /\
    length (table st) = length table0 /\
    (forall k, 0 <= k < 512 -> k < Z.of_nat (length table0) ->
       table st !! Z.to_nat k = wave !! Z.to_nat (Z.min 255 (k * step / 256))) /\
    (forall k, 512 <= k -> table st !! Z.to_nat k = table0 !! Z.to_nat k).
Proof.
  intros Hwave Hstep Hfit.
  destruct (GetCount_GetIndex_exact wave table0 step ltac:(lia) Hstep ltac:(lia))
    as (st & Hrun & _ & Hlen & Htab & Hrest).
  exists st. repeat split; assumption.
Qed.

Lemma GetCount_GetIndex_resamples_witness :
  exists st, GetCount_GetIndex sinTable (replicate 512 0) 0 512 = Done st /\
    length (table st) = length (replicate 512 0) /\
    (forall k, 0 <= k < 512 -> k < Z.of_nat (length (replicate 512 0)) ->
       table st !! Z.to_nat k = sinTable !! Z.to_nat (Z.min 255 (k * 512 / 256))) /\
    (forall k, 512 <= k -> table st !! Z.to_nat k = replicate 512 0 !! Z.to_nat k).
Proof.
  apply (GetCount_GetIndex_resamples sinTable (replicate 512 0) 512).
  - vm_compute. lia.
  - lia.
  - unfold INT_MAX. lia.
Defined.

End TableFacts.

(** ** The DDS plan over the whole frequency range *)

Module SynthesisFacts.
Import CInt CIntFacts DDS FillFacts TableFacts.

Lemma every_spec (n : nat) :
  forall lo p z, every n lo p = true -> lo <= z < lo + Z.of_nat n -> p z = true.
Proof.
  induction n as [|n IH]; intros lo p z Hall Hz; [lia|].
  cbn [every] in Hall. apply andb_true_iff in Hall as [Hlo Hrest].
  destruct (Z.eq_dec z lo) as [->|Hne]; [exact Hlo|].
  apply (IH (lo + 1)); [exact Hrest|lia].
Qed.

Lemma resized_master (wave0 : list Z) :
  (length wave0 <= 256)%nat -> length (resize_at_least 256 0 wave0) = 256%nat.
Proof.
  intros Hlen. unfold resize_at_least.
  destruct (Nat.ltb_spec (length wave0) 256).
  - rewrite length_app, length_replicate. lia.
  - lia.
Qed.

Lemma cleared_table (table0 : list Z) :
  length (replicate (length (resize_at_least 512 0 table0)) 0)
  = Nat.max 512 (length table0).
Proof.
  rewrite length_replicate. unfold resize_at_least.
  destruct (Nat.ltb_spec (length table0) 512).
  - rewrite length_app, length_replicate. lia.
  - lia.
Qed.

Lemma set_payload_bytes (b0 b1 b2 v : Z) :
  0 <= v <= 65535 -> set_payload [b0; b1; b2] v = Done [b0; v / 256; v mod 256].
Proof.
  intros Hv. unfold set_payload, store. cbn. unfold to_char.
  rewrite Z.quot_div_nonneg, Z.rem_mod_nonneg by lia.
  assert (0 <= v / 256 < 256).
  { split; [apply Z.div_pos; lia|apply Z.div_lt_upper_bound; lia]. }
  pose proof (Z.mod_pos_bound v 256 ltac:(lia)).
  rewrite (Z.mod_small (v / 256)), (Z.mod_small (v mod 256)) by lia.
  reflexivity.
Qed.

(** *** The cycle-stretch branch *)

(** [round(i * 255 / 511.0)] for each of the 512 samples. *)
Lemma stretch_indices :
  every 512 0 (fun i =>
    match Dbl.round_to_int
            (Dbl.of_int (wrap32 (i * (256 - 1))) / Dbl.of_int (512 - 1))%float with
    | Done r => r =? (510 * i + 511) / 1022
    | Fault _ => false
    end) = true.
Proof. vm_compute. reflexivity. Qed.

Lemma stretch_index (i : Z) :
  0 <= i < 512 ->
  Dbl.round_to_int
    (Dbl.of_int (wrap32 (i * (256 - 1))) / Dbl.of_int (512 - 1))%float
  = Done ((510 * i + 511) / 1022).
Proof.
  intros Hi. pose proof (every_spec _ _ _ i stretch_indices ltac:(lia)) as Hc.
  cbv beta in Hc.
  destruct (Dbl.round_to_int _) as [r|]; [|discriminate].
  apply Z.eqb_eq in Hc. congruence.
Qed.

Lemma stretch_loop_exact (wave : list Z) :
  length wave = 256%nat ->
  forall n i tbl,
    0 <= i -> i + Z.of_nat n <= 512 -> i + Z.of_nat n <= Z.of_nat (length tbl) ->
    exists tbl', stretch_loop n wave i tbl = Done tbl' /\
      length tbl' = length tbl /\
      forall k, 0 <= k ->
        tbl' !! Z.to_nat k
        = if (i <=? k) && (k <? i + Z.of_nat n)
          then wave !! Z.to_nat ((510 * k + 511) / 1022)
          else tbl !! Z.to_nat k.
Proof.
  intros Hwave. induction n as [|n IH]; intros i tbl Hi Hn Hlen.
  - exists tbl. repeat split. intros k Hk.
    destruct (Z.leb_spec i k), (Z.ltb_spec k (i + Z.of_nat 0)); cbn [andb];
      try reflexivity. lia.
  - cbn [stretch_loop]. cbv zeta. rewrite Hwave.
    change (Z.of_nat 256) with 256. rewrite stretch_index by lia. cbn [bind].
    assert (Hidx : 0 <= (510 * i + 511) / 1022 <= 255).
    { split; [apply Z.div_pos; lia|].
      enough ((510 * i + 511) / 1022 < 256) by lia.
      apply Z.div_lt_upper_bound; lia. }
    destruct (at_index_Done wave ((510 * i + 511) / 1022)) as (v & Hv & Hlk);
      [lia|].
    rewrite Hv. cbn [bind]. rewrite store_Done by lia. cbn [bind].
    destruct (IH (i + 1) (<[Z.to_nat i := v]> tbl)) as (tbl' & Hrun & Hlen' & Hall);
      [lia|lia|rewrite length_insert; lia|].
    rewrite length_insert in Hlen'.
    exists tbl'. split; [exact Hrun|]. split; [exact Hlen'|].
    intros k Hk. rewrite (Hall k Hk).
    destruct (Z.eq_dec k i) as [->|Hne].
    + destruct (Z.leb_spec (i + 1) i); [lia|]. cbn [andb].
      destruct (Z.leb_spec i i); [|lia].
      destruct (Z.ltb_spec i (i + Z.of_nat (S n))); [|lia]. cbn [andb].
      rewrite list_lookup_insert_eq by lia. symmetry. exact Hlk.
    + rewrite list_lookup_insert_ne by lia.
      destruct (Z.leb_spec (i + 1) k), (Z.leb_spec i k),
        (Z.ltb_spec k (i + 1 + Z.of_nat n)), (Z.ltb_spec k (i + Z.of_nat (S n)));
        cbn [andb]; try reflexivity; lia.
Qed.

Lemma setFrequency_stretch (f : Z) (wave0 table0 : list Z)
    (p0 p1 p2 n0 n1 n2 : Z) :
  1 <= f < 1000 -> (length wave0 <= 256)%nat ->
  exists tbl,
    setFrequency f wave0 table0 [p0; p1; p2] [n0; n1; n2]
    = Done {| useCycleStretch := true; Ph_step_Powof2 := 0; DDS_Table := tbl;
              timer_period := 62500 / f; no_of_samples := 512;
              dds_array_length := 511;
              SetPeriodCmd := [p0; 62500 / f / 256; 62500 / f mod 256];
              SamplesCmd := [n0; 2; 0] |} /\
    length tbl = Nat.max 512 (length table0) /\
    (forall k, 0 <= k < 512 ->
       tbl !! Z.to_nat k
       = resize_at_least 256 0 wave0 !! Z.to_nat ((510 * k + 511) / 1022)) /\
    (forall k, 512 <= k < Z.of_nat (length tbl) -> tbl !! Z.to_nat k = Some 0).
Proof.
  intros Hf Hwave.
  pose proof (resized_master wave0 Hwave) as Hmaster.
  pose proof (cleared_table table0) as Hcleared.
  destruct (stretch_loop_exact _ Hmaster 512%nat 0
              (replicate (length (resize_at_least 512 0 table0)) 0))
    as (tbl & Hrun & Hlen & Hall); [lia|lia|rewrite Hcleared; lia|].
  exists tbl. split; [|split; [congruence|split]].
  - unfold setFrequency. cbv zeta.
    change (div (32 * 1000000) 32) with (Done 1000000). cbn [bind].
    destruct (Z.ltb_spec f 1000); [|lia].
    rewrite Hrun. cbn [bind].
    assert (Hdiv : div (32 * 1000000) (wrap32 (f * 512)) = Done (62500 / f)).
    { rewrite wrap32_id by (unfold in_int, INT_MIN, INT_MAX; lia).
      unfold div. destruct (Z.eqb_spec (f * 512) 0); [lia|].
      rewrite Z.quot_div_nonneg by lia.
      change (32 * 1000000) with (62500 * 512).
      rewrite Z.div_mul_cancel_r by lia.
      rewrite wrap32_id; [reflexivity|].
      assert (0 <= 62500 / f) by (apply Z.div_pos; lia).
      assert (62500 / f <= 62500) by (apply Z.div_le_upper_bound; nia).
      unfold in_int, INT_MIN, INT_MAX. lia. }
    rewrite Hdiv. cbn [bind].
    assert (62500 / f <= 62500) by (apply Z.div_le_upper_bound; nia).
    assert (0 <= 62500 / f) by (apply Z.div_pos; lia).
    destruct (Z.gtb_spec (62500 / f) 65535); [lia|].
    rewrite set_payload_bytes by lia. cbn [bind].
    reflexivity.
  - intros k Hk. rewrite (Hall k) by lia.
    destruct (Z.leb_spec 0 k); [|lia].
    destruct (Z.ltb_spec k (0 + Z.of_nat 512)); [|lia]. reflexivity.
  - intros k Hk. rewrite (Hall k) by lia.
    destruct (Z.ltb_spec k (0 + Z.of_nat 512)); [lia|].
    rewrite andb_false_r. apply lookup_replicate_2. rewrite Hlen in Hk.
    rewrite length_replicate in Hk. lia.
Qed.

(** *** The standard branch *)

(** The timing arithmetic on doubles, at every frequency of the branch:
    the phase step is a power of two from 128 to 4096, one period takes
    [65536 / step] samples, the corrected divider fits 16 bits, and the
    frequency they realise is within 2 percent of the request. *)
Lemma standard_timing :
  every (Z.to_nat 49001) 1000 (fun f =>
    match get_phase_step f 1000000 with
    | Done Ph =>
        (128 <=? Ph) && (Ph <=? 4096) && (Ph =? 2 ^ Z.log2 Ph) &&
        match Dbl.to_int (Dbl.of_int 1000000
                          / (Dbl.of_int Ph * (Dbl.of_int 1000000 * 1.0 / 65536)))%float
        with
        | Done n =>
        match Dbl.round_to_int
                (Dbl.of_int 32
                 * (Dbl.of_int Ph * (Dbl.of_int 1000000 * 1.0 / 65536) * 1.0
                    / Dbl.of_int f))%float
        with
        | Done d =>
        match Dbl.to_int (Dbl.of_int Ph * (Dbl.of_int 1000000 * 1.0 / 65536) * 65536
                          / Dbl.of_int 1000000)%float
        with
        | Done _ =>
            (n * Ph =? 65536) && (1 <=? d) && (d <=? 65535) &&
            (100 * Z.abs (32000000 - f * (d * n)) <=? 2 * (f * (d * n)))
        | Fault _ => false
        end
        | Fault _ => false
        end
        | Fault _ => false
        end
    | Fault _ => false
    end) = true.
Proof. vm_compute. reflexivity. Qed.

Lemma setFrequency_standard (f : Z) (wave0 table0 : list Z)
    (p0 p1 p2 n0 n1 n2 : Z) :
  1000 <= f <= 50000 -> (length wave0 <= 256)%nat ->
  exists Ph n d st tbl,
    setFrequency f wave0 table0 [p0; p1; p2] [n0; n1; n2]
    = Done {| useCycleStretch := false; Ph_step_Powof2 := Ph; DDS_Table := tbl;
              timer_period := d; no_of_samples := n;
              dds_array_length := dds_count st - 1;
              SetPeriodCmd := [p0; d / 256; d mod 256];
              SamplesCmd := [n0; n / 256; n mod 256] |} /\
    128 <= Ph <= 4096 /\ Ph = 2 ^ Z.log2 Ph /\ n * Ph = 65536 /\
    16 <= n <= 512 /\ 1 <= d <= 65535 /\
    100 * Z.abs (32000000 - f * (d * n)) <= 2 * (f * (d * n)) /\
    1 <= dds_count st <= 512 /\
    length tbl = Nat.max 512 (length table0) /\
    (forall k, 0 <= k < 512 -> k <> dds_count st - 1 ->
       tbl !! Z.to_nat k
       = resize_at_least 256 0 wave0 !! Z.to_nat (sample_index Ph k)) /\
    (forall v, tbl !! Z.to_nat (dds_count st - 1) = Some v ->
       (v = 0 ->
        resize_at_least 256 0 wave0 !! Z.to_nat (sample_index Ph (dds_count st - 1))
        = Some 0) /\
       (v <> 0 ->
        In (resize_at_least 256 0 wave0 !! Z.to_nat (sample_index Ph (dds_count st - 1)))
           [Some v; Some 0])).
Proof.
  intros Hf Hwave.
  pose proof (resized_master wave0 Hwave) as Hmaster.
  pose proof (cleared_table table0) as Hcleared.
  pose proof (every_spec _ _ _ f standard_timing ltac:(lia)) as Hc.
  cbv beta in Hc.
  destruct (get_phase_step f 1000000) as [Ph|] eqn:HPh; [|discriminate].
  apply andb_true_iff in Hc as [Hc Hrest].
  apply andb_true_iff in Hc as [Hc HP2].
  apply andb_true_iff in Hc as [HPlo HPhi].
  apply Z.leb_le in HPlo, HPhi. apply Z.eqb_eq in HP2.
  destruct (Dbl.to_int _) as [n|] eqn:Hn in Hrest; [|discriminate].
  destruct (Dbl.round_to_int _) as [d|] eqn:Hd in Hrest; [|discriminate].
  destruct (Dbl.to_int _) as [pf|] eqn:Hpf in Hrest; [|discriminate].
  apply andb_true_iff in Hrest as [Hrest Hacc].
  apply andb_true_iff in Hrest as [Hrest Hdhi].
  apply andb_true_iff in Hrest as [HnP Hdlo].
  apply Z.eqb_eq in HnP. apply Z.leb_le in Hdlo, Hdhi, Hacc.
  destruct (GetCount_GetIndex_exact (resize_at_least 256 0 wave0)
              (replicate (length (resize_at_least 512 0 table0)) 0) Ph)
    as (st & Hrun & Hcnt & Hlen & Htab & _);
    [lia|lia|unfold INT_MAX; lia|].
  rewrite Hcleared in Hlen, Htab.
  assert (Hn512 : 16 <= n <= 512).
  { split.
    - destruct (Z.le_gt_cases 16 n) as [|Hsmall]; [assumption|].
      assert (n * Ph <= 15 * Ph) by (apply Z.mul_le_mono_nonneg_r; lia). lia.
    - destruct (Z.le_gt_cases n 512) as [|Hbig]; [assumption|].
      assert (513 * 128 <= n * Ph) by (apply Z.mul_le_mono_nonneg; lia). lia. }
  destruct (at_index_Done (table st) (dds_count st - 1)) as (last & Hlast & Hlk);
    [lia|].
  assert (Hpatch : exists tbl,
    (if (last =? 0) && (dds_count st - 1 >? 0)
     then let* prev := at_index (table st) (dds_count st - 1 - 1) in
          store (table st) (dds_count st - 1) prev
     else Done (table st)) = Done tbl /\
    length tbl = length (table st) /\
    (forall k, 0 <= k -> k <> dds_count st - 1 ->
       tbl !! Z.to_nat k = table st !! Z.to_nat k) /\
    (forall v, tbl !! Z.to_nat (dds_count st - 1) = Some v ->
       (v = 0 -> last = 0) /\ (v <> 0 -> last = v \/ last = 0))).
  { destruct (Z.eqb_spec last 0) as [Hzero|Hnz];
      [destruct (Z.gtb_spec (dds_count st - 1) 0) as [Hpos|Hfirst]|]; cbn [andb].
    - destruct (at_index_Done (table st) (dds_count st - 1 - 1))
        as (prev & Hprev & Hlkp); [lia|].
      rewrite Hprev. cbn [bind]. rewrite store_Done by lia.
      eexists. split; [reflexivity|]. split; [apply length_insert|]. split.
      + intros k Hk Hne. apply list_lookup_insert_ne. lia.
      + intros v Hv. split; intros _; auto.
    - exists (table st). split; [reflexivity|]. split; [reflexivity|].
      split; [reflexivity|]. intros v Hv. split; intros _; auto.
    - exists (table st). split; [reflexivity|]. split; [reflexivity|].
      split; [reflexivity|]. intros v Hv.
      assert (last = v) by congruence. split; intros; [lia|auto]. }
  destruct Hpatch as (tbl & Htbl & Hlen' & Hsame & Hpatched).
  exists Ph, n, d, st, tbl.
  split; [|do 8 (split; [first [assumption|lia]|]); split].
  - unfold setFrequency. cbv zeta.
    change (div (32 * 1000000) 32) with (Done 1000000). cbn [bind].
    destruct (Z.ltb_spec f 1000); [lia|].
    rewrite HPh. cbn [bind]. rewrite Hrun. cbn [bind].
    rewrite Hn. cbn [bind]. rewrite Hd. cbn [bind].
    assert (Hfits : (d >? 65535) = false) by (destruct (Z.gtb_spec d 65535); [lia|reflexivity]).
    rewrite Hfits.
    assert (Hclock : exists c, div (32 * 1000000) d = Done c).
    { unfold div. destruct (Z.eqb_spec d 0); [lia|]. eexists. reflexivity. }
    destruct Hclock as (c & ->). cbn [bind].
    rewrite Hpf. cbn [bind]. rewrite Hlast. cbn [bind].
    rewrite Htbl. cbn [bind]. rewrite Hfits.
    destruct (Z.gtb_spec n 512); [lia|].
    rewrite !set_payload_bytes by lia. cbn [bind]. reflexivity.
  - intros k Hk Hne. rewrite Hsame by lia. apply Htab; lia.
  - intros v Hv. rewrite <- Htab by lia. rewrite Hlk.
    destruct (Hpatched v Hv) as [Hz Hnz]. split.
    + intros Hv0. f_equal. auto.
    + intros Hv0. destruct (Hnz Hv0) as [->| ->]; cbn; auto.
Qed.

Lemma setFrequency_plan (f : Z) (wave0 table0 : list Z)
    (p0 p1 p2 n0 n1 n2 : Z) :
  1 <= f <= 50000 -> (length wave0 <= 256)%nat ->
  exists p, setFrequency f wave0 table0 [p0; p1; p2] [n0; n1; n2] = Done p /\
    useCycleStretch p = (f <? 1000) /\
    1 <= timer_period p <= 65535 /\
    16 <= no_of_samples p <= 512 /\
    SetPeriodCmd p = [p0; timer_period p / 256; timer_period p mod 256] /\
    SamplesCmd p = [n0; no_of_samples p / 256; no_of_samples p mod 256] /\
    length (DDS_Table p) = Nat.max 512 (length table0) /\
    within_2_percent f p.
Proof.
  intros Hf Hwave. destruct (Z.ltb_spec f 1000) as [Hlow|Hhigh].
  - destruct (setFrequency_stretch f wave0 table0 p0 p1 p2 n0 n1 n2 ltac:(lia) Hwave)
      as (tbl & Hrun & Hlen & _ & _).
    eexists. split; [exact Hrun|].
    assert (Hlo : 62 <= 62500 / f) by (apply Z.div_le_lower_bound; lia).
    assert (Hhi : 62500 / f <= 62500) by (apply Z.div_le_upper_bound; nia).
    cbn [useCycleStretch timer_period no_of_samples SetPeriodCmd SamplesCmd
         DDS_Table].
    repeat split; try lia; try exact Hlen.
    unfold within_2_percent. cbn [timer_period no_of_samples].
    pose proof (Z.div_mod 62500 f ltac:(lia)) as Hdm.
    pose proof (Z.mod_pos_bound 62500 f ltac:(lia)) as Hmod.
    nia.
  - destruct (setFrequency_standard f wave0 table0 p0 p1 p2 n0 n1 n2 ltac:(lia) Hwave)
      as (Ph & n & d & st & tbl & Hrun & HPh & _ & HnP & Hn & Hd & Hacc & _ & Hlen & _).
    eexists. split; [exact Hrun|].
    cbn [useCycleStretch timer_period no_of_samples SetPeriodCmd SamplesCmd
         DDS_Table].
    repeat split; try lia; try exact Hlen.
    exact Hacc.
Qed.

(** X9. At every frequency the spin box allows (1 to 50000 Hz) and for a
    master of at most 256 entries the planner returns a plan: cycle-stretch
    exactly below 1000 Hz, a timer period in [1, 65535] and a sample count
    in [16, 512], a table of at least 512 entries, and a realised frequency
    [32e6 / (timer_period * no_of_samples)] within 2 percent of the
    request.  In each of the two three-byte command members it writes the
    high and the low byte of its number into bytes 1 and 2 and leaves
    byte 0 as it found it. *)
Theorem setFrequency_in_range (f : Z) (wave0 table0 : list Z)
    (p0 p1 p2 n0 n1 n2 : Z) :
  1 <= f <= 50000 -> (length wave0 <= 256)%nat ->
  exists p, setFrequency f wave0 table0 [p0; p1; p2] [n0; n1; n2] = Done p /\
    useCycleStretch p = (f <? 1000) /\
    1 <= timer_period p <= 65535 /\
    16 <= no_of_samples p <= 512 /\
    SetPeriodCmd p = [p0; timer_period p / 256; timer_period p mod 256] /\
    SamplesCmd p = [n0; no_of_samples p / 256; no_of_samples p mod 256] /\
    length (DDS_Table p) = Nat.max 512 (length table0) /\
    within_2_percent f p.
Proof. exact (setFrequency_plan f wave0 table0 p0 p1 p2 n0 n1 n2). Qed.

Lemma setFrequency_in_range_witness :
  exists p, setFrequency 440 sinTable initial_table [0; 0; 0] [0; 0; 0] = Done p /\
    useCycleStretch p = (440 <? 1000) /\
    1 <= timer_period p <= 65535 /\
    16 <= no_of_samples p <= 512 /\
    SetPeriodCmd p = [0; timer_period p / 256; timer_period p mod 256] /\
    SamplesCmd p = [0; no_of_samples p / 256; no_of_samples p mod 256] /\
    length (DDS_Table p) = Nat.max 512 (length initial_table) /\
    within_2_percent 440 p.
Proof.
  apply (setFrequency_in_range 440 sinTable initial_table 0 0 0 0 0 0).
  - lia.
  - vm_compute. lia.
Defined.

(** X10. Below 1000 Hz the table does not depend on the frequency: sample
    [k] of the 512 is the master's entry nearest to [k * 255 / 511], so the
    first sample is the master's first entry, the last its entry 255, and
    the whole master is stretched over one period; only the timer period
    [62500 / f] carries the frequency. *)
Theorem setFrequency_stretches_master (f : Z) (wave0 table0 : list Z)
    (p0 p1 p2 n0 n1 n2 : Z) :
  1 <= f < 1000 -> (length wave0 <= 256)%nat ->
  exists p, setFrequency f wave0 table0 [p0; p1; p2] [n0; n1; n2] = Done p /\
    timer_period p = 62500 / f /\ no_of_samples p = 512 /\
    (forall k, 0 <= k < 512 ->
       DDS_Table p !! Z.to_nat k
       = resize_at_least 256 0 wave0 !! Z.to_nat ((510 * k + 511) / 1022)) /\
    DDS_Table p !! 0%nat = resize_at_least 256 0 wave0 !! 0%nat /\
    DDS_Table p !! 511%nat = resize_at_least 256 0 wave0 !! 255%nat /\
    (forall k, 512 <= k < Z.of_nat (length (DDS_Table p)) ->
       DDS_Table p !! Z.to_nat k = Some 0).
Proof.
  intros Hf Hwave.
  destruct (setFrequency_stretch f wave0 table0 p0 p1 p2 n0 n1 n2 Hf Hwave)
    as (tbl & Hrun & _ & Hall & Hrest).
  eexists. split; [exact Hrun|]. cbn [timer_period no_of_samples DDS_Table].
  repeat split; try assumption.
  - apply (Hall 0). lia.
  - apply (Hall 511). lia.
Qed.

Lemma setFrequency_stretches_master_witness :
  exists p, setFrequency 50 sinTable initial_table [0; 0; 0] [0; 0; 0] = Done p /\
    timer_period p = 62500 / 50 /\ no_of_samples p = 512 /\
    (forall k, 0 <= k < 512 ->
       DDS_Table p !! Z.to_nat k
       = resize_at_least 256 0 sinTable !! Z.to_nat ((510 * k + 511) / 1022)) /\
    DDS_Table p !! 0%nat = resize_at_least 256 0 sinTable !! 0%nat /\
    DDS_Table p !! 511%nat = resize_at_least 256 0 sinTable !! 255%nat /\
    (forall k, 512 <= k < Z.of_nat (length (DDS_Table p)) ->
       DDS_Table p !! Z.to_nat k = Some 0).
Proof.
  apply (setFrequency_stretches_master 50 sinTable initial_table 0 0 0 0 0 0).
  - lia.
  - vm_compute. lia.
Defined.

(** X11. From 1000 Hz up the phase step is a power of two from 128 to
    4096 and one period is [65536 / step] samples: sample [k] of the period
    is the master's entry [k * step / 256], one pass over the master at a
    stride of [step / 256] entries.  The one exception is the entry at
    [dds_array_length], which the planner overwrites with its predecessor
    when it holds zero. *)
Theorem setFrequency_strides_master (f : Z) (wave0 table0 : list Z)
    (p0 p1 p2 n0 n1 n2 : Z) :
  1000 <= f <= 50000 -> (length wave0 <= 256)%nat ->
  exists p, setFrequency f wave0 table0 [p0; p1; p2] [n0; n1; n2] = Done p /\
    128 <= Ph_step_Powof2 p <= 4096 /\
    Ph_step_Powof2 p = 2 ^ Z.log2 (Ph_step_Powof2 p) /\
    no_of_samples p * Ph_step_Powof2 p = 65536 /\
    0 <= dds_array_length p <= 511 /\
    forall k, 0 <= k < no_of_samples p -> k <> dds_array_length p ->
      0 <= k * Ph_step_Powof2 p / 256 <= 255 /\
      DDS_Table p !! Z.to_nat k
      = resize_at_least 256 0 wave0 !! Z.to_nat (k * Ph_step_Powof2 p / 256).
Proof.
  intros Hf Hwave.
  destruct (setFrequency_standard f wave0 table0 p0 p1 p2 n0 n1 n2 Hf Hwave)
    as (Ph & n & d & st & tbl & Hrun & HPh & HP2 & HnP & Hn & _ & _ & Hcnt & _ & Htab & _).
  eexists. split; [exact Hrun|].
  cbn [Ph_step_Powof2 no_of_samples dds_array_length DDS_Table].
  repeat split; try lia; try assumption.
  - apply Z.div_pos; nia.
  - enough (k * Ph / 256 < 256) by lia.
    apply Z.div_lt_upper_bound; nia.
  - rewrite Htab by nia. unfold sample_index. f_equal. f_equal.
    apply Z.min_r.
    enough (k * Ph / 256 < 256) by lia.
    apply Z.div_lt_upper_bound; nia.
Qed.

Lemma setFrequency_strides_master_witness :
  exists p, setFrequency 5000 sinTable initial_table [0; 0; 0] [0; 0; 0] = Done p /\
    128 <= Ph_step_Powof2 p <= 4096 /\
    Ph_step_Powof2 p = 2 ^ Z.log2 (Ph_step_Powof2 p) /\
    no_of_samples p * Ph_step_Powof2 p = 65536 /\
    0 <= dds_array_length p <= 511 /\
    forall k, 0 <= k < no_of_samples p -> k <> dds_array_length p ->
      0 <= k * Ph_step_Powof2 p / 256 <= 255 /\
      DDS_Table p !! Z.to_nat k
      = resize_at_least 256 0 sinTable !! Z.to_nat (k * Ph_step_Powof2 p / 256).
Proof.
  apply (setFrequency_strides_master 5000 sinTable initial_table 0 0 0 0 0 0).
  - lia.
  - vm_compute. lia.
Defined.

End SynthesisFacts.

(** ** What holds after every history of events *)

Module HistoryFacts.
Import CInt CIntFacts SerialHandler SerialFacts.

Lemma run_invariant (P : handler -> Prop) :
  (forall e h, P h -> P (step e h)) ->
  forall history h, P h -> P (run history h).
Proof.
  intros Hstep history. unfold run.
  induction history as [|e history IH]; intros h Hh; cbn [fold_left].
  - exact Hh.
  - apply IH. apply Hstep. exact Hh.
Qed.

Lemma handleSetupStep_guarded (h : handler) :
  guarded h -> guarded (handleSetupStep h).
Proof.
  destruct h as [[s md dl du c1 c2 bn] p st fl [tt sst inc wr em t]].
  unfold guarded, handleSetupStep, waiting.
  cbn [acq env setupStep proto acquisitionInProgress acqState timeoutTimer].
  intros Hg. destruct ((0 <=? st) && (st <=? 6)).
  - cbn [acq env acqState]. unfold setupTimer_start. cbn [timeoutTimer].
    destruct (setup_frame _ st); exact Hg.
  - destruct (st =? 7); [reflexivity|exact Hg].
Qed.

Lemma receive_guarded (bytes : list Z) (h : handler) :
  guarded h -> guarded (receive bytes h).
Proof.
  destruct h as [[s md dl du c1 c2 bn] p st fl [tt sst inc wr em t]].
  unfold guarded, waiting, receive, handleReadyRead.
  cbn [acq env acqState bytesNeeded incoming timeoutTimer setupTimer written
       emitted now proto setupStep acquisitionInProgress acqDualChannel
       acqMode ch1Raw ch2Raw acqDataLength].
  intros Hg. unfold bytesAvailable. cbn [incoming].
  destruct (Z.of_nat (length (inc ++ bytes)) >? 0); [|exact Hg].
  destruct s.
  - exact Hg.
  - destruct (Z.of_nat (length (inc ++ bytes)) <? bn); [exact Hg|].
    destruct ((bn <=? 0) || false); [exact Hg|].
    unfold data_request, read.
    cbn [acqDualChannel acqMode bytesNeeded acqState].
    destruct du; [|destruct (md =? 2); [|destruct (md =? 3)]]; reflexivity.
  - destruct (Z.of_nat (length (inc ++ bytes)) <? bn); [exact Hg|].
    destruct ((bn <=? 0) || false); [exact Hg|].
    unfold read. cbn [incoming timeoutTimer setupTimer written emitted now].
    destruct du; [reflexivity|]. destruct (md =? 2); [reflexivity|exact Hg].
  - destruct (Z.of_nat (length (inc ++ bytes)) <? bn); [exact Hg|].
    destruct ((bn <=? 0) || false); [exact Hg|].
    unfold read. cbn [incoming timeoutTimer setupTimer written emitted now].
    destruct du; [reflexivity|]. destruct (md =? 3); reflexivity.
  - exact Hg.
Qed.

Lemma step_guarded (e : event) (h : handler) : guarded h -> guarded (step e h).
Proof.
  intros Hg. destruct e as [mode len dual|p'| | |bytes]; cbn [step].
  - destruct (acquisitionInProgress h) eqn:Hflag.
    + unfold startOscilloscopeAcquisition. rewrite Hflag. exact Hg.
    + rewrite started by exact Hflag. reflexivity.
  - exact Hg.
  - unfold setupTimer_timeout. destruct (setupTimer (env h)); [|exact Hg].
    apply handleSetupStep_guarded.
    destruct h as [a p st fl [tt sst inc wr em t]]. exact Hg.
  - unfold timeoutTimer_timeout. destruct (timeoutTimer (env h)); [|exact Hg].
    reflexivity.
  - apply receive_guarded. exact Hg.
Qed.

Lemma call_guarded (c : call) (h : handler) :
  guarded h -> guarded (call_step c h).
Proof.
  intros Hg. destruct c as [e| |cmd|level]; cbn [call_step].
  - apply step_guarded. exact Hg.
  - reflexivity.
  - destruct h as [a p st fl [tt sst inc wr em t]]. destruct cmd; exact Hg.
  - destruct h as [a p st fl [tt sst inc wr em t]]. exact Hg.
Qed.

(** X12. After every history of events and calls the 5 s state timeout
    is armed exactly when the handler is waiting for the acknowledgment or
    for channel data, and stopped otherwise: the handler never waits for
    bytes without the timeout that returns it to idle. *)
Theorem timeout_guards_every_wait (history : list call) (p : protocol) :
  let h := calls history (fresh p) in
  timeoutTimer (env h)
  = match acqState (acq h) with
    | WaitingForDone | WaitingForCh1 | WaitingForCh2 => Some 5000
    | Idle | Complete => None
    end.
Proof.
  intros h.
  assert (Hg : guarded h).
  { subst h. unfold calls.
    assert (Hfresh : guarded (fresh p)) by reflexivity.
    revert Hfresh. generalize (fresh p).
    induction history as [|c history IH]; intros h Hg; cbn [fold_left].
    - exact Hg.
    - apply IH. apply call_guarded. exact Hg. }
  unfold guarded, waiting in Hg. rewrite Hg.
  destruct (acqState (acq h)); reflexivity.
Qed.

Lemma write_frame_ok (frame : list Z) (w : world) :
  frame = [] \/ frame_ok frame ->
  Forall (fun tf => frame_ok (snd tf)) (written w) ->
  Forall (fun tf => frame_ok (snd tf)) (written (write frame w)).
Proof.
  intros [->|Hf] Hw; [exact Hw|].
  destruct frame as [|b frame]; [exact Hw|]. cbn [write written].
  apply Forall_app. split; [exact Hw|]. constructor; [exact Hf|constructor].
Qed.

Lemma frame_ok_intro (op b1 b2 : Z) :
  In op [84; 80; 76; 70; 83; 67; 68] -> 0 <= b1 <= 255 -> 0 <= b2 <= 255 ->
  frame_ok [op; b1; b2].
Proof. intros Hop H1 H2. exists op, b1, b2. auto. Qed.

Lemma setup_frame_ok (h : handler) (step : Z) :
  setup_frame h step = [] \/ frame_ok (setup_frame h step).
Proof.
  unfold setup_frame.
  destruct step as [|q|q]; try (left; reflexivity).
  do 3 (try destruct q as [q|q|]; try (left; reflexivity)).
  all: right; apply frame_ok_intro;
    [cbn; auto 10|apply to_char_range|first [apply to_char_range|lia]].
Qed.

Lemma handleSetupStep_frames (h : handler) :
  Forall (fun tf => frame_ok (snd tf)) (written (env h)) ->
  Forall (fun tf => frame_ok (snd tf)) (written (env (handleSetupStep h))).
Proof.
  intros Hw. unfold handleSetupStep.
  destruct ((0 <=? setupStep h) && (setupStep h <=? 6)).
  - cbn [env]. unfold setupTimer_start. cbn [written].
    apply write_frame_ok; [apply setup_frame_ok|exact Hw].
  - destruct (setupStep h =? 7); [|exact Hw].
    cbn [env]. unfold timeoutTimer_start. cbn [written].
    apply write_frame_ok; [|exact Hw].
    right. apply frame_ok_intro; [cbn; auto 10|lia|lia].
Qed.

Lemma receive_frames (bytes : list Z) (h : handler) :
  Forall (fun tf => frame_ok (snd tf)) (written (env h)) ->
  Forall (fun tf => frame_ok (snd tf)) (written (env (receive bytes h))).
Proof.
  destruct h as [[s md dl du c1 c2 bn] p st fl [tt sst inc wr em t]].
  unfold receive, handleReadyRead.
  cbn [acq env acqState bytesNeeded incoming timeoutTimer setupTimer written
       emitted now proto setupStep acquisitionInProgress acqDualChannel
       acqMode ch1Raw ch2Raw acqDataLength].
  intros Hw. unfold bytesAvailable. cbn [incoming].
  assert (Hrequest : forall op b w,
            In op [84; 80; 76; 70; 83; 67; 68] -> 0 <= b <= 255 ->
            written w = wr ->
            Forall (fun tf => frame_ok (snd tf)) (written (write [op; b; 0] w))).
  { intros op b w Hop Hb Hsame. apply write_frame_ok.
    - right. apply frame_ok_intro; [exact Hop|exact Hb|lia].
    - rewrite Hsame. exact Hw. }
  destruct (Z.of_nat (length (inc ++ bytes)) >? 0); [|exact Hw].
  destruct s.
  - exact Hw.
  - destruct (Z.of_nat (length (inc ++ bytes)) <? bn); [exact Hw|].
    destruct ((bn <=? 0) || false); [exact Hw|].
    unfold data_request, read.
    cbn [acqDualChannel acqMode bytesNeeded acqState].
    destruct du; [|destruct (md =? 2); [|destruct (md =? 3)]];
      cbn [env timeoutTimer_start written];
      first [exact Hw | apply Hrequest; [cbn; auto 10|lia|reflexivity]].
  - destruct (Z.of_nat (length (inc ++ bytes)) <? bn); [exact Hw|].
    destruct ((bn <=? 0) || false); [exact Hw|].
    unfold read. cbn [incoming timeoutTimer setupTimer written emitted now].
    destruct du; [|destruct (md =? 2); exact Hw].
    cbn [env timeoutTimer_start written].
    apply Hrequest; [cbn; auto 10|lia|reflexivity].
  - destruct (Z.of_nat (length (inc ++ bytes)) <? bn); [exact Hw|].
    destruct ((bn <=? 0) || false); [exact Hw|].
    unfold read. cbn [incoming timeoutTimer setupTimer written emitted now].
    destruct du; [exact Hw|]. destruct (md =? 3); exact Hw.
  - exact Hw.
Qed.

Lemma step_frames (e : event) (h : handler) :
  Forall (fun tf => frame_ok (snd tf)) (written (env h)) ->
  Forall (fun tf => frame_ok (snd tf)) (written (env (step e h))).
Proof.
  intros Hw. destruct e as [mode len dual|p'| | |bytes]; cbn [step].
  - destruct (acquisitionInProgress h) eqn:Hflag.
    + unfold startOscilloscopeAcquisition. rewrite Hflag. exact Hw.
    + rewrite started by exact Hflag. exact Hw.
  - exact Hw.
  - unfold setupTimer_timeout. destruct (setupTimer (env h)); [|exact Hw].
    apply handleSetupStep_frames. exact Hw.
  - unfold timeoutTimer_timeout. destruct (timeoutTimer (env h)); [|exact Hw].
    exact Hw.
  - apply receive_frames. exact Hw.
Qed.

(** X13. Every frame the acquisition state machine writes of its own
    accord - after any history of starts, parameter changes, timer expiries
    and incoming bytes - is three bytes: one of the opcodes T, P, L, F, S,
    C, D and two parameter bytes in [0, 255].  In particular the state
    machine never writes an offset frame (opcode O or o), whatever offsets
    the protocol parameters carry.  (Frames the window passes to
    [sendCommand] are not part of these histories.) *)
Theorem every_frame_on_the_wire (history : list event) (p : protocol) :
  Forall (fun tf =>
            exists op b1 b2, snd tf = [op; b1; b2] /\
              In op [84; 80; 76; 70; 83; 67; 68] /\
              0 <= b1 <= 255 /\ 0 <= b2 <= 255 /\ op <> 79 /\ op <> 111)
    (written (env (run history (fresh p)))).
Proof.
  assert (Hall : Forall (fun tf => frame_ok (snd tf))
                   (written (env (run history (fresh p))))).
  { apply (run_invariant
             (fun h => Forall (fun tf => frame_ok (snd tf)) (written (env h)))).
    - exact step_frames.
    - constructor. }
  eapply Forall_impl; [exact Hall|].
  intros tf (op & b1 & b2 & Heq & Hop & H1 & H2).
  exists op, b1, b2. repeat split; try assumption; try lia.
  - intros ->. cbn in Hop. intuition discriminate.
  - intros ->. cbn in Hop. intuition discriminate.
Qed.

End HistoryFacts.

(** ** What the generator is sent *)

Module GeneratorFacts.
Import CInt CIntFacts DDS SerialHandler Generator SynthesisFacts.

(** X14. Starting the generator sends what the planner planned: at every
    frequency from 1 to 50000 Hz [runDDS] writes exactly four frames, 20 ms
    apart and in this order: [p] with the high and low byte of the timer
    period, [N] with those of the sample count, [r, 0, 0] followed by the
    first [no_of_samples] entries of the table (so [no_of_samples + 3]
    bytes), and [f, 0, 0].  Nothing else of the handler changes.  The
    opcodes [p] and [N] are on the wire whatever byte 0 of the two command
    members held before the call. *)
Theorem runDDS_sends_the_plan (f : Z) (wave0 table0 : list Z)
    (p0 p1 p2 n0 n1 n2 : Z) (h : handler) :
  1 <= f <= 50000 -> (length wave0 <= 256)%nat ->
  exists p h',
    setFrequency f wave0 table0 [p0; p1; p2] [n0; n1; n2] = Done p /\
    runDDS f wave0 table0 [p0; p1; p2] [n0; n1; n2] h = Done (p, h') /\
    written (env h')
    = written (env h)
      ++ [(now (env h), [112; timer_period p / 256; timer_period p mod 256]);
          (now (env h) + 20,
           [78; no_of_samples p / 256; no_of_samples p mod 256]);
          (now (env h) + 40,
           [114; 0; 0]
           ++ map to_char (take (Z.to_nat (no_of_samples p)) (DDS_Table p)));
          (now (env h) + 60, [102; 0; 0])] /\
    length (take (Z.to_nat (no_of_samples p)) (DDS_Table p))
    = Z.to_nat (no_of_samples p) /\
    acq h' = acq h /\ proto h' = proto h /\
    emitted (env h') = emitted (env h) /\
    incoming (env h') = incoming (env h).
Proof.
  intros Hf Hwave.
  destruct (setFrequency_plan f wave0 table0 p0 p1 p2 n0 n1 n2 Hf Hwave)
    as (p & Hrun & _ & Htp & Hn & Hpc & Hsc & Hlen & _).
  exists p. eexists. split; [exact Hrun|].
  assert (Hsafe : Z.min (no_of_samples p) (Z.of_nat (length (DDS_Table p)))
                  = no_of_samples p) by (apply Z.min_l; lia).
  split.
  - unfold runDDS. rewrite Hrun. cbn [bind]. cbv zeta.
    rewrite Hsafe.
    destruct (Z.leb_spec (no_of_samples p) 0); [lia|].
    destruct (Z.gtb_spec (no_of_samples p) 512); [lia|].
    cbn [orb]. reflexivity.
  - rewrite Hpc, Hsc. destruct h as [a pr st fl [tt sst inc wr em t]].
    cbn. rewrite <- !app_assoc. cbn.
    rewrite <- !Z.add_assoc. cbn.
    repeat split. rewrite length_take. lia.
Qed.

Lemma runDDS_sends_the_plan_witness :
  exists p h',
    setFrequency 1000 sinTable initial_table [0; 0; 0] [0; 0; 0] = Done p /\
    runDDS 1000 sinTable initial_table [0; 0; 0] [0; 0; 0] (fresh p0) = Done (p, h') /\
    written (env h')
    = written (env (fresh p0))
      ++ [(now (env (fresh p0)),
           [112; timer_period p / 256; timer_period p mod 256]);
          (now (env (fresh p0)) + 20,
           [78; no_of_samples p / 256; no_of_samples p mod 256]);
          (now (env (fresh p0)) + 40,
           [114; 0; 0]
           ++ map to_char (take (Z.to_nat (no_of_samples p)) (DDS_Table p)));
          (now (env (fresh p0)) + 60, [102; 0; 0])] /\
    length (take (Z.to_nat (no_of_samples p)) (DDS_Table p))
    = Z.to_nat (no_of_samples p) /\
    acq h' = acq (fresh p0) /\ proto h' = proto (fresh p0) /\
    emitted (env h') = emitted (env (fresh p0)) /\
    incoming (env h') = incoming (env (fresh p0)).
Proof.
  apply (runDDS_sends_the_plan 1000 sinTable initial_table 0 0 0 0 0 0 (fresh p0)).
  - lia.
  - vm_compute. lia.
Defined.

End GeneratorFacts.

(** ** Averaging at 2 Mbps *)

Module AveragingFacts.
Import Averaging FillFacts.

Lemma average_channel_nonempty (volts : list float) (dataLength : Z) :
  volts <> [] ->
  average_channel dataLength volts
  = if dataLength <? 0 then Fault OutOfBounds
    else let* first := at_index volts 0 in
         let* out := store (resize (Z.to_nat dataLength) 0%float volts) 0 first in
         average_loop (Z.to_nat dataLength) volts dataLength 1 out.
Proof. destruct volts; [congruence|reflexivity]. Qed.

Section Channel.

Variables (volts : list float) (dataLength : Z).
Hypothesis Hsome : 1 <= Z.of_nat (length volts).
Hypothesis Hlength : 1 <= dataLength <= 2 * Z.of_nat (length volts).

Lemma average_loop_interpolates (fuel : nat) :
  forall m out,
    0 <= m -> Z.of_nat (length out) = dataLength ->
    (forall k, 0 <= k < 2 * m + 1 -> k < dataLength ->
               out !! Z.to_nat k = interpolated volts k) ->
    dataLength - (2 * m + 1) <= 2 * Z.of_nat fuel ->
    exists out', average_loop fuel volts dataLength (2 * m + 1) out = Done out' /\
      Z.of_nat (length out') = dataLength /\
      forall k, 0 <= k < dataLength -> out' !! Z.to_nat k = interpolated volts k.
Proof.
  induction fuel as [|fuel IH]; intros m out Hm Hlen Hdone Hfuel;
    cbn [average_loop]; destruct (Z.ltb_spec (2 * m + 1) dataLength) as [Hin|Hout];
    try lia;
    try (exists out; split; [reflexivity|]; split; [exact Hlen|];
         intros k Hk; apply Hdone; lia).
  assert (Hhalf : Z.quot (2 * m + 1) 2 = m).
  { rewrite Z.quot_div_nonneg by lia. symmetry.
    apply (Z.div_unique _ _ _ 1); lia. }
  unfold average_turn. cbv zeta. rewrite Hhalf.
  destruct (at_index_Done volts m) as (a & Ha & Hla); [lia|].
  assert (Hodd : interpolated volts (2 * m + 1)
                 = if m + 1 <? Z.of_nat (length volts)
                   then match volts !! Z.to_nat (m + 1) with
                        | Some b => Some ((a + b) / 2.0)%float
                        | None => Some a
                        end
                   else Some a).
  { unfold interpolated.
    replace ((2 * m + 1) mod 2) with 1
      by (apply (Z.mod_unique _ _ m); lia).
    replace ((2 * m + 1) / 2) with m by (apply (Z.div_unique _ _ _ 1); lia).
    cbn [Z.eqb]. rewrite Hla.
    destruct (Z.ltb_spec (m + 1) (Z.of_nat (length volts))); [reflexivity|].
    rewrite lookup_ge_None_2 by lia. reflexivity. }
  assert (Heven : interpolated volts (2 * m + 2) = volts !! Z.to_nat (m + 1)).
  { unfold interpolated.
    replace ((2 * m + 2) mod 2) with 0
      by (apply (Z.mod_unique _ _ (m + 1)); lia).
    replace ((2 * m + 2) / 2) with (m + 1) by (apply (Z.div_unique _ _ _ 0); lia).
    reflexivity. }
  assert (Hnext : forall v out1,
    interpolated volts (2 * m + 1) = Some v ->
    out1 = <[Z.to_nat (2 * m + 1) := v]> out ->
    exists out',
      (if (2 * m + 1 + 1 <? dataLength) && (m + 1 <? Z.of_nat (length volts))
       then let* b := at_index volts (m + 1) in store out1 (2 * m + 1 + 1) b
       else Done out1) = Done out' /\
      Z.of_nat (length out') = dataLength /\
      forall k, 0 <= k < 2 * (m + 1) + 1 -> k < dataLength ->
                out' !! Z.to_nat k = interpolated volts k).
  { intros v out1 Hv ->.
    assert (Hfirst : forall k, 0 <= k < 2 * m + 2 -> k < dataLength ->
              <[Z.to_nat (2 * m + 1) := v]> out !! Z.to_nat k
              = interpolated volts k).
    { intros k Hk Hkd. destruct (Z.eq_dec k (2 * m + 1)) as [->|Hne].
      - rewrite list_lookup_insert_eq by lia. symmetry. exact Hv.
      - rewrite list_lookup_insert_ne by lia. apply Hdone; lia. }
    destruct (Z.ltb_spec (2 * m + 1 + 1) dataLength) as [Hmore|Hlast].
    - destruct (Z.ltb_spec (m + 1) (Z.of_nat (length volts))); [|lia].
      cbn [andb].
      destruct (at_index_Done volts (m + 1)) as (b & Hb & Hlb); [lia|].
      rewrite Hb. cbn [bind].
      rewrite store_Done by (rewrite length_insert; lia).
      eexists. split; [reflexivity|]. split; [rewrite !length_insert; exact Hlen|].
      intros k Hk Hkd. destruct (Z.eq_dec k (2 * m + 2)) as [->|Hne].
      + replace (2 * m + 1 + 1) with (2 * m + 2) by lia.
        rewrite list_lookup_insert_eq by (rewrite length_insert; lia).
        rewrite Heven. symmetry. exact Hlb.
      + rewrite list_lookup_insert_ne by lia. apply Hfirst; lia.
    - cbn [andb]. eexists. split; [reflexivity|].
      split; [rewrite length_insert; exact Hlen|].
      intros k Hk Hkd. apply Hfirst; lia. }
  rewrite Ha.
  destruct (Z.ltb_spec (m + 1) (Z.of_nat (length volts))) as [Hpair|Hsingle].
  - destruct (at_index_Done volts (m + 1)) as (b & Hb & Hlb); [lia|].
    rewrite Hb. cbn [bind]. rewrite store_Done by lia. cbn [bind].
    rewrite Hlb in Hodd.
    destruct (Hnext _ _ Hodd eq_refl) as (out' & Hturn & Hlen' & Hdone').
    destruct (Z.ltb_spec (m + 1) (Z.of_nat (length volts))); [|lia].
    rewrite Hb in Hturn. cbn [bind] in Hturn.
    rewrite Hturn. cbn [bind].
    replace (2 * m + 1 + 2) with (2 * (m + 1) + 1) by lia.
    apply IH; [lia|exact Hlen'|exact Hdone'|lia].
  - cbn [bind]. rewrite store_Done by lia. cbn [bind].
    destruct (Hnext _ _ Hodd eq_refl) as (out' & Hturn & Hlen' & Hdone').
    destruct (Z.ltb_spec (m + 1) (Z.of_nat (length volts))); [lia|].
    rewrite Hturn. cbn [bind].
    replace (2 * m + 1 + 2) with (2 * (m + 1) + 1) by lia.
    apply IH; [lia|exact Hlen'|exact Hdone'|lia].
Qed.

Lemma average_channel_interpolates :
  exists out, average_channel dataLength volts = Done out /\
    Z.of_nat (length out) = dataLength /\
    forall k, 0 <= k < dataLength -> out !! Z.to_nat k = interpolated volts k.
Proof.
  assert (Hne : volts <> []).
  { intros Hnil. pose proof Hsome as Hs. rewrite Hnil in Hs. cbn in Hs. lia. }
  rewrite (average_channel_nonempty _ _ Hne).
  destruct (Z.ltb_spec dataLength 0); [lia|].
  destruct (at_index_Done volts 0) as (a & Ha & Hla); [lia|].
  rewrite Ha. cbn [bind].
  rewrite store_Done by (rewrite length_resize; lia). cbn [bind].
  apply (average_loop_interpolates _ 0).
  - lia.
  - rewrite length_insert, length_resize. lia.
  - intros k Hk _. replace k with 0 by lia.
    rewrite list_lookup_insert_eq by (rewrite length_resize; lia).
    unfold interpolated. cbn. symmetry. exact Hla.
  - lia.
Qed.

End Channel.

(** Past twice the record the loop reads [temp[i / 2]] outside it, and
    with [dataLength = 0] the first store is outside the resized vector. *)
Example averaging_needs_the_bound :
  average_channel 6 [1; 3]%float = Fault OutOfBounds /\
  average_channel 0 [1; 3]%float = Fault OutOfBounds.
Proof. split; vm_compute; reflexivity. Qed.

(** X15. The 2 Mbps block interpolates the record to twice its density:
    for a channel of [n >= 1] volts and [1 <= dataLength <= 2 n] it
    returns [dataLength] samples, sample [2 j] being sample [j] of the
    input and sample [2 j + 1] the mean of input samples [j] and [j + 1]
    (sample [j] itself when it is the last); so when [dataLength] is the
    input length the second half of the input does not reach the output. *)
Theorem averaging_interpolates (volts : list float) (dataLength : Z) :
  (1 <= length volts)%nat -> 1 <= dataLength <= 2 * Z.of_nat (length volts) ->
  exists out, average_channel dataLength volts = Done out /\
    Z.of_nat (length out) = dataLength /\
    (forall j, 0 <= 2 * j < dataLength ->
       out !! Z.to_nat (2 * j) = volts !! Z.to_nat j) /\
    (forall j, 0 <= 2 * j + 1 < dataLength ->
       exists a, volts !! Z.to_nat j = Some a /\
         out !! Z.to_nat (2 * j + 1)
         = match volts !! Z.to_nat (j + 1) with
           | Some b => Some ((a + b) / 2.0)%float
           | None => Some a
           end).
Proof.
  intros Hsome Hlength.
  destruct (average_channel_interpolates volts dataLength ltac:(lia) Hlength)
    as (out & Hrun & Hlen & Hall).
  exists out. split; [exact Hrun|]. split; [exact Hlen|]. split.
  - intros j Hj. rewrite Hall by lia. unfold interpolated.
    replace ((2 * j) mod 2) with 0 by (apply (Z.mod_unique _ _ j); lia).
    replace ((2 * j) / 2) with j by (apply (Z.div_unique _ _ _ 0); lia).
    reflexivity.
  - intros j Hj. rewrite Hall by lia. unfold interpolated.
    replace ((2 * j + 1) mod 2) with 1
      by (apply (Z.mod_unique _ _ j); lia).
    replace ((2 * j + 1) / 2) with j by (apply (Z.div_unique _ _ _ 1); lia).
    cbn [Z.eqb].
    destruct (lookup_lt_is_Some_2 volts (Z.to_nat j)) as [a Ha]; [lia|].
    exists a. split; [exact Ha|]. rewrite Ha.
    destruct (volts !! Z.to_nat (j + 1)); reflexivity.
Qed.

Lemma averaging_interpolates_witness :
  exists out, average_channel 4 [1; 3; 5; 7]%float = Done out /\
    Z.of_nat (length out) = 4 /\
    (forall j, 0 <= 2 * j < 4 ->
       out !! Z.to_nat (2 * j) = [1; 3; 5; 7]%float !! Z.to_nat j) /\
    (forall j, 0 <= 2 * j + 1 < 4 ->
       exists a, [1; 3; 5; 7]%float !! Z.to_nat j = Some a /\
         out !! Z.to_nat (2 * j + 1)
         = match [1; 3; 5; 7]%float !! Z.to_nat (j + 1) with
           | Some b => Some ((a + b) / 2.0)%float
           | None => Some a
           end).
Proof.
  apply (averaging_interpolates [1; 3; 5; 7]%float 4).
  - cbn. lia.
  - cbn. lia.
Defined.

End AveragingFacts.

(** ** A channel that holds one level *)

Module FlatFacts.
Import SpecFloat.
Local Open Scope float_scope.

Lemma SFltb_irrefl (s : spec_float) : SFltb s s = false.
Proof.
  unfold SFltb, SFcompare. destruct s as [[|]|[|]| |[|] m e]; try reflexivity.
  - rewrite Z.compare_refl, Pos.compare_cont_refl. reflexivity.
  - rewrite Z.compare_refl, Pos.compare_cont_refl. reflexivity.
Qed.

(** No double is below itself, not a number included. *)
Lemma ltb_irrefl (x : float) : (x <? x) = false.
Proof. rewrite ltb_spec. apply SFltb_irrefl. Qed.

(** Zero divided by anything above [1e-9] is zero. *)
Lemma zero_div (x : float) : (1e-9 <? x) = true -> 0 / x = 0.
Proof.
  intros Hx. rewrite ltb_spec in Hx.
  rewrite <- (SF2Prim_Prim2SF (0 / x)). rewrite div_spec.
  destruct (Prim2SF x) as [[|]|[|]| |[|] m e]; try discriminate Hx; reflexivity.
Qed.

(** [x - x] is zero, or not a number: never above 0.1. *)
Lemma sub_self_small (x : float) : (0.1 <? x - x) = false.
Proof.
  rewrite ltb_spec, sub_spec.
  destruct (Prim2SF x) as [[|]|[|]| |s m e]; try reflexivity.
  unfold SF64sub, SFsub. rewrite Z.min_id, Z.sub_diag. reflexivity.
Qed.

Lemma local_extrema_step (a b c : float) (rest : list float) :
  Bode.local_extrema (a :: b :: c :: rest)
  = let '(maxs, mins) := Bode.local_extrema (b :: c :: rest) in
    (if (a <? b) && (c <? b) then b :: maxs else maxs,
     if (b <? a) && (b <? c) then b :: mins else mins).
Proof. reflexivity. Qed.

Lemma local_extrema_flat (n : nat) (c : float) :
  Bode.local_extrema (replicate n c) = ([], []).
Proof.
  induction n as [|n IH]; [reflexivity|].
  destruct n as [|[|n]]; try reflexivity.
  change (replicate (S (S (S n))) c) with (c :: c :: c :: replicate n c).
  rewrite local_extrema_step.
  change (c :: c :: replicate n c) with (replicate (S (S n)) c).
  rewrite IH. rewrite !ltb_irrefl. reflexivity.
Qed.

Lemma amplitude_of_level (n : nat) (c : float) : Bode.amplitude (replicate n c) = 0.
Proof. unfold Bode.amplitude. rewrite local_extrema_flat. reflexivity. Qed.

Lemma drop_flat (k n : nat) (c : float) :
  drop k (replicate n c) = replicate (n - k) c.
Proof. apply drop_replicate. Qed.

(** X16. A sweep point whose output channel holds one level, whatever the
    level (not a number included), the length of the capture and the input
    wave, is always marked invalid; the magnitude recorded for it is
    [20 * log10(0)] whenever more than 20 samples were captured and the
    input amplitude is above [1e-9], and 0.0 otherwise. *)
Theorem flat_output_is_invalid (log10 : float -> float)
    (inWave : list float) (n : nat) (c : float) :
  let pt := Bode.analyse log10 inWave (replicate n c) in
  Bode.invalid pt = true /\
  Bode.magnitude pt
  = if (20 <? Nat.min (length inWave) n)%nat
       && (1e-9 <? Bode.amplitude (drop 20 inWave))
    then 20 * log10 0 else 0.
Proof.
  intros pt. subst pt. unfold Bode.analyse. rewrite length_replicate.
  destruct (Nat.leb_spec (Nat.min (length inWave) n) 20) as [Hshort|Hlong].
  - destruct (Nat.ltb_spec 20 (Nat.min (length inWave) n)); [lia|].
    split; reflexivity.
  - destruct (Nat.ltb_spec 20 (Nat.min (length inWave) n)); [|lia].
    cbv zeta. cbn [Bode.invalid Bode.magnitude andb].
    rewrite drop_flat, amplitude_of_level. split.
    + apply orb_true_r.
    + destruct (1e-9 <? Bode.amplitude (drop 20 inWave)) eqn:Hin; [|reflexivity].
      rewrite zero_div by exact Hin. reflexivity.
Qed.

Lemma min_from_flat (n : nat) (c : float) :
  Trigger.min_from c (replicate n c) = c.
Proof.
  induction n as [|n IH]; [reflexivity|].
  cbn [replicate Trigger.min_from]. rewrite ltb_irrefl. exact IH.
Qed.

Lemma max_from_flat (n : nat) (c : float) :
  Trigger.max_from c (replicate n c) = c.
Proof.
  induction n as [|n IH]; [reflexivity|].
  cbn [replicate Trigger.max_from]. rewrite ltb_irrefl. exact IH.
Qed.

(** X17. A trigger channel that holds one level never releases a frame:
    at every trigger source, polarity, level and gain, and whatever the
    other channel carries, [checkTriggerCondition] is false and the frame
    is held or the trigger is reported out of range. *)
Theorem flat_channel_never_triggers (s : Trigger.settings)
    (ch1Data ch2Data : list float) (n : nat) (c : float) :
  Trigger.triggerData s ch1Data ch2Data = replicate n c ->
  Trigger.checkTriggerCondition s ch1Data ch2Data = false /\
  Trigger.evaluate s ch1Data ch2Data <> Trigger.Released.
Proof.
  intros Hflat.
  assert (Hcheck : Trigger.checkTriggerCondition s ch1Data ch2Data = false).
  { unfold Trigger.checkTriggerCondition. rewrite Hflat.
    destruct n as [|n]; [reflexivity|]. cbn [replicate]. cbv zeta.
    rewrite min_from_flat, max_from_flat. apply sub_self_small. }
  split; [exact Hcheck|].
  unfold Trigger.evaluate. cbv zeta. rewrite Hcheck.
  match goal with |- (if ?b then _ else _) <> _ => destruct b end; discriminate.
Qed.

Lemma flat_channel_never_triggers_witness :
  Trigger.checkTriggerCondition Trigger.ch1_rising (replicate 200 1.5) [0; 1]
  = false /\
  Trigger.evaluate Trigger.ch1_rising (replicate 200 1.5) [0; 1]
  <> Trigger.Released.
Proof.
  apply (flat_channel_never_triggers Trigger.ch1_rising (replicate 200 1.5)
           [0; 1] 200 1.5).
  reflexivity.
Defined.

End FlatFacts.

(** ** The digital divider ladder *)

Module DividerFacts.
Import CInt CIntFacts DigitalFreq DigitalFreqFacts.




End DividerFacts.

(** ** The Bode plot's vectors *)

Module SweepFacts.
Import Bode.
Local Open Scope float_scope.

Lemma smooth_from_step (prev b c : float) (tl : list float) :
  smooth_from prev (b :: c :: tl) = (prev + b + c) / 3.0 :: smooth_from b (c :: tl).
Proof. reflexivity. Qed.

Lemma smooth_from_length (rest : list float) :
  forall prev, length (smooth_from prev rest) = length rest.
Proof.
  induction rest as [|b rest IH]; intros prev; [reflexivity|].
  destruct rest as [|c tl]; [reflexivity|].
  rewrite smooth_from_step. cbn [length]. rewrite IH. reflexivity.
Qed.

Lemma smooth_from_last (rest : list float) :
  forall prev, last (smooth_from prev rest) = last rest.
Proof.
  induction rest as [|b rest IH]; intros prev; [reflexivity|].
  destruct rest as [|c tl]; [reflexivity|].
  rewrite smooth_from_step.
  rewrite (last_cons _ (smooth_from b (c :: tl))), (last_cons b (c :: tl)), IH.
  destruct (last (c :: tl)) eqn:Hl; [reflexivity|].
  apply last_None in Hl. discriminate.
Qed.

Lemma movingAverage_shape (data : list float) :
  length (movingAverage data) = length data /\
  head (movingAverage data) = head data /\
  last (movingAverage data) = last data.
Proof.
  destruct data as [|a rest]; [repeat split|].
  cbn [movingAverage length head]. rewrite smooth_from_length.
  split; [reflexivity|]. split; [reflexivity|].
  rewrite !last_cons, smooth_from_last. reflexivity.
Qed.

Lemma smoothed_shape (data : list float) :
  length (smoothed data) = length data /\
  head (smoothed data) = head data /\
  last (smoothed data) = last data.
Proof.
  unfold smoothed.
  destruct (movingAverage_shape (movingAverage (movingAverage data)))
    as (-> & -> & ->).
  destruct (movingAverage_shape (movingAverage data)) as (-> & -> & ->).
  apply movingAverage_shape.
Qed.

(** X19. When [plotBodePlot] draws, the magnitude vector it has built has
    one entry per sweep frequency, and the three smoothing passes keep
    that length and leave the first and the last magnitude as computed;
    the frequencies marked invalid are sweep frequencies.  It draws
    nothing exactly when one of the three sweep vectors is empty or their
    lengths differ. *)
Theorem plotBodePlot_shape (log10 : float -> float) (sweepFrequencies : list float)
    (sweepInputWaves sweepOutputWaves : list (list float)) :
  match plotBodePlot log10 sweepFrequencies sweepInputWaves sweepOutputWaves with
  | Some (sweepMagnitudes, invalidFreqs) =>
      sweepFrequencies <> [] /\
      length sweepInputWaves = length sweepFrequencies /\
      length sweepOutputWaves = length sweepFrequencies /\
      length sweepMagnitudes = length sweepFrequencies /\
      length (smoothed sweepMagnitudes) = length sweepFrequencies /\
      head (smoothed sweepMagnitudes) = head sweepMagnitudes /\
      last (smoothed sweepMagnitudes) = last sweepMagnitudes /\
      (length invalidFreqs <= length sweepFrequencies)%nat /\
      Forall (fun f => In f sweepFrequencies) invalidFreqs
  | None =>
      sweepFrequencies = [] \/ sweepInputWaves = [] \/ sweepOutputWaves = [] \/
      length sweepInputWaves <> length sweepFrequencies \/
      length sweepOutputWaves <> length sweepFrequencies
  end.
Proof.
  unfold plotBodePlot.
  destruct sweepFrequencies as [|f fs]; [auto|].
  destruct sweepInputWaves as [|inw inws]; [auto|].
  destruct sweepOutputWaves as [|outw outws]; [auto|].
  set (freqs := f :: fs). set (ins := inw :: inws). set (outs := outw :: outws).
  destruct (Nat.eqb_spec (length freqs) (length ins)) as [Hin|Hin];
    [|cbn [andb negb]; right; right; right; left; congruence].
  destruct (Nat.eqb_spec (length freqs) (length outs)) as [Hout|Hout];
    [|cbn [andb negb]; right; right; right; right; congruence].
  cbn [andb negb].
  assert (Hmags : length (map magnitude (zip_with (analyse log10) ins outs))
                  = length freqs).
  { rewrite length_map, length_zip_with. lia. }
  destruct (smoothed_shape (map magnitude (zip_with (analyse log10) ins outs)))
    as (Hlen & Hhead & Hlast).
  split; [discriminate|]. split; [congruence|]. split; [congruence|].
  split; [exact Hmags|]. split; [congruence|].
  split; [exact Hhead|]. split; [exact Hlast|]. split.
  - rewrite length_map.
    etransitivity; [apply length_filter|].
    rewrite length_zip_with. lia.
  - apply Forall_forall. intros x Hx.
    apply list_elem_of_In, in_map_iff in Hx. destruct Hx as ([f' pt] & <- & Hx).
    apply list_elem_of_In, list_elem_of_filter in Hx. destruct Hx as [_ Hx].
    apply elem_of_zip_l in Hx. apply list_elem_of_In. exact Hx.
Qed.

Lemma crossing_app (pre : list float) (a b : float) (rest : list float) :
  crossing (pre ++ a :: b :: rest) (Z.of_nat (length pre) + 1)
  = (a <? 0) && (0 <=? b).
Proof.
  unfold crossing.
  replace (Z.to_nat (Z.of_nat (length pre) + 1 - 1)) with (length pre + 0)%nat by lia.
  replace (Z.to_nat (Z.of_nat (length pre) + 1)) with (length pre + 1)%nat by lia.
  rewrite !lookup_app_r by lia.
  replace (length pre + 0 - length pre)%nat with 0%nat by lia.
  replace (length pre + 1 - length pre)%nat with 1%nat by lia.
  reflexivity.
Qed.

Lemma first_crossing_from_first (rest : list float) :
  forall pre prev,
    (forall j, (1 <= j < Z.of_nat (length pre) + 1)%Z ->
               crossing (pre ++ prev :: rest) j = false) ->
    let data := pre ++ prev :: rest in
    let r := first_crossing_from (Z.of_nat (length pre) + 1) prev rest in
    (r = (-1)%Z /\ forall j, (1 <= j)%Z -> crossing data j = false) \/
    ((1 <= r < Z.of_nat (length data))%Z /\ crossing data r = true /\
     forall j, (1 <= j < r)%Z -> crossing data j = false).
Proof.
  induction rest as [|x rest IH]; intros pre prev Hbefore data r.
  - left. split; [reflexivity|]. intros j Hj.
    destruct (Z.lt_ge_cases j (Z.of_nat (length pre) + 1)) as [Hlt|Hge].
    + apply Hbefore. lia.
    + unfold crossing. subst data.
      rewrite (lookup_ge_None_2 _ (Z.to_nat j)); [|rewrite length_app; cbn; lia].
      destruct (_ !! _); reflexivity.
  - subst r. cbn [first_crossing_from].
    pose proof (crossing_app pre prev x rest) as Hhere. fold data in Hhere.
    destruct ((prev <? 0) && (0 <=? x)) eqn:Hcross.
    + right. split; [|split; [exact Hhere|exact Hbefore]].
      subst data. rewrite length_app. cbn [length]. lia.
    + specialize (IH (pre ++ [prev]) x).
      rewrite length_app in IH. cbn [length] in IH.
      rewrite <- app_assoc in IH. cbn [app] in IH.
      replace (Z.of_nat (length pre + 1) + 1)%Z
        with (Z.of_nat (length pre) + 1 + 1)%Z in IH by lia.
      apply IH. intros j Hj.
      destruct (Z.eq_dec j (Z.of_nat (length pre) + 1)%Z) as [->|Hne].
      * exact Hhere.
      * apply Hbefore. lia.
Qed.

(** X20. [findFirstZeroCrossing] returns the first upward zero crossing:
    either -1, and then no index [i >= 1] has [data[i-1] < 0 <= data[i]];
    or an index inside the vector at which the data crosses and before
    which it does not. *)
Theorem findFirstZeroCrossing_first (data : list float) :
  let r := findFirstZeroCrossing data in
  (r = (-1)%Z /\ forall j, (1 <= j)%Z -> crossing data j = false) \/
  ((1 <= r < Z.of_nat (length data))%Z /\ crossing data r = true /\
   forall j, (1 <= j < r)%Z -> crossing data j = false).
Proof.
  destruct data as [|x rest].
  - left. split; [reflexivity|]. intros j Hj. unfold crossing.
    rewrite !lookup_nil. reflexivity.
  - apply (first_crossing_from_first rest [] x). intros j Hj. cbn in Hj. lia.
Qed.

End SweepFacts.

(** ** The sweep's sample rate *)

Module SampleRateFacts.
Import Sweep.
Local Open Scope float_scope.

Lemma search_down_first (freq : float) (n : nat) :
  let r := search_down n freq in
  (0 <= r)%Z /\
  (forall j, (Z.to_nat r < j < n)%nat -> (9 * freq <? nth j sampleRates 0) = false) /\
  ((r < Z.of_nat n)%Z /\ (9 * freq <? nth (Z.to_nat r) sampleRates 0) = true \/
   r = 0%Z /\ forall j, (j < n)%nat -> (9 * freq <? nth j sampleRates 0) = false).
Proof.
  induction n as [|i IH]; cbn [search_down].
  - split; [lia|]. split; [intros j Hj; lia|]. right. split; [reflexivity|].
    intros j Hj. lia.
  - destruct (9 * freq <? nth i sampleRates 0) eqn:Hhere.
    + split; [lia|]. split; [intros j Hj; lia|]. left.
      rewrite Nat2Z.id. split; [lia|exact Hhere].
    + destruct IH as (Hpos & Habove & Hfound). split; [exact Hpos|]. split.
      * intros j Hj. destruct (Nat.eq_dec j i) as [->|Hne]; [exact Hhere|].
        apply Habove. lia.
      * destruct Hfound as [[Hlt Hrate]|[Hzero Hnone]].
        -- left. split; [lia|exact Hrate].
        -- right. split; [exact Hzero|]. intros j Hj.
           destruct (Nat.eq_dec j i) as [->|Hne]; [exact Hhere|].
           apply Hnone. lia.
Qed.

(** X21. [findSampleRateIndex] returns the index of the slowest rate of
    its table that is above nine times the frequency: every slower rate
    (higher index) is not above it; when no rate of the table is, it
    returns 0, the fastest. *)
Theorem findSampleRateIndex_slowest (freq : float) :
  let r := findSampleRateIndex freq in
  (0 <= r <= 13)%Z /\
  (forall j, (Z.to_nat r < j <= 13)%nat ->
             (9 * freq <? nth j sampleRates 0) = false) /\
  ((9 * freq <? nth (Z.to_nat r) sampleRates 0) = true \/
   r = 0%Z /\ forall j, (j <= 13)%nat -> (9 * freq <? nth j sampleRates 0) = false).
Proof.
  intros r. destruct (search_down_first freq 14) as (Hpos & Habove & Hfound).
  fold (findSampleRateIndex freq) in Hpos, Habove, Hfound. fold r in Hpos, Habove, Hfound.
  split; [|split].
  - destruct Hfound as [[Hlt _]|[-> _]]; lia.
  - intros j Hj. apply Habove. lia.
  - destruct Hfound as [[_ Hrate]|[Hzero Hnone]]; [left; exact Hrate|].
    right. split; [exact Hzero|]. intros j Hj. apply Hnone. lia.
Qed.

Example findSampleRateIndex_samples :
  map findSampleRateIndex [1; 10; 1000; 11111; 50000; 300000; nan]
  = [13; 13; 7; 4; 2; 0; 0]%Z.
Proof. vm_compute. reflexivity. Qed.

End SampleRateFacts.

(** ** Re-arming from the slot *)

Module RearmFacts.
Import CInt SerialHandler SerialFacts CaptureFacts.

(** With a slot that leaves the handler alone, the connected handler is
    the handler. *)
Lemma connected_to_nothing (h : handler) :
  handleReadyRead_connected (fun _ h => h) h = handleReadyRead h.
Proof.
  destruct h as [[s md dl du c1 c2 bn] p st fl [tt sst inc wr em t]].
  unfold handleReadyRead_connected, handleReadyRead.
  cbn [acq env acqState bytesNeeded acqDualChannel acqMode ch1Raw ch2Raw
       acqDataLength proto setupStep acquisitionInProgress].
  destruct (bytesAvailable _ >? 0); [|reflexivity].
  destruct (bytesAvailable _ <? bn); [reflexivity|].
  cbn [negb andb orb]. destruct (bn <=? 0); [reflexivity|].
  cbn [negb andb]. unfold read.
  destruct s; try reflexivity.
  - destruct du; [reflexivity|]. cbn [negb andb].
    destruct (md =? 2); reflexivity.
  - destruct du; [reflexivity|]. destruct (md =? 3); reflexivity.
Qed.

Lemma rearm_explicit (m : acquisition_mode) (len : Z) (trig : bool) (h : handler) :
  rearm m len trig h
  = mkHandler
      (mkAcquisition Idle
         (if acquisitionMode m =? 0 then 1 else acquisitionMode m + 1)
         len (acquisitionMode m =? 0) [] [] 0)
      (proto h) 1 false
      (mkWorld None (Some 50) (incoming (env h)) (written (env h))
         (emitted (env h)) (now (env h))).
Proof.
  unfold rearm. cbv zeta. rewrite started by reflexivity.
  destruct trig; [|destruct h as [a p st fl [tt sst inc wr em t]]; reflexivity].
  destruct (acquisitionInProgress h) eqn:Hflag.
  - unfold startOscilloscopeAcquisition. rewrite Hflag.
    destruct h as [a p st fl [tt sst inc wr em t]]. reflexivity.
  - rewrite started by exact Hflag. reflexivity.
Qed.

Lemma not_own_extension {A} (l : list A) (x : A) : l <> l ++ [x].
Proof.
  intros Heq. apply (f_equal length) in Heq. rewrite length_app in Heq.
  cbn in Heq. lia.
Qed.

(** X22. Re-arming from the slot loses the mode.  When a read completes a
    capture and the window's slot re-arms from inside the [emit], the
    handler's own [resetAcquisitionState()] runs after the slot's start:
    whatever mode and data length the window asked for, the handler is left
    exactly as a start in dual mode (mode 1, 200 bytes per channel) would
    leave it; its setup sequence sends [F, 1, 0] and the next capture will
    ask for CH1 with [D, 1, 0] and wait for 200 bytes. *)
Theorem rearm_from_slot_is_dual (h : handler) (bytes : list Z) (s : signal)
    (m : acquisition_mode) (dataLength : Z) (triggered : bool) :
  emitted (env (receive bytes h)) = emitted (env h) ++ [s] ->
  let h' := receive_connected (fun _ => rearm m dataLength triggered) bytes h in
  h' = startOscilloscopeAcquisition 1 200 true (receive bytes h) /\
  emitted (env h') = emitted (env h) ++ [s] /\
  acq h' = mkAcquisition Idle 1 200 true [] [] 0 /\
  (let h7 := setup_ticks 7 h' in
   acq h7 = mkAcquisition WaitingForDone 1 200 true [] [] 1 /\
   In [70; 1; 0] (frames h7) /\
   data_request (acq h7) = ([68; 1; 0], 200, WaitingForCh1)).
Proof.
  intros Hemit h'.
  assert (Hplain : acquisitionInProgress (receive bytes h) = false
                   /\ acq (receive bytes h) = mkAcquisition Idle 1 200 true [] [] 0
                   /\ h' = startOscilloscopeAcquisition 1 200 true (receive bytes h)).
  { subst h'. revert Hemit.
    destruct h as [[st md dl du c1 c2 bn] p stp fl [tt sst inc wr em t]].
    unfold receive_connected, receive, handleReadyRead_connected, handleReadyRead.
    cbn [acq env acqState bytesNeeded acqDualChannel acqMode ch1Raw ch2Raw
         acqDataLength proto setupStep acquisitionInProgress incoming
         timeoutTimer setupTimer written emitted now].
    unfold bytesAvailable. cbn [incoming].
    destruct (Z.of_nat (length (inc ++ bytes)) >? 0);
      [|intros Hemit; exfalso; exact (not_own_extension _ _ Hemit)].
    destruct (Z.of_nat (length (inc ++ bytes)) <? bn).
    { destruct st; intros Hemit; exfalso; exact (not_own_extension _ _ Hemit). }
    cbn [negb andb orb]. destruct (bn <=? 0).
    { destruct st; intros Hemit; exfalso; exact (not_own_extension _ _ Hemit). }
    cbn [negb andb]. unfold read.
    cbn [incoming timeoutTimer setupTimer written emitted now].
    destruct st.
    - intros Hemit; exfalso; exact (not_own_extension _ _ Hemit).
    - unfold data_request. cbn [acqDualChannel acqMode bytesNeeded acqState].
      destruct du; [|destruct (md =? 2); [|destruct (md =? 3)]];
        cbn; intros Hemit; exfalso; exact (not_own_extension _ _ Hemit).
    - destruct du; cbn [negb andb].
      + cbn. intros Hemit; exfalso; exact (not_own_extension _ _ Hemit).
      + destruct (md =? 2).
        * intros _. rewrite rearm_explicit. repeat split.
        * cbn. intros Hemit; exfalso; exact (not_own_extension _ _ Hemit).
    - destruct du.
      + intros _. rewrite rearm_explicit. repeat split.
      + destruct (md =? 3).
        * intros _. rewrite rearm_explicit. repeat split.
        * cbn. intros Hemit; exfalso; exact (not_own_extension _ _ Hemit).
    - intros Hemit; exfalso; exact (not_own_extension _ _ Hemit). }
  destruct Hplain as (Hflag & Hacq & Heq).
  split; [exact Heq|].
  rewrite Heq, started by exact Hflag.
  cbn [env emitted acq]. split; [exact Hemit|]. split; [reflexivity|].
  rewrite seven_ticks. cbn [acq env written]. split; [reflexivity|].
  split; [|reflexivity].
  unfold frames. cbn [env written]. rewrite !map_app. cbn [setup_frames map snd].
  apply in_or_app. right. apply in_or_app. left. cbn. auto 10.
Qed.

Lemma rearm_from_slot_is_dual_witness :
  let h := receive [1] (armed p0 CH1Only) in
  let bytes := replicate 400 7 in
  let s := oscilloscopeRawDataReady (replicate 400 7) [] 400 false in
  let h' := receive_connected (fun _ => rearm CH1Only 400 true) bytes h in
  h' = startOscilloscopeAcquisition 1 200 true (receive bytes h) /\
  emitted (env h') = emitted (env h) ++ [s] /\
  acq h' = mkAcquisition Idle 1 200 true [] [] 0 /\
  (let h7 := setup_ticks 7 h' in
   acq h7 = mkAcquisition WaitingForDone 1 200 true [] [] 1 /\
   In [70; 1; 0] (frames h7) /\
   data_request (acq h7) = ([68; 1; 0], 200, WaitingForCh1)).
Proof.
  apply (rearm_from_slot_is_dual (receive [1] (armed p0 CH1Only))
           (replicate 400 7)
           (oscilloscopeRawDataReady (replicate 400 7) [] 400 false)
           CH1Only 400 true).
  vm_compute. reflexivity.
Defined.

End RearmFacts.

(** ** The two encodings of the trigger level *)

Module TriggerModeFacts.
Import CInt CIntFacts SerialHandler TriggerMode SynthesisFacts.

(** At every level of the slider and every gain of the combo boxes: the
    conversion through doubles is the truncated quotient
    [3 (level - 2048) / (4 gain)], and the window's frame is not the
    handler's. *)
Lemma levels_checked :
  every 4096 0 (fun level =>
    forallb (fun gz =>
      match trigForUp level (fst gz) with
      | Done t =>
          (t =? clamp12 (2048 + Z.quot (3 * (level - 2048)) (4 * snd gz)))
          && negb (bool_decide (setTrigValue t = handler_level_frame level))
      | Fault _ => false
      end) whole_gains) = true.
Proof. vm_compute. reflexivity. Qed.

Lemma setTrigValue_bytes (t : Z) :
  0 <= t <= 4095 ->
  setTrigValue t = [76; t / 16; t mod 16 * 16] /\
  0 <= t / 16 <= 255 /\ 0 <= t mod 16 * 16 <= 240 /\
  16 * (t / 16) + t mod 16 * 16 / 16 = t.
Proof.
  intros Ht. unfold setTrigValue, to_char. cbv zeta.
  rewrite Z.quot_div_nonneg by lia.
  assert (Hlow : (t - t / 16 * 16) * 16 = t mod 16 * 16)
    by (Z.to_euclidean_division_equations; lia).
  rewrite Hlow.
  assert (0 <= t / 16 <= 255) by (Z.to_euclidean_division_equations; lia).
  assert (0 <= t mod 16 * 16 <= 240) by (Z.to_euclidean_division_equations; lia).
  rewrite (Z.mod_small (t / 16)), (Z.mod_small (t mod 16 * 16)) by lia.
  repeat split; try lia.
  rewrite Z.div_mul by lia. Z.to_euclidean_division_equations; lia.
Qed.

Lemma handler_level_frame_bytes (level : Z) (h : handler) :
  SerialHandler.trigLevel (proto h) = level ->
  setup_frame h 4 = handler_level_frame level.
Proof. intros <-. reflexivity. Qed.

(** The level in the handler's frame: high byte, low byte. *)
Lemma handler_level_bytes (level : Z) (h : handler) :
  0 <= level <= 4095 ->
  SerialHandler.trigLevel (proto h) = level ->
  setup_frame h 4 = [76; level / 256; level mod 256].
Proof.
  intros Hlevel <-. cbn [setup_frame].
  set (level := SerialHandler.trigLevel (proto h)) in *.
  assert (Hhi : Z.land (Z.shiftr level 8) 255 = level / 256).
  { rewrite Z.shiftr_div_pow2 by lia. change (2 ^ 8) with 256.
    change 255 with (Z.ones 8). rewrite Z.land_ones by lia.
    change (2 ^ 8) with 256. apply Z.mod_small.
    Z.to_euclidean_division_equations; lia. }
  assert (Hlo : Z.land level 255 = level mod 256).
  { change 255 with (Z.ones 8). rewrite Z.land_ones by lia. reflexivity. }
  rewrite Hhi, Hlo. unfold to_char.
  rewrite (Z.mod_small (level / 256))
    by (Z.to_euclidean_division_equations; lia).
  rewrite Z.mod_mod by lia. reflexivity.
Qed.

(** Both gains among those of the combo boxes: so is the gain of the
    trigger channel. *)
Lemma gain_listed (s : Trigger.settings) :
  In (Trigger.ch1Gain s) (map fst whole_gains) ->
  In (Trigger.ch2Gain s) (map fst whole_gains) ->
  exists g, In (trigger_gain s, g) whole_gains.
Proof.
  intros Hg1 Hg2.
  assert (Hgain : In (trigger_gain s) (map fst whole_gains)).
  { unfold trigger_gain. destruct (Trigger.trigRadio s); auto; cbn; auto. }
  apply in_map_iff in Hgain. destruct Hgain as ([gain' g] & Hfst & Hin).
  cbn [fst] in Hfst. subst gain'. exists g. exact Hin.
Qed.

(** [setTriggerMode] with its level frame computed from the level and the
    gain of the trigger channel. *)
Lemma setTriggerMode_sends (s : Trigger.settings)
    (ch1Buffer ch2Buffer : list float) (h : handler) (g : Z) :
  0 <= Trigger.trigLevel s <= 4095 ->
  In (trigger_gain s, g) whole_gains ->
  let t := clamp12 (2048 + Z.quot (3 * (Trigger.trigLevel s - 2048)) (4 * g)) in
  0 <= t <= 4095 /\
  setTrigValue t <> handler_level_frame (Trigger.trigLevel s) /\
  exists s',
    setTriggerMode s ch1Buffer ch2Buffer h
    = Done (s',
            mkHandler (acq h) (proto h) (setupStep h) (acquisitionInProgress h)
              (mkWorld (timeoutTimer (env h)) (setupTimer (env h))
                 (incoming (env h))
                 (written (env h)
                  ++ [(now (env h),
                       [84; match Trigger.trigRadio s with
                            | Trigger.Auto => 0 | Trigger.CH1 => 1
                            | Trigger.CH2 => 2 | Trigger.External => 3
                            end; 0]);
                      (now (env h) + 20,
                       [80; match Trigger.trigPolarity s with
                            | Trigger.FallingEdge => 1 | Trigger.RisingEdge => 0
                            end; 0]);
                      (now (env h) + 40, [76; t / 16; t mod 16 * 16])])
                 (emitted (env h)) (now (env h) + 60))) /\
    Trigger.trigLevel s' = Trigger.trigLevel s /\
    (s' = s \/ Trigger.trigRadio s' = Trigger.Auto).
Proof.
  intros Hlevel Hin t.
  pose proof (every_spec _ _ _ (Trigger.trigLevel s) levels_checked ltac:(lia))
    as Hc.
  cbv beta in Hc. rewrite forallb_forall in Hc. specialize (Hc _ Hin).
  cbn [fst snd] in Hc.
  destruct (trigForUp (Trigger.trigLevel s) (trigger_gain s)) as [t'|] eqn:Ht;
    [|discriminate].
  apply andb_true_iff in Hc as [Hformula Hdiffer].
  apply Z.eqb_eq in Hformula. fold t in Hformula. subst t'.
  assert (Hrange : 0 <= t <= 4095).
  { subst t. unfold clamp12.
    destruct (Z.ltb_spec (2048 + Z.quot (3 * (Trigger.trigLevel s - 2048)) (4 * g)) 0);
      [lia|].
    destruct (Z.gtb_spec (2048 + Z.quot (3 * (Trigger.trigLevel s - 2048)) (4 * g)) 4095);
      lia. }
  split; [exact Hrange|]. split.
  { apply negb_true_iff, bool_decide_eq_false in Hdiffer. exact Hdiffer. }
  destruct (setTrigValue_bytes t Hrange) as (Hbytes & _).
  destruct h as [a pr st fl [tt sst inc wr em tm]].
  eexists. split; [|split].
  - unfold setTriggerMode. cbv zeta.
    change (match Trigger.trigRadio s with
            | Trigger.CH1 => Trigger.ch1Gain s
            | Trigger.CH2 => Trigger.ch2Gain s
            | _ => 1.0%float
            end) with (trigger_gain s).
    rewrite Ht. cbn [bind].
    rewrite Hbytes. apply f_equal. apply f_equal2; [reflexivity|].
    unfold Generator.sleep, sendCommand, msleep, write.
    cbn [acq proto setupStep acquisitionInProgress env timeoutTimer setupTimer
         incoming written emitted now].
    rewrite <- !app_assoc. cbn [app]. rewrite <- !Z.add_assoc. reflexivity.
  - cbv beta.
    match goal with |- Trigger.trigLevel (if ?b then _ else _) = _ => destruct b end;
      reflexivity.
  - cbv beta.
    match goal with
    | |- (if ?b then _ else _) = _ \/ _ => destruct b; [right; reflexivity|left; reflexivity]
    end.
Qed.

(** X23. The trigger level has two encodings on the wire.  For every
    slider level (0 to 4095), with [g] the gain of the channel that is the
    trigger source (1 when the source is neither channel), [setTriggerMode]
    writes T, P and L frames 20 ms apart; its L frame carries the 12-bit
    value [t = clamp(2048 + 3 (level - 2048) / (4 g))] left-justified (high
    eight bits, then the low four in the upper nibble).  The L frame of the
    handler's setup sequence for the same level carries the level itself,
    right-justified, and the two frames differ at every level and gain. *)
Theorem trigger_level_two_encodings (s : Trigger.settings)
    (ch1Buffer ch2Buffer : list float) (h : handler) (g : Z) :
  0 <= Trigger.trigLevel s <= 4095 ->
  In (trigger_gain s, g) whole_gains ->
  let level := Trigger.trigLevel s in
  let t := clamp12 (2048 + Z.quot (3 * (level - 2048)) (4 * g)) in
  exists s' h',
    setTriggerMode s ch1Buffer ch2Buffer h = Done (s', h') /\
    written (env h')
    = written (env h)
      ++ [(now (env h),
           [84; match Trigger.trigRadio s with
                | Trigger.Auto => 0 | Trigger.CH1 => 1
                | Trigger.CH2 => 2 | Trigger.External => 3
                end; 0]);
          (now (env h) + 20,
           [80; match Trigger.trigPolarity s with
                | Trigger.FallingEdge => 1 | Trigger.RisingEdge => 0
                end; 0]);
          (now (env h) + 40, [76; t / 16; t mod 16 * 16])] /\
    0 <= t <= 4095 /\ 0 <= t / 16 <= 255 /\ 0 <= t mod 16 * 16 <= 240 /\
    16 * (t / 16) + t mod 16 * 16 / 16 = t /\
    (s' = s \/ Trigger.trigRadio s' = Trigger.Auto) /\
    forall h2, SerialHandler.trigLevel (proto h2) = level ->
      setup_frame h2 4 = [76; level / 256; level mod 256] /\
      setup_frame h2 4 <> [76; t / 16; t mod 16 * 16].
Proof.
  intros Hlevel Hin level t.
  destruct (setTriggerMode_sends s ch1Buffer ch2Buffer h g Hlevel Hin)
    as (Hrange & Hdiffer & s' & Hsent & _ & Hsource).
  fold level t in Hrange, Hdiffer, Hsent.
  destruct (setTrigValue_bytes t Hrange) as (Hbytes & Hmsb & Hlsb & Hback).
  eexists _, _. split; [exact Hsent|].
  split; [reflexivity|]. split; [exact Hrange|].
  split; [exact Hmsb|]. split; [exact Hlsb|]. split; [exact Hback|].
  split; [exact Hsource|].
  intros h2 Hsame. split; [exact (handler_level_bytes level h2 Hlevel Hsame)|].
  intros Hequal.
  rewrite (handler_level_frame_bytes _ _ Hsame), <- Hbytes in Hequal.
  apply Hdiffer. symmetry. exact Hequal.
Qed.

(** Level 3000 on CH1 at gain 4: the window sends 2226, the handler 3000. *)
Lemma trigger_level_two_encodings_witness :
  let s := Trigger.mkSettings Trigger.CH1 Trigger.RisingEdge 3000 4 1 in
  let level := Trigger.trigLevel s in
  let t := clamp12 (2048 + Z.quot (3 * (level - 2048)) (4 * 4)) in
  exists s' h',
    setTriggerMode s [] [] (fresh p0) = Done (s', h') /\
    written (env h')
    = written (env (fresh p0))
      ++ [(now (env (fresh p0)),
           [84; match Trigger.trigRadio s with
                | Trigger.Auto => 0 | Trigger.CH1 => 1
                | Trigger.CH2 => 2 | Trigger.External => 3
                end; 0]);
          (now (env (fresh p0)) + 20,
           [80; match Trigger.trigPolarity s with
                | Trigger.FallingEdge => 1 | Trigger.RisingEdge => 0
                end; 0]);
          (now (env (fresh p0)) + 40, [76; t / 16; t mod 16 * 16])] /\
    0 <= t <= 4095 /\ 0 <= t / 16 <= 255 /\ 0 <= t mod 16 * 16 <= 240 /\
    16 * (t / 16) + t mod 16 * 16 / 16 = t /\
    (s' = s \/ Trigger.trigRadio s' = Trigger.Auto) /\
    forall h2, SerialHandler.trigLevel (proto h2) = level ->
      setup_frame h2 4 = [76; level / 256; level mod 256] /\
      setup_frame h2 4 <> [76; t / 16; t mod 16 * 16].
Proof.
  apply (trigger_level_two_encodings
           (Trigger.mkSettings Trigger.CH1 Trigger.RisingEdge 3000 4 1)
           [] [] (fresh p0) 4).
  - cbn. lia.
  - right. right. left. reflexivity.
Defined.

End TriggerModeFacts.

(** ** What a click on Run puts on the wire *)

Module WindowFacts.
Import CInt CIntFacts SerialHandler SerialFacts TriggerMode TriggerModeFacts
  SynthesisFacts.

Lemma setTriggerMode_explicit (s : Trigger.settings)
    (ch1Buffer ch2Buffer : list float) (h : handler) :
  0 <= Trigger.trigLevel s <= 4095 ->
  In (Trigger.ch1Gain s) (map fst whole_gains) ->
  In (Trigger.ch2Gain s) (map fst whole_gains) ->
  exists s' t,
    0 <= t <= 4095 /\
    setTriggerMode s ch1Buffer ch2Buffer h
    = Done (s',
            mkHandler (acq h) (proto h) (setupStep h) (acquisitionInProgress h)
              (mkWorld (timeoutTimer (env h)) (setupTimer (env h))
                 (incoming (env h))
                 (written (env h)
                  ++ [(now (env h),
                       [84; match Trigger.trigRadio s with
                            | Trigger.Auto => 0 | Trigger.CH1 => 1
                            | Trigger.CH2 => 2 | Trigger.External => 3
                            end; 0]);
                      (now (env h) + 20,
                       [80; match Trigger.trigPolarity s with
                            | Trigger.FallingEdge => 1 | Trigger.RisingEdge => 0
                            end; 0]);
                      (now (env h) + 40, [76; t / 16; t mod 16 * 16])])
                 (emitted (env h)) (now (env h) + 60))) /\
    Trigger.trigLevel s' = Trigger.trigLevel s.
Proof.
  intros Hlevel Hg1 Hg2.
  destruct (gain_listed s Hg1 Hg2) as (g & Hin).
  destruct (setTriggerMode_sends s ch1Buffer ch2Buffer h g Hlevel Hin)
    as (Hrange & _ & s' & Hsent & Hsame & _).
  eexists s', _. split; [exact Hrange|]. split; [exact Hsent|exact Hsame].
Qed.

Lemma start_keeps_proto (mode dataLength : Z) (dualChannel : bool) (h : handler) :
  proto (startOscilloscopeAcquisition mode dataLength dualChannel h) = proto h.
Proof.
  destruct (acquisitionInProgress h) eqn:Hflag.
  - unfold startOscilloscopeAcquisition. rewrite Hflag. reflexivity.
  - rewrite started by exact Hflag. reflexivity.
Qed.

(** X24. What a click on Run puts on the wire.  With the window connected
    and no acquisition in progress, [onRunClicked] and the seven setup
    steps that follow write nine frames: the window's T, P and L, then the
    handler's T, P and L, F with the serial mode, S with the combo box index
    as it is (0-based), and the capture command C; the handler then waits
    for the acknowledgment.  The window's L carries
    [t = clamp(2048 + 3 (level - 2048) / (4 g))], with [g] the gain of the
    channel that is the trigger source, left-justified in 12 bits; the
    handler's L carries the level itself, right-justified.  So every run
    sends the trigger level twice, in two encodings that differ, the
    handler's last. *)
Theorem run_on_the_wire (w : Window.window) (h : handler) (g : Z) :
  Window.isConnected w = true ->
  acquisitionInProgress h = false ->
  0 <= Trigger.trigLevel (Window.settings w) <= 4095 ->
  In (trigger_gain (Window.settings w), g) whole_gains ->
  let s := Window.settings w in
  let level := Trigger.trigLevel s in
  let t := clamp12 (2048 + Z.quot (3 * (level - 2048)) (4 * g)) in
  let mode :=
    match Window.acquisitionMode w with
    | BothChannels => 1 | CH1Only => 2 | CH2Only => 3
    end in
  exists w' h',
    Window.onRunClicked w h = Done (w', h') /\
    Window.isRunning w' = true /\
    0 <= t <= 4095 /\
    frames (setup_ticks 7 h')
    = frames h
      ++ [[84; match Trigger.trigRadio s with
               | Trigger.Auto => 0 | Trigger.CH1 => 1
               | Trigger.CH2 => 2 | Trigger.External => 3
               end; 0];
          [80; match Trigger.trigPolarity s with
               | Trigger.FallingEdge => 1 | Trigger.RisingEdge => 0
               end; 0];
          [76; t / 16; t mod 16 * 16];
          [84; to_char (Window.trigSource w); 0];
          [80; to_char (Window.trigPolarity w); 0];
          [76; level / 256; level mod 256];
          [70; mode; 0];
          [83; to_char (Window.sampleRateIndex w); 0];
          [67; 0; 0]] /\
    [76; t / 16; t mod 16 * 16] <> [76; level / 256; level mod 256] /\
    acqState (acq (setup_ticks 7 h')) = WaitingForDone /\
    timeoutTimer (env (setup_ticks 7 h')) = Some 5000.
Proof.
  intros Hconn Hflag Hlevel Hin s level t mode.
  set (p' := mkProtocol (Window.ch1Offset w) (Window.ch2Offset w)
               (Trigger.trigLevel (Window.settings w)) (Window.trigSource w)
               (Window.trigPolarity w) (Window.sampleRateIndex w)).
  destruct (setTriggerMode_sends (Window.settings w) (Window.ch1Buffer w)
              (Window.ch2Buffer w) (setProtocolParams p' h) g Hlevel Hin)
    as (Ht & Hdiffer & s' & Hsent & _).
  fold s level t in Ht, Hdiffer, Hsent.
  destruct (setTrigValue_bytes t Ht) as (Hbytes & _).
  eexists _, _. split.
  { unfold Window.onRunClicked. rewrite Hconn. cbn [negb]. cbv zeta.
    fold p'. fold s. rewrite Hsent. cbn [bind]. reflexivity. }
  split; [reflexivity|]. split; [exact Ht|].
  change (0 <= level <= 4095) in Hlevel.
  assert (Hframe : handler_level_frame level = [76; level / 256; level mod 256]).
  { rewrite <- (handler_level_frame_bytes level (setTrigger level (fresh p0)))
      by reflexivity.
    apply handler_level_bytes; [exact Hlevel|reflexivity]. }
  unfold SerialHandler.onRunClicked. cbv zeta.
  rewrite started by (destruct h; exact Hflag).
  rewrite seven_ticks.
  split; [|split; [|split; reflexivity]].
  2:{ rewrite <- Hbytes, <- Hframe. exact Hdiffer. }
  assert (Hhi : Z.land (Z.shiftr level 8) 255 = level / 256).
  { rewrite Z.shiftr_div_pow2 by lia. change (2 ^ 8) with 256.
    change 255 with (Z.ones 8). rewrite Z.land_ones by lia.
    change (2 ^ 8) with 256. apply Z.mod_small.
    Z.to_euclidean_division_equations; lia. }
  assert (Hlo : Z.land level 255 = level mod 256).
  { change 255 with (Z.ones 8). rewrite Z.land_ones by lia. reflexivity. }
  unfold frames. destruct h as [a pr st fl [tt sst inc wr em tm]].
  cbn [env written Generator.sleep msleep setProtocolParams proto acq setupStep
       acquisitionInProgress timeoutTimer setupTimer incoming emitted now].
  unfold setup_frames. subst p'.
  cbn [SerialHandler.trigSource SerialHandler.trigPolarity SerialHandler.trigLevel
       SerialHandler.sampleRateIdx].
  fold s. fold level.
  rewrite Hhi, Hlo. rewrite !map_app. cbn [map snd app].
  rewrite <- !app_assoc. cbn [app].
  assert (Hb1 : to_char (level / 256) = level / 256).
  { apply Z.mod_small. Z.to_euclidean_division_equations; lia. }
  assert (Hb2 : to_char (level mod 256) = level mod 256).
  { apply Z.mod_small. Z.to_euclidean_division_equations; lia. }
  rewrite Hb1, Hb2. subst mode.
  destruct (Window.acquisitionMode w); reflexivity.
Qed.

(** Level 3000 on CH1 at gain 4: the run sends 2226 in the window's frame
    and 3000 in the handler's. *)
Lemma run_on_the_wire_witness :
  let w :=
    Window.mkWindow (Trigger.mkSettings Trigger.CH1 Trigger.RisingEdge 3000 4 1)
      100 (-50) 1 0 3 CH1Only false true [] [] 5 in
  let h := fresh p0 in
  let s := Window.settings w in
  let level := Trigger.trigLevel s in
  let t := clamp12 (2048 + Z.quot (3 * (level - 2048)) (4 * 4)) in
  let mode :=
    match Window.acquisitionMode w with
    | BothChannels => 1 | CH1Only => 2 | CH2Only => 3
    end in
  exists w' h',
    Window.onRunClicked w h = Done (w', h') /\
    Window.isRunning w' = true /\
    0 <= t <= 4095 /\
    frames (setup_ticks 7 h')
    = frames h
      ++ [[84; match Trigger.trigRadio s with
               | Trigger.Auto => 0 | Trigger.CH1 => 1
               | Trigger.CH2 => 2 | Trigger.External => 3
               end; 0];
          [80; match Trigger.trigPolarity s with
               | Trigger.FallingEdge => 1 | Trigger.RisingEdge => 0
               end; 0];
          [76; t / 16; t mod 16 * 16];
          [84; to_char (Window.trigSource w); 0];
          [80; to_char (Window.trigPolarity w); 0];
          [76; level / 256; level mod 256];
          [70; mode; 0];
          [83; to_char (Window.sampleRateIndex w); 0];
          [67; 0; 0]] /\
    [76; t / 16; t mod 16 * 16] <> [76; level / 256; level mod 256] /\
    acqState (acq (setup_ticks 7 h')) = WaitingForDone /\
    timeoutTimer (env (setup_ticks 7 h')) = Some 5000.
Proof.
  apply (run_on_the_wire
           (Window.mkWindow
              (Trigger.mkSettings Trigger.CH1 Trigger.RisingEdge 3000 4 1)
              100 (-50) 1 0 3 CH1Only false true [] [] 5)
           (fresh p0) 4).
  - reflexivity.
  - reflexivity.
  - cbn. lia.
  - right. right. left. reflexivity.
Defined.

(** The time axis follows the 1-based selection: microseconds per sample
    times the rate of the sweep's table at the combo index is one second. *)
Lemma multipliers_match_rates :
  forallb (fun i =>
    Leibniz.eqb
      (Window.selection_multiplier (Z.of_nat i + 1) * nth i Sweep.sampleRates 0)%float
      1000000%float)
    (seq 0 14) = true.
Proof. vm_compute. reflexivity. Qed.

(** X25. The sample rate index is off by one between the two paths.  For
    a combo box index from 0 to 13, [onSampleRateChanged] hands the handler
    [index + 1], sends [S, index + 1, 0] at once while running, and sets
    the time axis to the microseconds per sample of the rate at [index];
    [onRunClicked] with the combo box at the same index hands the handler
    [index], so the setup sequence of the run sends [S, index, 0]. *)
Theorem sample_rate_index_off_by_one (index : Z) (w : Window.window) (h : handler) :
  0 <= index <= 13 ->
  Window.isConnected w = true -> Window.isRunning w = true ->
  0 <= Trigger.trigLevel (Window.settings w) <= 4095 ->
  In (Trigger.ch1Gain (Window.settings w)) (map fst whole_gains) ->
  In (Trigger.ch2Gain (Window.settings w)) (map fst whole_gains) ->
  let '(w1, h1) := Window.onSampleRateChanged index w h in
  sampleRateIdx (proto h1) = index + 1 /\
  written (env h1) = written (env h) ++ [(now (env h), [83; index + 1; 0])] /\
  Window.sampleRateIndex w1 = index /\
  (Window.multiplier w1 * nth (Z.to_nat index) Sweep.sampleRates 0 = 1000000)%float /\
  exists w2 h2,
    Window.onRunClicked w1 h1 = Done (w2, h2) /\
    sampleRateIdx (proto h2) = index /\
    setup_frame h2 6 = [83; index; 0] /\
    setup_frame h1 6 = [83; index + 1; 0].
Proof.
  intros Hindex Hconn Hrun Hlevel Hg1 Hg2.
  unfold Window.onSampleRateChanged. cbv zeta.
  cbn [Window.isRunning Window.isConnected Window.settings Window.ch1Offset
       Window.ch2Offset Window.trigSource Window.trigPolarity
       Window.sampleRateIndex Window.multiplier].
  rewrite Hrun, Hconn. cbn [andb].
  rewrite wrap32_id by (unfold in_int, INT_MIN, INT_MAX; lia).
  assert (Hbyte : to_char (index + 1) = index + 1)
    by (apply Z.mod_small; lia).
  assert (Hbyte0 : to_char index = index) by (apply Z.mod_small; lia).
  rewrite Hbyte.
  split; [reflexivity|]. split; [destruct h as [a pr st fl []]; reflexivity|].
  split; [reflexivity|]. split.
  { apply Leibniz.eqb_spec.
    pose proof multipliers_match_rates as Hall. rewrite forallb_forall in Hall.
    specialize (Hall (Z.to_nat index)). rewrite Z2Nat.id in Hall by lia.
    apply Hall. apply in_seq. lia. }
  match goal with
  | |- exists w2 h2, Window.onRunClicked ?w1 ?h1 = _ /\ _ =>
      destruct (setTriggerMode_explicit (Window.settings w1) (Window.ch1Buffer w1)
                  (Window.ch2Buffer w1)
                  (setProtocolParams
                     (mkProtocol (Window.ch1Offset w1) (Window.ch2Offset w1)
                        (Trigger.trigLevel (Window.settings w1))
                        (Window.trigSource w1) (Window.trigPolarity w1)
                        (Window.sampleRateIndex w1)) h1))
        as (s' & t & Ht & Hsent & _); [exact Hlevel|exact Hg1|exact Hg2|]
  end.
  eexists _, _. split.
  { unfold Window.onRunClicked.
    cbn [Window.isConnected Window.settings Window.ch1Offset Window.ch2Offset
         Window.trigSource Window.trigPolarity Window.sampleRateIndex
         Window.ch1Buffer Window.ch2Buffer Window.acquisitionMode] in *.
    rewrite ?Hconn. cbn [negb]. cbv zeta. rewrite Hsent. cbn [bind]. reflexivity. }
  unfold SerialHandler.onRunClicked. cbv zeta.
  unfold setup_frame. rewrite start_keeps_proto.
  destruct h as [a pr st fl []].
  unfold Generator.sleep, sendCommand, setProtocolParams.
  cbn [proto sampleRateIdx Window.sampleRateIndex]. rewrite Hbyte0, Hbyte.
  repeat split.
Qed.

Lemma sample_rate_index_off_by_one_witness :
  let w := Window.mkWindow Trigger.ch1_rising 100 (-50) 1 0 3 CH1Only true true
             [] [] 5 in
  let '(w1, h1) := Window.onSampleRateChanged 4 w (fresh p0) in
  sampleRateIdx (proto h1) = 4 + 1 /\
  written (env h1)
  = written (env (fresh p0)) ++ [(now (env (fresh p0)), [83; 4 + 1; 0])] /\
  Window.sampleRateIndex w1 = 4 /\
  (Window.multiplier w1 * nth (Z.to_nat 4) Sweep.sampleRates 0 = 1000000)%float /\
  exists w2 h2,
    Window.onRunClicked w1 h1 = Done (w2, h2) /\
    sampleRateIdx (proto h2) = 4 /\
    setup_frame h2 6 = [83; 4; 0] /\
    setup_frame h1 6 = [83; 4 + 1; 0].
Proof.
  apply (sample_rate_index_off_by_one 4
           (Window.mkWindow Trigger.ch1_rising 100 (-50) 1 0 3 CH1Only true true
              [] [] 5)
           (fresh p0)).
  - lia.
  - reflexivity.
  - reflexivity.
  - cbn. lia.
  - cbn. auto.
  - cbn. auto.
Defined.

End WindowFacts.
